(** * Evidence-gated recommendation pipeline: a shallow embedding.

    The Python sources embedded here are
      - plana_engine/policies/policy_evidence.py      (EvidenceGate)
      - plana_engine/report/judgment.py               (precedent-aware engine)
      - plana_engine/judgement/weighing_balance.py    (score-only engine)
      - scripts/report_rerank.py                      (reranker / diversifier)
      - scripts/auto_tune_weights.py                  (per-run tuner)
      - scripts/update_weights_from_feedback.py       (batch tuner)
      - scripts/score_report_quality.py               (heuristic quality scorer)

    Modelling conventions.
      - A Python [float] is the rational number it denotes ([Q]); infinities
        and NaN are outside the model, except in weighing_balance.py.
        Equality of numbers is [Qeq] ([==]), and comparisons, [min], [max]
        and clamps are exact, as they are on doubles.
      - In weighing_balance.py the arithmetic is that of binary64
        ([Py.float]: a finite number, an infinity, or not a number).  The
        score that is read, every addition of [sum] and the division of the
        average are rounded to the nearest double, ties to even ([Py.fl]),
        and a result out of range is an infinity ([Py.round]).  The other
        files are modelled with exact sums, differences and products: their
        results are those of the code up to the rounding of each operation.
      - A Python [int] is [Z]; [len] is converted with [Z.of_nat].
      - A Python [str] is a [string] of 8-bit characters; [str.lower] lowers the
        ASCII letters.
      - A JSON object read with [.get] is a record whose fields are [option]s
        ([None]: the key is absent or null).  A [dict] that is iterated or
        updated by key is an association list in insertion order.
      - A dict literal that a function returns is a [PDict]: the keys it holds
        are exactly the keys of the literal. *)

From Stdlib Require Import QArith Qminmax Qabs Qround Qpower ZArith List String.
From Stdlib Require Import Ascii Bool Lia Lqa.
From Stdlib Require Import Sorting.Sorted Permutation DecimalString.
Import ListNotations.

Open Scope string_scope.
Open Scope list_scope.

(* ================================================================== *)
(** ** Python primitives *)
(* ================================================================== *)

Module Py.

(** [c.lower()] for one character: the ASCII capitals move down by 32. *)
Definition lower_ascii (c : ascii) : ascii :=
  let n := nat_of_ascii c in
  if (65 <=? n)%nat && (n <=? 90)%nat then ascii_of_nat (n + 32) else c.

(** [s.lower()]. *)
Fixpoint lower (s : string) : string :=
  match s with
  | EmptyString => EmptyString
  | String c s' => String (lower_ascii c) (lower s')
  end.

(** [needle in hay] on strings: [needle] occurs at some offset of [hay]; the
    empty needle occurs in every string. *)
Fixpoint str_in (needle hay : string) : bool :=
  prefix needle hay ||
  match hay with
  | EmptyString => false
  | String _ hay' => str_in needle hay'
  end.

(** [any(k in t for k in ks)]. *)
Definition any_in (ks : list string) (t : string) : bool :=
  existsb (fun k => str_in k t) ks.

(** Truthiness of a string that may be [None]. *)
Definition truthy_str (o : option string) : bool :=
  match o with
  | Some (String _ _) => true
  | _ => false
  end.

(** [o or d] for a string. *)
Definition str_or (o : option string) (d : string) : string :=
  match o with
  | Some (String c s) => String c s
  | _ => d
  end.

(** [o1 or o2] where both may be [None] or empty. *)
Definition opt_or (o1 o2 : option string) : option string :=
  if truthy_str o1 then o1 else o2.

(** [o or []] for a list. *)
Definition list_or {A} (o : option (list A)) (d : list A) : list A :=
  match o with
  | Some (x :: l) => x :: l
  | _ => d
  end.

(** [o1 or o2] for lists, the result still optional. *)
Definition opt_list_or {A} (o1 o2 : option (list A)) : option (list A) :=
  match o1 with
  | Some (x :: l) => Some (x :: l)
  | _ => o2
  end.

(** [a < b] on numbers, as a boolean. *)
Definition Qltb (a b : Q) : bool := negb (Qle_bool b a).

(** [float(o or 0.0)]: a missing, null or zero score becomes [0.0]. *)
Definition num_or0 (o : option Q) : Q :=
  match o with
  | Some q => if Qeq_bool q 0 then 0%Q else q
  | None => 0%Q
  end.

(** The builtin [min(a, b)]: [b] when [b < a], else [a]. *)
Definition min (a b : Q) : Q := if Qltb b a then b else a.

(** The builtin [max(a, b)]: [b] when [b > a], else [a]. *)
Definition max (a b : Q) : Q := if Qltb a b then b else a.

(** [sum(l)] over numbers. *)
Definition sum (l : list Q) : Q := fold_left Qplus l 0%Q.

(** The integer nearest to [q]; a [q] half way between two integers goes to
    the even one. *)
Definition round_half_even (q : Q) : Z :=
  let f := Qfloor q in
  match (q - inject_Z f ?= 1 # 2)%Q with
  | Lt => f
  | Gt => (f + 1)%Z
  | Eq => if Z.even f then f else (f + 1)%Z
  end.

(** The exponent [e] of a positive [q]: [2^e <= q < 2^(e+1)]. *)
Definition binade (q : Q) : Z :=
  let e := (Z.log2 (Qnum q) - Z.log2 (Zpos (Qden q)))%Z in
  if Qle_bool (2 ^ e) q then e else (e - 1)%Z.

(** The unit in the last place of a double of the size of [q]: 53
    significant bits, and no unit under [2^-1074]. *)
Definition ulp (q : Q) : Q := (2 ^ Z.max (binade (Qabs q) - 52) (-1074))%Q.

(** Rounding with 53 significant bits: the multiple of [ulp q] nearest to
    [q], ties to the even multiple. *)
Definition fl (q : Q) : Q :=
  if Qeq_bool q 0 then 0%Q
  else
    let r := Qred (inject_Z (round_half_even (Qabs q / ulp q)) * ulp q) in
    if Qle_bool 0 q then r else (- r)%Q.

(** A double: a finite number, an infinity, or not a number.  The two zeros
    of binary64 are one number here; they compare equal in Python. *)
Inductive float : Type :=
  | Fin (q : Q)
  | PInf
  | NInf
  | NaN.

(** Rounding to binary64: [fl q], or an infinity when [fl q] is out of the
    range of the doubles. *)
Definition round (q : Q) : float :=
  let r := fl q in
  if Qle_bool (2 ^ 1024) r then PInf
  else if Qle_bool r (- 2 ^ 1024) then NInf
  else Fin r.

(** [float(o or 0.0)], the number as a double.  A JSON number too large for
    a double is an infinity when it is written with a fraction or an
    exponent; written as an integer it makes [float] raise, which is outside
    the model. *)
Definition float_or0 (o : option Q) : float := round (num_or0 o).

(** [a + b] on doubles. *)
Definition fadd (a b : float) : float :=
  match a, b with
  | Fin x, Fin y => round (x + y)
  | NaN, _ | _, NaN => NaN
  | PInf, NInf | NInf, PInf => NaN
  | PInf, _ | _, PInf => PInf
  | NInf, _ | _, NInf => NInf
  end.

(** [a / n] for a double [a] and an integer [n >= 1]: [n] becomes the double
    [float(n)], and an infinity keeps its sign. *)
Definition fdiv_int (a : float) (n : Z) : float :=
  match a with
  | Fin x => round (x / fl (inject_Z n))
  | _ => a
  end.

(** [a <= b] and [a < b] on doubles: false when one side is not a number. *)
Definition fle (a b : float) : bool :=
  match a, b with
  | NaN, _ | _, NaN => false
  | NInf, _ | _, PInf => true
  | Fin x, Fin y => Qle_bool x y
  | _, _ => false
  end.

Definition flt (a b : float) : bool :=
  match a, b with
  | NaN, _ | _, NaN => false
  | PInf, _ | _, NInf => false
  | Fin x, Fin y => Qltb x y
  | _, _ => true
  end.

(** The builtin [max(a, b)] on doubles: [b] when [b > a], else [a]. *)
Definition fmax (a b : float) : float := if flt a b then b else a.

(** [sum(l)] over doubles: from the integer 0, one rounded addition per
    element, left to right.  (CPython adds floats so up to version 3.11;
    later versions also carry a correction term, which can change the last
    digit of the sum.) *)
Definition fsum (l : list float) : float := fold_left fadd l (Fin 0).

(** [len(l)] as a Python integer. *)
Definition len {A} (l : list A) : Z := Z.of_nat (List.length l).

(** [l[:n]] for a non-negative literal [n]. *)
Definition take {A} (n : nat) (l : list A) : list A := firstn n l.

(** [l[-n:]] for [n = min(10, len(l))]: the last [n] elements. *)
Definition last_n {A} (n : nat) (l : list A) : list A :=
  skipn (List.length l - n) l.

(** Insertion of [x] in a list that is sorted by decreasing key: [x] goes
    after the elements whose key is strictly larger and before the others. *)
Fixpoint insert_desc {A} (key : A -> Q) (x : A) (l : list A) : list A :=
  match l with
  | [] => [x]
  | y :: l' => if Qltb (key x) (key y) then y :: insert_desc key x l' else x :: l
  end.

(** [l.sort(key=key, reverse=True)]: the stable sort by decreasing key, in
    which elements of equal key keep the order they had in [l]. *)
Fixpoint sort_desc {A} (key : A -> Q) (l : list A) : list A :=
  match l with
  | [] => []
  | x :: l' => insert_desc key x (sort_desc key l')
  end.

(** A dict in insertion order. *)
Definition dict (A : Type) : Type := list (string * A).

(** [d.get(k)]. *)
Fixpoint dict_get {A} (k : string) (d : dict A) : option A :=
  match d with
  | [] => None
  | (k', v) :: d' => if String.eqb k k' then Some v else dict_get k d'
  end.

(** [d[k] = v]: an existing key keeps its place, a new key goes last. *)
Fixpoint dict_set {A} (k : string) (v : A) (d : dict A) : dict A :=
  match d with
  | [] => [(k, v)]
  | (k', v') :: d' =>
      if String.eqb k k' then (k', v) :: d' else (k', v') :: dict_set k v d'
  end.

(** The values a returned dict literal holds. *)
#[local] Set Warnings "-register-all".
Inductive pyval : Type :=
  | PNone
  | PBool (b : bool)
  | PNum (q : Q)
  | PStr (s : string)
  | PList (l : list pyval)
  | PDict (d : list (string * pyval)).

(** [v.get(k)] / [v[k]] on a returned dict. *)
Definition field (k : string) (v : pyval) : option pyval :=
  match v with
  | PDict d => dict_get k d
  | _ => None
  end.

Definition strs (l : list string) : pyval := PList (map PStr l).

End Py.

(* ================================================================== *)
(** ** Data model *)
(* ================================================================== *)

(** An evidence item: a retrieval result of the policy provider, and the
    same dict once the reranker has attached [_rerank_score] to it. *)
Record Evidence : Type := mkEvidence {
  authority : option string;
  doc_key : option string;
  doc_title : option string;
  paragraph_ref : option string;
  page_start : option Z;
  page_end : option Z;
  source_path : option string;
  score : option Q;
  text : option string;
  snippet : option string;
  _rerank_score : option Q
}.

(** The provenance record shown for an evidence item. *)
Record Citation : Type := mkCitation {
  c_authority : option string;
  c_doc_key : option string;
  c_doc_title : option string;
  c_paragraph_ref : option string;
  c_page_start : option Z;
  c_page_end : option Z;
  c_source_path : option string;
  c_score : option Q
}.

(** The policy block: the provider's output ([ok], [reason], [results]) and
    the gate's output ([ok], [reason], [citations], [evidence]) are dicts of
    this one shape.  [pb_ok] is the truth value of [.get("ok")].  Where a
    function takes an optional block, [None] stands for [None] and for the
    empty dict, which Python's [not block] does not tell apart. *)
Record PolicyBlock : Type := mkPolicyBlock {
  pb_ok : bool;
  pb_reason : option string;
  pb_results : option (list Evidence);
  pb_citations : option (list Citation);
  pb_evidence : option (list Evidence)
}.

(** A precedent (historic case) result. *)
Record CaseResult : Type := mkCaseResult {
  cr_score : option Q;
  cr_decision : option string;
  cr_reasons_text : option string;
  cr_officer_report_text : option string;
  cr_conditions_text : option string
}.

(** The precedent block. *)
Record CaseBlock : Type := mkCaseBlock {
  cb_ok : bool;
  cb_reason : option string;
  cb_results : option (list CaseResult)
}.

(** What [_avg_top_scores] reads of an item: [e.get("score")]. *)
Class Scored (A : Type) : Type := get_score : A -> option Q.

#[export] Instance Scored_Evidence : Scored Evidence := score.
#[export] Instance Scored_CaseResult : Scored CaseResult := cr_score.

(** The weights file, config/relevance_weights.json.  [topic_penalty] is the
    key the per-run tuner writes, [topic_penalties] the key the batch tuner
    writes and the reranker reads. *)
Record Weights : Type := mkWeights {
  doc_diversity_target : option Z;
  max_evidence_items : option Z;
  c3_keyword_boost : option Q;
  c3_keywords : option (list string);
  irrelevance_penalty_per_hit : option Q;
  min_score_floor : option Q;
  doc_boost : option (Py.dict Q);
  topic_penalties : option (Py.dict Q);
  topic_penalty : option (Py.dict Q)
}.

(** The empty JSON object [{}]. *)
Definition empty_weights : Weights :=
  mkWeights None None None None None None None None None.

Definition set_doc_diversity_target (v : Z) (w : Weights) : Weights :=
  mkWeights (Some v) (max_evidence_items w) (c3_keyword_boost w) (c3_keywords w)
    (irrelevance_penalty_per_hit w) (min_score_floor w) (doc_boost w)
    (topic_penalties w) (topic_penalty w).

Definition set_irrelevance_penalty_per_hit (v : Q) (w : Weights) : Weights :=
  mkWeights (doc_diversity_target w) (max_evidence_items w) (c3_keyword_boost w)
    (c3_keywords w) (Some v) (min_score_floor w) (doc_boost w)
    (topic_penalties w) (topic_penalty w).

Definition set_doc_boost (v : Py.dict Q) (w : Weights) : Weights :=
  mkWeights (doc_diversity_target w) (max_evidence_items w) (c3_keyword_boost w)
    (c3_keywords w) (irrelevance_penalty_per_hit w) (min_score_floor w) (Some v)
    (topic_penalties w) (topic_penalty w).

Definition set_topic_penalties (v : Py.dict Q) (w : Weights) : Weights :=
  mkWeights (doc_diversity_target w) (max_evidence_items w) (c3_keyword_boost w)
    (c3_keywords w) (irrelevance_penalty_per_hit w) (min_score_floor w)
    (doc_boost w) (Some v) (topic_penalty w).

Definition set_topic_penalty (v : Py.dict Q) (w : Weights) : Weights :=
  mkWeights (doc_diversity_target w) (max_evidence_items w) (c3_keyword_boost w)
    (c3_keywords w) (irrelevance_penalty_per_hit w) (min_score_floor w)
    (doc_boost w) (topic_penalties w) (Some v).

(* ================================================================== *)
(** ** plana_engine/policies/policy_evidence.py *)
(* ================================================================== *)

Module policy_evidence.

(** The citation built from one result [r]. *)
Definition citation_of (r : Evidence) : Citation :=
  mkCitation (authority r) (doc_key r) (doc_title r) (paragraph_ref r)
    (page_start r) (page_end r) (source_path r) (score r).

(** [require_policy_evidence(retrieval_out, min_results)]: the returned dict
    has the keys [ok], [reason], [citations], [evidence]. *)
Definition require_policy_evidence (retrieval_out : PolicyBlock) (min_results : Z)
  : PolicyBlock :=
  let ok := pb_ok retrieval_out in
  let results := Py.list_or (pb_results retrieval_out) [] in
  if negb ok || (Py.len results <? min_results)%Z then
    mkPolicyBlock false
      (Some (Py.str_or (pb_reason retrieval_out) "Insufficient policy evidence"))
      None (Some []) (Some [])
  else
    mkPolicyBlock true None None (Some (map citation_of results)) (Some results).

End policy_evidence.

(* ================================================================== *)
(** ** plana_engine/report/judgment.py *)
(* ================================================================== *)

Module judgment.

Definition AMENITY_WORDS : list string :=
  ["residential amenity"; "privacy"; "overlooking"; "daylight"; "sunlight";
   "outlook"; "noise"; "disturbance"].
Definition DESIGN_WORDS : list string :=
  ["design"; "character"; "scale"; "massing"; "materials"; "appearance"].
Definition HERITAGE_WORDS : list string :=
  ["heritage"; "listed"; "conservation area"; "setting"; "significance"].
Definition HIGHWAYS_WORDS : list string :=
  ["highway"; "parking"; "traffic"; "access"; "visibility"; "junction"].
Definition FLOOD_WORDS : list string :=
  ["flood"; "drainage"; "surface water"; "suds"].
Definition TREES_WORDS : list string :=
  ["tree"; "tpo"; "arboricultural"; "hedgerow"].

(** The de-duplication loop of [detect_issues], order kept. *)
Fixpoint dedup (seen : list string) (issues : list string) : list string :=
  match issues with
  | [] => []
  | x :: rest =>
      if existsb (String.eqb x) seen then dedup seen rest
      else x :: dedup (x :: seen) rest
  end.

Definition detect_issues (proposal_text : option string) : list string :=
  let t := Py.lower (Py.str_or proposal_text "") in
  let tag (ws : list string) (name : string) : list string :=
    if Py.any_in ws t then [name] else [] in
  let issues :=
    tag ["rear extension"; "single storey"; "two storey"; "loft"; "dormer";
         "outbuilding"; "porch"] "householder"
    ++ tag AMENITY_WORDS "amenity"
    ++ tag DESIGN_WORDS "design"
    ++ tag HERITAGE_WORDS "heritage"
    ++ tag HIGHWAYS_WORDS "highways"
    ++ tag FLOOD_WORDS "flood"
    ++ tag TREES_WORDS "trees" in
  let issues := match issues with [] => ["general"] | _ => issues end in
  dedup [] issues.

Definition _avg_top_scores {A} `{Scored A} (evidence : list A) (n : nat) : Q :=
  match evidence with
  | [] => 0%Q
  | _ =>
      let scores := map (fun e => Py.num_or0 (get_score e)) evidence in
      let scores := Py.sort_desc (fun x => x) scores in
      let top := Py.take n scores in
      (Py.sum top / inject_Z (Z.max 1 (Py.len top)))%Q
  end.

Definition _policy_strength (policy_block : option PolicyBlock)
  : bool * Q * string :=
  match policy_block with
  | None => (false, 0%Q, "no_policy_results")
  | Some pb =>
      if negb (pb_ok pb) then (false, 0%Q, "no_policy_results")
      else
        let ev := Py.list_or (Py.opt_list_or (pb_evidence pb) (pb_results pb)) [] in
        let avg := _avg_top_scores ev 6 in
        if (Py.len ev <? 3)%Z then (false, avg, "policy_results_too_few")
        else if Py.Qltb avg 3.0 then (false, avg, "policy_scores_too_low")
        else (true, avg, "ok")
  end.

Definition _case_strength (case_block : option CaseBlock)
  : bool * Q * string :=
  match case_block with
  | None => (false, 0%Q, "precedents_not_enabled")
  | Some cb =>
      if negb (cb_ok cb) then
        (false, 0%Q, Py.str_or (cb_reason cb) "no_case_results")
      else
        let ev := Py.list_or (cb_results cb) [] in
        let avg := _avg_top_scores ev 5 in
        if (Py.len ev <? 1)%Z then (false, avg, "case_results_too_few")
        else if Py.Qltb avg 2.0 then (false, avg, "case_scores_too_low")
        else (true, avg, "ok")
  end.

Definition _draft_householder_conditions (policy_evidence : list Evidence)
    (proposal_text : option string) : list string :=
  let t := Py.lower (Py.str_or proposal_text "") in
  ["The development hereby approved shall be carried out in accordance with the approved plans and supporting documents."]
  ++ (if Py.any_in ["materials"; "match existing"] t then
        ["External materials shall match the existing dwelling unless otherwise agreed in writing by the Local Planning Authority."]
      else [])
  ++ (if Py.str_in "privacy" t || Py.str_in "overlooking" t then
        ["Any side-facing windows serving habitable rooms shall be obscure glazed and non-opening below 1.7m from finished floor level."]
      else []).

(** The phrases of the harm-flag scan. *)
Definition HARM_PHRASES : list string :=
  ["loss of light"; "overlooking"; "overbearing"; "unacceptable"].

(** The amenity-harm terms looked for in a refused precedent's reasons. *)
Definition REFUSAL_TERMS : list string :=
  ["loss of daylight"; "overbearing"; "privacy"; "overlooking"].

Definition CONDITION_TERMS : list string :=
  ["materials"; "obscure"; "glazing"; "plans"].

(** The text of a precedent that is scanned for refusal terms. *)
Definition reasons_of (c : CaseResult) : string :=
  Py.lower (Py.str_or (Py.opt_or (cr_reasons_text c) (cr_officer_report_text c)) "").

(** The loop over the first five precedents, threading
    [(tilt_refuse, tilt_conditions)]. *)
Fixpoint tilt_loop (cs : list CaseResult) (tilt : bool * bool) : bool * bool :=
  match cs with
  | [] => tilt
  | c :: rest =>
      let dec := Py.lower (Py.str_or (cr_decision c) "") in
      let tilt_refuse :=
        if Py.str_in "refus" dec && Py.any_in REFUSAL_TERMS (reasons_of c)
        then true else fst tilt in
      let tilt_conditions :=
        if Py.str_in "approved" dec
           && Py.any_in CONDITION_TERMS (Py.lower (Py.str_or (cr_conditions_text c) ""))
        then true else snd tilt in
      tilt_loop rest (tilt_refuse, tilt_conditions)
  end.

Definition signals (policy_score case_score : Q) (case_reason : string) : Py.pyval :=
  Py.PDict [("policy_avg_score", Py.PNum policy_score);
            ("case_avg_score", Py.PNum case_score);
            ("case_reason", Py.PStr case_reason)].

Definition REFUSAL_BOILERPLATE : string :=
  "The proposal would result in unacceptable harm to the residential amenity of neighbouring occupiers by reason of loss of light / overbearing impact / loss of privacy, contrary to the relevant Development Plan policies.".

Definition make_recommendation (proposal_text : option string)
    (policy_block : option PolicyBlock) (case_block : option CaseBlock)
    (require_precedent : bool) : Py.pyval :=
  let issues := detect_issues proposal_text in
  let '(policy_ok, policy_score, policy_reason) := _policy_strength policy_block in
  let '(case_ok, case_score, case_reason) := _case_strength case_block in
  if negb policy_ok then
    Py.PDict [("decision", Py.PStr "insufficient_evidence");
              ("reason", Py.PStr ("policy_retrieval_weak:" ++ policy_reason));
              ("issues", Py.strs issues);
              ("signals", signals policy_score case_score case_reason);
              ("draft_conditions", Py.PList []);
              ("draft_refusal_reasons", Py.PList [])]
  else if require_precedent && negb case_ok then
    Py.PDict [("decision", Py.PStr "insufficient_evidence");
              ("reason", Py.PStr ("precedent_retrieval_weak:" ++ case_reason));
              ("issues", Py.strs issues);
              ("signals", signals policy_score case_score case_reason);
              ("draft_conditions", Py.PList []);
              ("draft_refusal_reasons", Py.PList [])]
  else
    let t := Py.lower (Py.str_or proposal_text "") in
    let harm_flags := Py.any_in HARM_PHRASES t in
    let '(tilt_refuse, tilt_conditions) :=
      if case_ok then
        tilt_loop
          (Py.take 5 (Py.list_or (match case_block with
                                  | Some cb => cb_results cb
                                  | None => None
                                  end) []))
          (false, true)
      else (false, true) in
    if tilt_refuse && harm_flags then
      Py.PDict [("decision", Py.PStr "refuse");
                ("reason", Py.PNone);
                ("issues", Py.strs issues);
                ("signals", signals policy_score case_score case_reason);
                ("draft_conditions", Py.PList []);
                ("draft_refusal_reasons", Py.strs [REFUSAL_BOILERPLATE])]
    else
      let conds :=
        if tilt_conditions then
          _draft_householder_conditions
            (Py.list_or (match policy_block with
                         | Some pb => pb_evidence pb
                         | None => None
                         end) [])
            proposal_text
        else [] in
      let decision :=
        match conds with [] => "approve" | _ => "approve_with_conditions" end in
      Py.PDict [("decision", Py.PStr decision);
                ("reason", Py.PNone);
                ("issues", Py.strs issues);
                ("signals", signals policy_score case_score case_reason);
                ("draft_conditions", Py.strs conds);
                ("draft_refusal_reasons", Py.PList [])].

End judgment.

(* ================================================================== *)
(** ** plana_engine/judgement/weighing_balance.py *)
(* ================================================================== *)

Module weighing_balance.

Definition _topic_from_text (q : option string) : string :=
  let ql := Py.lower (Py.str_or q "") in
  if Py.any_in ["rear extension"; "single storey"; "two storey"; "loft"; "dormer";
                "outbuilding"; "garage"; "porch"] ql then "householder"
  else if Py.any_in ["listed"; "conservation area"; "heritage"; "historic"] ql
  then "heritage"
  else if Py.any_in ["parking"; "traffic"; "highway"; "visibility"; "access";
                     "junction"] ql then "highways"
  else if Py.any_in ["flood"; "surface water"; "drainage"; "suds"] ql then "flood"
  else "general".

(** [(policy_block or {}).get("results") or []]. *)
Definition results_of (policy_block : option PolicyBlock) : list Evidence :=
  match policy_block with
  | Some pb => Py.list_or (pb_results pb) []
  | None => []
  end.

(** [scores]: one double per result. *)
Definition scores_of (results : list Evidence) : list Py.float :=
  map (fun r => Py.float_or0 (score r)) results.

(** [sum(scores) / max(len(scores), 1)]. *)
Definition avg_score (scores : list Py.float) : Py.float :=
  Py.fdiv_int (Py.fsum scores) (Z.max (Py.len scores) 1).

(** [max(scores) if scores else 0.0]. *)
Definition top_score (scores : list Py.float) : Py.float :=
  match scores with
  | [] => Py.Fin 0.0
  | s :: rest => fold_left Py.fmax rest s
  end.

Definition newline : string := String (ascii_of_nat 10) EmptyString.

Definition AMENITY_ISSUE : string := "Neighbour amenity (privacy/daylight/outlook)".
Definition DESIGN_ISSUE : string := "Design/scale/materials/character".

(** [x in issues] on a list of strings. *)
Definition mem (x : string) (l : list string) : bool := existsb (String.eqb x) l.

(** The text of the results, each cut at 4000 characters and lowered, one
    per line. *)
Definition text_blob_of (results : list Evidence) : string :=
  String.concat newline
    (map (fun r => Py.lower (substring 0 4000 (Py.str_or (text r) ""))) results).

(** "Extract issues from evidence text". *)
Definition issues_of (topic text_blob : string) : list string :=
  (if String.eqb topic "householder" then
     (if Py.any_in ["amenity"; "privacy"; "overlooking"; "daylight";
                    "sunlight"; "outlook"] text_blob
      then [AMENITY_ISSUE] else [])
     ++ (if Py.any_in ["design"; "scale"; "materials"; "character"] text_blob
         then [DESIGN_ISSUE] else [])
   else [])
  ++ (if String.eqb topic "heritage" then ["Heritage significance/setting"] else [])
  ++ (if String.eqb topic "highways" then ["Highway safety/parking/access"] else [])
  ++ (if String.eqb topic "flood" then ["Flood risk/surface water drainage"] else []).

(** "Decision rules (v1)": [(decision, confidence)]. *)
Definition decision_rule (avg_score top_score : Py.float) : string * Q :=
  if Py.fle (Py.Fin 4.0) avg_score && Py.fle (Py.Fin 4.5) top_score
  then ("approve_with_conditions", 0.70%Q)
  else if Py.flt avg_score (Py.Fin 2.5) then ("insufficient_evidence", 0.25%Q)
  else ("needs_officer_review", 0.45%Q).

(** "Reasons (v1)": [reasons_for]. *)
Definition reasons_for_of (decision : string) (issues : list string) : list string :=
  if String.eqb decision "approve_with_conditions" then
    ["Policy evidence indicates the proposal can be acceptable subject to detailed design/amenity safeguards."]
    ++ (if mem AMENITY_ISSUE issues then
          ["Key amenity considerations are addressed through assessment against amenity-focused policies."]
        else [])
    ++ (if mem DESIGN_ISSUE issues then
          ["Design/scale/materials can be controlled through conditions and adherence to approved plans."]
        else [])
  else [].

(** "Reasons (v1)": [reasons_against]. *)
Definition reasons_against_of (decision : string) (issues : list string)
  : list string :=
  if String.eqb decision "approve_with_conditions" then []
  else if String.eqb decision "needs_officer_review" then
    ["Policy evidence retrieved but requires officer judgement to weigh impacts and site context."]
    ++ (match issues with
        | [] => []
        | _ => [("Main issues flagged: " ++ String.concat ", " issues ++ ".")%string]
        end)
  else
    ["Retrieval quality appears weak for drawing a conclusion; expand documents / improve retrieval filtering."].

(** "Conditions (v1)". *)
Definition suggested_conditions_of (decision : string) (issues : list string)
  : list string :=
  if String.eqb decision "approve_with_conditions" then
    ["Works to be carried out in accordance with the approved plans.";
     "External materials to match existing dwelling unless otherwise agreed in writing by the LPA."]
    ++ (if mem AMENITY_ISSUE issues then
          ["No additional windows/openings facing neighbouring properties unless otherwise agreed in writing by the LPA."]
        else [])
  else [].

Definition weigh_balance (proposal_text : option string)
    (policy_block : option PolicyBlock) : Py.pyval :=
  let results := results_of policy_block in
  match results with
  | [] =>
      Py.PDict [("decision", Py.PStr "insufficient_evidence");
                ("confidence", Py.PNum 0.0);
                ("reasons_for", Py.PList []);
                ("reasons_against", Py.strs ["No policy evidence retrieved."]);
                ("suggested_conditions", Py.PList []);
                ("issues", Py.PList [])]
  | _ =>
      let scores := scores_of results in
      let topic := _topic_from_text proposal_text in
      let issues := issues_of topic (text_blob_of results) in
      let '(decision, confidence) :=
        decision_rule (avg_score scores) (top_score scores) in
      Py.PDict [("decision", Py.PStr decision);
                ("confidence", Py.PNum confidence);
                ("reasons_for", Py.strs (reasons_for_of decision issues));
                ("reasons_against", Py.strs (reasons_against_of decision issues));
                ("suggested_conditions",
                 Py.strs (suggested_conditions_of decision issues));
                ("issues", Py.strs issues)]
  end.

End weighing_balance.

(* ================================================================== *)
(** ** scripts/report_rerank.py *)
(* ================================================================== *)

Module report_rerank.

(** [cfg.setdefault(key, d)] on one field. *)
Definition setdefault {A} (o : option A) (d : A) : option A :=
  match o with
  | Some v => Some v
  | None => Some d
  end.

(** [w.get(key, d)] on one field. *)
Definition get {A} (o : option A) (d : A) : A :=
  match o with
  | Some v => v
  | None => d
  end.

(** [load_weights(cfg)]: the defaults fill the keys that are absent; the key
    [topic_penalty] is not one of them and is left as it is. *)
Definition load_weights (cfg : Weights) : Weights :=
  mkWeights
    (setdefault (doc_diversity_target cfg) 3%Z)
    (setdefault (max_evidence_items cfg) 10%Z)
    (setdefault (c3_keyword_boost cfg) 2.0%Q)
    (setdefault (c3_keywords cfg) [])
    (setdefault (irrelevance_penalty_per_hit cfg) 0.7%Q)
    (setdefault (min_score_floor cfg) 0.1%Q)
    (setdefault (doc_boost cfg) [])
    (setdefault (topic_penalties cfg) [])
    (topic_penalty cfg).

(** [kw and _lower(kw) in t]. *)
Definition kw_hit (t : string) (kw : string) : bool :=
  match kw with
  | EmptyString => false
  | _ => Py.str_in (Py.lower kw) t
  end.

(** The keyword loop: [hits += 1] for every hit. *)
Fixpoint count_hits (t : string) (keywords : list string) (hits : Z) : Z :=
  match keywords with
  | [] => hits
  | kw :: rest => count_hits t rest (if kw_hit t kw then hits + 1 else hits)%Z
  end.

(** [float(mult or 1.0)]. *)
Definition mult_or1 (mult : Q) : Q := if Qeq_bool mult 0 then 1.0%Q else mult.

(** The loop over [topic_penalties.items()], threading
    [(penalty_hits, score)]. *)
Fixpoint penalty_loop (t : string) (items : Py.dict Q) (st : Z * Q) : Z * Q :=
  match items with
  | [] => st
  | (topic, mult) :: rest =>
      penalty_loop t rest
        (if kw_hit t topic
         then ((fst st + 1)%Z, (snd st * (1.0 / mult_or1 mult))%Q)
         else st)
  end.

Definition score_item (text : string) (base_score : Q) (doc_key : string)
    (w : Weights) : Q :=
  let t := Py.lower text in
  let score := Py.num_or0 (Some base_score) in
  let score := (score * get (Py.dict_get doc_key (get (doc_boost w) [])) 1.0)%Q in
  let boost := get (c3_keyword_boost w) 1.0%Q in
  let keywords := Py.list_or (c3_keywords w) [] in
  let hits := count_hits t keywords 0%Z in
  let score :=
    if (hits =? 0)%Z then score
    else (score * (1.0 + (boost - 1.0) * Py.min 1.0 (inject_Z hits / 3.0)))%Q in
  let pen_per_hit := get (irrelevance_penalty_per_hit w) 0.7%Q in
  let topic_penalties := get (topic_penalties w) [] in
  let '(penalty_hits, score) := penalty_loop t topic_penalties (0%Z, score) in
  let score :=
    if (penalty_hits =? 0)%Z then score
    else (score - inject_Z penalty_hits * pen_per_hit)%Q in
  let floor := get (min_score_floor w) 0.1%Q in
  if Py.Qltb score floor then floor else score.

(** [e2 = dict(e); e2["_rerank_score"] = score_item(...)]. *)
Definition attach_score (w : Weights) (e : Evidence) : Evidence :=
  let dk := Py.str_or (doc_key e) "" in
  let txt := Py.str_or (Py.opt_or (snippet e) (text e)) "" in
  let base := Py.num_or0 (score e) in
  mkEvidence (authority e) (doc_key e) (doc_title e) (paragraph_ref e)
    (page_start e) (page_end e) (source_path e) (score e) (text e) (snippet e)
    (Some (score_item txt base dk w)).

(** The sort key [float(x.get("_rerank_score", 0.0))]. *)
Definition rerank_key (x : Evidence) : Q := get (_rerank_score x) 0.0%Q.

Definition opt_eqb {A} (eqb : A -> A -> bool) (a b : option A) : bool :=
  match a, b with
  | Some x, Some y => eqb x y
  | None, None => true
  | _, _ => false
  end.

(** [a == b] on two evidence dicts: key by key, numbers by value. *)
Definition ev_eqb (a b : Evidence) : bool :=
  opt_eqb String.eqb (authority a) (authority b)
  && opt_eqb String.eqb (doc_key a) (doc_key b)
  && opt_eqb String.eqb (doc_title a) (doc_title b)
  && opt_eqb String.eqb (paragraph_ref a) (paragraph_ref b)
  && opt_eqb Z.eqb (page_start a) (page_start b)
  && opt_eqb Z.eqb (page_end a) (page_end b)
  && opt_eqb String.eqb (source_path a) (source_path b)
  && opt_eqb Qeq_bool (score a) (score b)
  && opt_eqb String.eqb (text a) (text b)
  && opt_eqb String.eqb (snippet a) (snippet b)
  && opt_eqb Qeq_bool (_rerank_score a) (_rerank_score b).

(** [e in picked]. *)
Definition ev_in (e : Evidence) (picked : list Evidence) : bool :=
  existsb (ev_eqb e) picked.

(** [dk in seen_docs]; the set [seen_docs] is kept as the list of its
    elements, which are added only when they are not in it. *)
Definition doc_seen (dk : string) (seen_docs : list string) : bool :=
  existsb (String.eqb dk) seen_docs.

(** Pass 1: the best item per unseen document, until [target_docs] documents
    are seen.  The state is [(picked, seen_docs)]; the test against
    [target_docs] is made after a pick only. *)
Fixpoint pass1 (target_docs : Z) (scored : list Evidence)
    (picked : list Evidence) (seen_docs : list string) : list Evidence :=
  match scored with
  | [] => picked
  | e :: rest =>
      match doc_key e with
      | Some (String c s) =>
          let dk := String c s in
          if doc_seen dk seen_docs then pass1 target_docs rest picked seen_docs
          else
            let picked' := picked ++ [e] in
            let seen' := dk :: seen_docs in
            if (Py.len seen' >=? target_docs)%Z then picked'
            else pass1 target_docs rest picked' seen'
      | _ => pass1 target_docs rest picked seen_docs
      end
  end.

(** Pass 2: the remaining slots, by score. *)
Fixpoint pass2 (max_items : Z) (scored : list Evidence)
    (picked : list Evidence) : list Evidence :=
  match scored with
  | [] => picked
  | e :: rest =>
      if (Py.len picked >=? max_items)%Z then picked
      else if ev_in e picked then pass2 max_items rest picked
      else pass2 max_items rest (picked ++ [e])
  end.

(** The key of [cit_map]: [(doc_key, paragraph_ref)]. *)
Definition key_eqb (k1 k2 : option string * option string) : bool :=
  opt_eqb String.eqb (fst k1) (fst k2) && opt_eqb String.eqb (snd k1) (snd k2).

(** [cit_map[key]] after the loop that fills [cit_map]: the last citation of
    that key wins. *)
Fixpoint cit_lookup (key : option string * option string)
    (citations : list Citation) (found : option Citation) : option Citation :=
  match citations with
  | [] => found
  | c :: rest =>
      cit_lookup key rest
        (if key_eqb key (c_doc_key c, c_paragraph_ref c) then Some c else found)
  end.

(** The citation synthesised from a picked evidence item. *)
Definition synth_citation (e : Evidence) : Citation :=
  mkCitation (authority e) (doc_key e) (doc_title e) (paragraph_ref e)
    (page_start e) (page_end e) (source_path e) (_rerank_score e).

(** The evidence list [picked] that [rerank_policy] returns. *)
Definition rerank_evidence (evidence : list Evidence) (weights : Weights)
  : list Evidence :=
  let w := load_weights weights in
  let scored := map (attach_score w) evidence in
  let scored := Py.sort_desc rerank_key scored in
  let target_docs := get (doc_diversity_target w) 3%Z in
  let max_items := get (max_evidence_items w) 10%Z in
  let picked := pass1 target_docs scored [] [] in
  pass2 max_items scored picked.

(** [rerank_policy(citations, evidence, weights)], returning
    [(new_cits, picked)]. *)
Definition rerank_policy (citations : list Citation) (evidence : list Evidence)
    (weights : Weights) : list Citation * list Evidence :=
  let picked := rerank_evidence evidence weights in
  let new_cits :=
    map (fun e =>
           match cit_lookup (doc_key e, paragraph_ref e) citations None with
           | Some c => c
           | None => synth_citation e
           end) picked in
  (new_cits, picked).

End report_rerank.

(* ================================================================== *)
(** ** scripts/auto_tune_weights.py (the per-run tuner) *)
(* ================================================================== *)

Module auto_tune_weights.

Definition clamp (x lo hi : Q) : Q := Py.max lo (Py.min hi x).

(** [bump(doc, delta)] on the dict [doc_boost]. *)
Definition bump (doc : string) (delta : Q) (doc_boost : Py.dict Q) : Py.dict Q :=
  Py.dict_set doc
    (clamp (report_rerank.get (Py.dict_get doc doc_boost) 1.0 + delta) 0.80 1.50)%Q
    doc_boost.

(** The watch-list of the irrelevance branch. *)
Definition WATCH_LIST : list string :=
  ["leisure"; "tourism"; "nightclub"; "employment land"; "retail hierarchy"].

(** The loop over the watch-list on the dict [topic_penalty]. *)
Fixpoint lower_penalties (ks : list string) (topic_penalty : Py.dict Q) : Py.dict Q :=
  match ks with
  | [] => topic_penalty
  | k :: rest =>
      lower_penalties rest
        (Py.dict_set k
           (clamp (report_rerank.get (Py.dict_get k topic_penalty) 0.90 - 0.03) 0.50 1.00)%Q
           topic_penalty)
  end.

(** [low_div] as [main] reads it from the quality checker's text. *)
Definition low_div_of (score_text : string) : bool :=
  Py.str_in "low document diversity" (Py.lower score_text).

(** [irrelevant] as [main] reads it from the quality checker's text. *)
Definition irrelevant_of (score_text : string) : bool :=
  let tl := Py.lower score_text in
  Py.str_in "irrelevance signals detected" tl
  || Py.str_in "some evidence looks unrelated" tl.

(** What [main] does to the weights between loading and writing them. *)
Definition tune (low_div irrelevant : bool) (w : Weights) : Weights :=
  let doc_boost := report_rerank.get (doc_boost w) [] in
  let topic_penalty := report_rerank.get (topic_penalty w) [] in
  let doc_boost :=
    if low_div then
      bump "csucp_2015" (-0.02) (bump "dap_2020" 0.02 (bump "nppf_2024" 0.03 doc_boost))
    else doc_boost in
  let topic_penalty :=
    if irrelevant then lower_penalties WATCH_LIST topic_penalty else topic_penalty in
  set_topic_penalty topic_penalty (set_doc_boost doc_boost w).

(** [main()] as a function of the quality checker's text and of the weights
    file ([None]: the file does not exist, and [{}] is used); the result is
    the file it writes.  The row appended to the usage log is not part of the
    weights and is left out. *)
Definition main (score_text : string) (store : option Weights) : option Weights :=
  let w := report_rerank.get store empty_weights in
  Some (tune (low_div_of score_text) (irrelevant_of score_text) w).

End auto_tune_weights.

(* ================================================================== *)
(** ** scripts/update_weights_from_feedback.py (the batch tuner) *)
(* ================================================================== *)

Module update_weights_from_feedback.

(** The loop over the three named topics on the dict [topic_penalties]. *)
Fixpoint raise_penalties (ks : list string) (tp : Py.dict Q) : Py.dict Q :=
  match ks with
  | [] => tp
  | k :: rest =>
      raise_penalties rest
        (Py.dict_set k
           (Py.min (report_rerank.get (Py.dict_get k tp) 2.0 + 0.2) 4.0)%Q tp)
  end.

Definition RAISED : list string := ["leisure"; "tourism"; "nightlife"].

(** The two triggers, on the lowered text [txt] of the last records; the
    result is [(weights, changed)]. *)
Definition tune (txt : string) (weights : Weights) : Weights * bool :=
  let '(weights, changed) :=
    if Py.str_in "low document diversity" txt then
      let cur := report_rerank.get (doc_diversity_target weights) 2%Z in
      if (cur <? 3)%Z then (set_doc_diversity_target (cur + 1)%Z weights, true)
      else (weights, false)
    else (weights, false) in
  if Py.str_in "irrelevance" txt || Py.str_in "unrelated" txt
     || Py.str_in "leisure/tourism" txt then
    let cur := report_rerank.get (irrelevance_penalty_per_hit weights) 0.6%Q in
    let weights :=
      set_irrelevance_penalty_per_hit (Py.min (cur + 0.1) 1.5)%Q weights in
    let tp := report_rerank.get (topic_penalties weights) [] in
    (set_topic_penalties (raise_penalties RAISED tp) weights, true)
  else (weights, changed).

(** [main()] as a function of the feedback file (its stripped lines; [None]:
    no such file), of [--min_records] and of the weights file; the result is
    the weights file afterwards.  A missing weights file stops the run. *)
Definition main (feedback : option (list string)) (min_records : Z)
    (store : option Weights) : option Weights :=
  match store with
  | None => None
  | Some weights =>
      match feedback with
      | None => Some weights
      | Some lines =>
          if (Py.len lines <? min_records)%Z then Some weights
          else
            let last := Py.last_n (Nat.min 10 (List.length lines)) lines in
            let txt := Py.lower (String.concat weighing_balance.newline last) in
            let '(weights', changed) := tune txt weights in
            if changed then Some weights' else Some weights
      end
  end.

End update_weights_from_feedback.

(* ================================================================== *)
(** ** The feedback loop as a transition system *)
(* ================================================================== *)

(** One tuner invocation with its inputs. *)
Inductive Invocation : Type :=
  | PerRun (score_text : string)
  | Batch (feedback : option (list string)) (min_records : Z).

(** The weights file after one invocation. *)
Definition step (store : option Weights) (i : Invocation) : option Weights :=
  match i with
  | PerRun score_text => auto_tune_weights.main score_text store
  | Batch feedback min_records =>
      update_weights_from_feedback.main feedback min_records store
  end.

(** The weights file after a sequence of invocations, first to last. *)
Definition run (store : option Weights) (invs : list Invocation) : option Weights :=
  fold_left step invs store.

(* ================================================================== *)
(** ** Readings of the specification that are compared with the code *)
(* ================================================================== *)

Module AsSpecified.

(** The fixed vocabulary of gate reasons. *)
Definition REASON_VOCABULARY : list string :=
  ["no_policy_results"; "policy_results_too_few"; "policy_scores_too_low";
   "insufficient_policy_evidence"].

(** A key occurs as a case-insensitive substring of the text. *)
Definition occurs (text key : string) : bool :=
  Py.str_in (Py.lower key) (Py.lower text).

(** The score formula, every keyword and every topic key that occurs in the
    text counted, the empty ones too, and every multiplier taken as it is. *)
Definition claimed_score (text : string) (raw_score : Q) (doc_key : string)
    (w : Weights) : Q :=
  let boost := report_rerank.get (c3_keyword_boost w) 1.0%Q in
  let hits :=
    Py.len (filter (occurs text) (Py.list_or (c3_keywords w) [])) in
  let matching :=
    filter (fun kv => occurs text (fst kv)) (report_rerank.get (topic_penalties w) []) in
  Qmax (report_rerank.get (min_score_floor w) 0.1%Q)
    (raw_score
     * report_rerank.get (Py.dict_get doc_key (report_rerank.get (doc_boost w) [])) 1.0
     * (1 + (boost - 1) * Qmin 1 (inject_Z hits / 3))
     * fold_right (fun kv p => (1 / snd kv) * p) 1 matching
     - inject_Z (Py.len matching)
       * report_rerank.get (irrelevance_penalty_per_hit w) 0.7)%Q.

Definition opt_string_dec (a b : option string) : {a = b} + {a <> b}.
Proof. decide equality. apply string_dec. Defined.

(** The distinct [doc_key] values of an evidence list. *)
Definition distinct_doc_keys (evidence : list Evidence) : list (option string) :=
  nodup opt_string_dec (map doc_key evidence).

End AsSpecified.

(* ================================================================== *)
(** ** Auxiliary definitions of the proofs *)
(* ================================================================== *)

(** The non-empty [doc_key] of an item, if it has one: what pass 1 tests
    with [if dk]. *)
Definition named_doc (e : Evidence) : option string :=
  match doc_key e with
  | Some (String c s) => Some (String c s)
  | _ => None
  end.

(** The distinct non-empty [doc_key] values of an evidence list. *)
Definition named_docs (evidence : list Evidence) : list string :=
  nodup string_dec
    (flat_map (fun e => match named_doc e with Some d => [d] | None => [] end)
       evidence).

(** A keyword that the keyword loop counts: non-empty, and its lowered form
    occurs in the lowered text. *)
Definition counted (text key : string) : bool :=
  negb (String.eqb key "") && AsSpecified.occurs text key.

(** The bounds declared for the weights file. *)
Definition boost_ok (kv : string * Q) : bool :=
  Qle_bool 0.80 (snd kv) && Qle_bool (snd kv) 1.50.
Definition penalty_ok (kv : string * Q) : bool :=
  Qle_bool 0.50 (snd kv) && Qle_bool (snd kv) 1.00.
Definition penalties_ok (kv : string * Q) : bool := Qle_bool (snd kv) 4.00.

Definition weights_within_bounds (w : Weights) : bool :=
  forallb boost_ok (report_rerank.get (doc_boost w) [])
  && forallb penalty_ok (report_rerank.get (topic_penalty w) [])
  && forallb penalties_ok (report_rerank.get (topic_penalties w) [])
  && match irrelevance_penalty_per_hit w with
     | Some p => Qle_bool p 1.5
     | None => true
     end
  && match doc_diversity_target w with
     | Some t => (t <=? 3)%Z
     | None => true
     end.

(** The bounds on the weights file; a file that does not exist holds no
    value out of bounds. *)
Definition within_bounds (store : option Weights) : bool :=
  match store with
  | Some w => weights_within_bounds w
  | None => true
  end.

(** The entry [k] of the dict [sel] of the weights file has the value [q]. *)
Definition entry_is (sel : Weights -> option (Py.dict Q)) (k : string) (q : Q)
    (store : option Weights) : Prop :=
  exists w v, store = Some w /\ Py.dict_get k (report_rerank.get (sel w) []) = Some v
              /\ (v == q)%Q.

(** The number [sel] of the weights file has the value [q]. *)
Definition number_is (sel : Weights -> option Q) (q : Q) (store : option Weights)
  : Prop :=
  exists w v, store = Some w /\ sel w = Some v /\ (v == q)%Q.

(** A precedent that is refused for amenity harm, as the tilt loop reads it. *)
Definition refused_for_harm (c : CaseResult) : Prop :=
  Py.str_in "refus" (Py.lower (Py.str_or (cr_decision c) "")) = true
  /\ exists k, In k judgment.REFUSAL_TERMS /\ Py.str_in k (judgment.reasons_of c) = true.

(** ** Sorted lists *)

Section StableSortDefinitions.

Variable A : Type.
Variable key : A -> Q.

(** [before a b]: [a] may stand before [b] in a list sorted by decreasing
    key. *)
Definition before (a b : A) : Prop := (key b <= key a)%Q.


End StableSortDefinitions.

#[local] Abbreviation rkey := report_rerank.rerank_key.
#[local] Abbreviation sorted := (StronglySorted (before Evidence rkey)).

(** ** The two passes of the reranker *)

(** [picks t seen D]: pass 1, started with the documents [seen], picks
    exactly the items of [D] when it meets them in this order: each has a
    non-empty document that is not seen yet, and the target [t] is reached
    at the last of them at the earliest. *)
Inductive picks (t : Z) : list string -> list Evidence -> Prop :=
  | picks_nil seen : picks t seen []
  | picks_last seen d dk :
      named_doc d = Some dk ->
      report_rerank.doc_seen dk seen = false ->
      (Py.len (dk :: seen) >= t)%Z ->
      picks t seen [d]
  | picks_cons seen d dk D :
      named_doc d = Some dk ->
      report_rerank.doc_seen dk seen = false ->
      (Py.len (dk :: seen) < t)%Z ->
      picks t (dk :: seen) D ->
      picks t seen (d :: D).

(** Why pass 1, started with [seen] and picking [D], does not pick [x]
    when [x] is met at its place by score: [x] has no document, or its
    document is seen, or an item of [D] not behind [x] has the same
    document, or the pass has stopped at an item not behind [x]. *)
Definition passed_over (t : Z) (seen : list string) (D : list Evidence)
    (x : Evidence) : Prop :=
  named_doc x = None
  \/ (exists dk, named_doc x = Some dk /\ report_rerank.doc_seen dk seen = true)
  \/ (exists d, In d D /\ named_doc d = named_doc x /\ before Evidence rkey d x)
  \/ (D <> [] /\ (Py.len seen + Py.len D >= t)%Z
      /\ forall d, In d D -> before Evidence rkey d x).

(** [pickable m picked F]: pass 2, started with [picked], appends every
    item of [F] when it meets them in this order. *)
Fixpoint pickable (m : Z) (picked : list Evidence) (F : list Evidence) : Prop :=
  match F with
  | [] => True
  | f :: F' =>
      (Py.len picked < m)%Z /\ report_rerank.ev_in f picked = false
      /\ pickable m (picked ++ [f]) F'
  end.

(** The non-empty documents of a list of items, with repetitions. *)
Definition doc_list (l : list Evidence) : list string :=
  flat_map (fun e => match named_doc e with Some d => [d] | None => [] end) l.

(** The product of the factors [1 / float(mult or 1.0)] of the matching
    topics. *)
Definition penalty_factor (matching : Py.dict Q) : Q :=
  fold_right (fun kv p => (1 / report_rerank.mult_or1 (snd kv)) * p)%Q 1%Q matching.

(** ** The values of a weights file *)

(** The entry [k] of the dict [d] has the value [q]. *)
Definition holds (k : string) (q : Q) (d : Py.dict Q) : Prop :=
  exists v, Py.dict_get k d = Some v /\ (v == q)%Q.

(** The document-diversity target of the weights file is [t]. *)
Definition target_is (t : Z) (store : option Weights) : Prop :=
  exists w, store = Some w /\ doc_diversity_target w = Some t.

(** ** Sample inputs *)

(** A policy block that passes the strength check: three results of score
    4.0. *)
Definition strong_policy_block : PolicyBlock :=
  let e := mkEvidence None (Some "dap_2020") None None None None None
             (Some 4.0%Q) (Some "privacy and outlook") None None in
  mkPolicyBlock true None None None (Some [e; e; e]).

(** One refused precedent, for overlooking, scored under the threshold 2.0. *)
Definition weak_precedents : CaseBlock :=
  mkCaseBlock true None
    (Some [mkCaseResult (Some 1.0%Q) (Some "Refused") (Some "overlooking") None None]).

(** The same precedent, scored over the threshold. *)
Definition strong_precedents : CaseBlock :=
  mkCaseBlock true None
    (Some [mkCaseResult (Some 3.0%Q) (Some "Refused") (Some "overlooking") None None]).

(** Five results: one of score [top], four of score [s]. *)
Definition five_results (s top : Q) : option PolicyBlock :=
  let e q := mkEvidence None (Some "dap_2020") None None None None None
               (Some q) (Some "design and scale") None None in
  Some (mkPolicyBlock true None (Some [e top; e s; e s; e s; e s]) None None).

(** Three results whose scores 4.5, 4.0 and 3.4999999999999996 add up to
    12.0 once the sum is rounded. *)
Definition borderline_results : option PolicyBlock :=
  let e q := mkEvidence None (Some "dap_2020") None None None None None
               (Some q) (Some "design and scale") None None in
  Some (mkPolicyBlock true None
          (Some [e 4.5%Q; e 4.0%Q; e 3.4999999999999996%Q]) None None).

(** A policy block of seven items: a first one scoring 1.0 and six scoring
    3.0. *)
Definition diluted_policy_block : PolicyBlock :=
  let e q := mkEvidence None (Some "dap_2020") None None None None None
               (Some q) (Some "privacy and outlook") None None in
  mkPolicyBlock true None None None
    (Some [e 1.0%Q; e 3.0%Q; e 3.0%Q; e 3.0%Q; e 3.0%Q; e 3.0%Q; e 3.0%Q]).

(** Fifty per-run invocations on a low-diversity report, then a batch run. *)
Definition fifty_runs : list Invocation :=
  repeat (PerRun "Warnings: - Low document diversity in top citations (only 1 doc).") 50
  ++ [Batch (Some ["low document diversity"; "irrelevance"; "ok"]) 3].

(** A weights file whose only keyword is the empty string. *)
Definition empty_keyword_weights : Weights :=
  mkWeights None None (Some 2.0%Q) (Some [""]) None None None None None.

(** An evidence item of the document [dk] with the raw score [s]. *)
Definition item (dk : string) (s : Q) : Evidence :=
  mkEvidence (Some "newcastle") (Some dk) None None None None None (Some s)
    (Some "residential amenity") None None.

(** Two items of one document and one item whose [doc_key] is empty. *)
Definition one_named_document : list Evidence :=
  [item "dap_2020" 5; item "dap_2020" 4; item "" 1].

(** Three items of three documents. *)
Definition three_documents : list Evidence :=
  [item "dap_2020" 5; item "csucp_2015" 4; item "nppf_2024" 3].

(** Weights with a target of two documents. *)
Definition target_two : Weights := set_doc_diversity_target 2 empty_weights.

(** Weights with a target of three documents and two slots. *)
Definition two_slots : Weights :=
  mkWeights (Some 3%Z) (Some 2%Z) None None None None None None None.


(* ================================================================== *)
(** ** scripts/score_report_quality.py (the quality scorer) *)
(* ================================================================== *)

(** Printing, as [print] and f-strings do it. *)
Module PyText.

(** [str(n)] for an integer. *)
Definition str_of_int (n : Z) : string := NilZero.string_of_int (Z.to_int n).

(** [str(l)] for a list of integers: ["[1, 2, 3]"]. *)
Definition repr_ints (l : list Z) : string :=
  ("[" ++ String.concat ", " (map str_of_int l) ++ "]")%string.

(** Insertion in a list of strings in increasing order. *)
Fixpoint insert_str (x : string) (l : list string) : list string :=
  match l with
  | [] => [x]
  | y :: l' => if String.leb x y then x :: l else y :: insert_str x l'
  end.

(** [sorted(set(l))]: the distinct strings of [l] in increasing order. *)
Definition sorted_set (l : list string) : list string :=
  fold_right insert_str [] (nodup string_dec l).

(** What a sequence of [print(line)] calls leaves on the standard output. *)
Definition printed (lines : list string) : string :=
  String.concat "" (map (fun l => (l ++ weighing_balance.newline)%string) lines).

End PyText.

(** The payload file that the scorer reads: [payload["policy"]] and
    [payload["report"]["decision"]]. *)
Record Payload : Type := mkPayload {
  pl_policy : option PolicyBlock;
  pl_decision : option string
}.

Module score_report_quality.

(** The set [C3_TERMS], as the list of its elements. *)
Definition C3_TERMS : list string :=
  ["c3"; "dwellinghouse"; "dwelling"; "residential"; "housing"; "amenity"; "privacy";
   "outlook"; "noise"; "refuse"; "cycle"; "parking"; "design"; "character"; "heritage";
   "conservation"; "materials"; "windows"; "doors"; "floor"; "internal"; "alterations";
   "change of use"; "use class"].

(** The set [BAD_SIGNALS], as the list of its elements. *)
Definition BAD_SIGNALS : list string :=
  ["leisure"; "tourism"; "nightclub"; "cinema"; "museum"; "arena"].

Definition norm (s : option string) : string := Py.lower (Py.str_or s "").

(** The loop of [term_hits], threading [hits]. *)
Fixpoint count_terms (t : string) (terms : list string) (hits : Z) : Z :=
  match terms with
  | [] => hits
  | w :: rest => count_terms t rest (if Py.str_in w t then hits + 1 else hits)%Z
  end.

Definition term_hits (text : string) (terms : list string) : Z :=
  count_terms (norm (Some text)) terms 0%Z.

(** [payload.get("policy", {}).get("evidence", []) or []]. *)
Definition evidence_of (payload : Payload) : list Evidence :=
  match pl_policy payload with
  | Some pb => Py.list_or (pb_evidence pb) []
  | None => []
  end.

(** [payload.get("policy", {}).get("citations", []) or []]. *)
Definition citations_of (payload : Payload) : list Citation :=
  match pl_policy payload with
  | Some pb => Py.list_or (pb_citations pb) []
  | None => []
  end.

(** [[c.get("doc_key") for c in cits if c.get("doc_key")]]. *)
Definition doc_keys_of (cits : list Citation) : list string :=
  flat_map (fun c => match c_doc_key c with
                     | Some (String a s) => [String a s]
                     | _ => []
                     end) cits.

(** [len(set(doc_keys))]. *)
Definition doc_div_of (doc_keys : list string) : Z :=
  Py.len (nodup string_dec doc_keys).

(** [" ".join([e.get("snippet", ""), e.get("text", "")])]. *)
Definition blob_of (e : Evidence) : string :=
  (match snippet e with Some s => s | None => "" end
   ++ " " ++ match text e with Some s => s | None => "" end)%string.

(** [rel_scores], one entry per item of [ev[:10]]. *)
Definition rel_scores_of (ev : list Evidence) : list Z :=
  map (fun e => term_hits (blob_of e) C3_TERMS) (Py.take 10 ev).

(** [bad_scores], one entry per item of [ev[:10]]. *)
Definition bad_scores_of (ev : list Evidence) : list Z :=
  map (fun e => term_hits (blob_of e) BAD_SIGNALS) (Py.take 10 ev).

(** [sum(l)] over integers. *)
Definition sum_ints (l : list Z) : Z := fold_left Z.add l 0%Z.

(** The "simple composite score". *)
Definition composite (rel_sum doc_div bad_sum : Z) : Z :=
  let score := 50%Z in
  let score := (score + Z.min 30 (rel_sum * 2))%Z in
  let score := (score + Z.min 10 (doc_div * 3))%Z in
  let score := (score - Z.min 30 (bad_sum * 5))%Z in
  Z.max 0 (Z.min 100 score).

Definition LOW_DIVERSITY : string :=
  "Low document diversity in top citations (only 1 doc).".
Definition LOW_RELEVANCE : string :=
  "Low C3 relevance in top evidence (consider tuning retrieval).".
Definition UNRELATED : string :=
  "Some evidence looks unrelated (e.g., leisure/tourism/etc.).".

(** The list [warnings]. *)
Definition warnings_of (doc_div rel_sum bad_sum : Z) : list string :=
  (if (doc_div <? 2)%Z then [LOW_DIVERSITY] else [])
  ++ (if (rel_sum <? 5)%Z then [LOW_RELEVANCE] else [])
  ++ (if (bad_sum >=? 1)%Z then [UNRELATED] else []).

(** [str(decision)] in the f-string. *)
Definition fmt_decision (decision : option string) : string :=
  match decision with Some s => s | None => "None" end.

(** The heuristic score that [main] prints for a payload. *)
Definition quality_score (payload : Payload) : Z :=
  composite (sum_ints (rel_scores_of (evidence_of payload)))
    (doc_div_of (doc_keys_of (citations_of payload)))
    (sum_ints (bad_scores_of (evidence_of payload))).

(** [main()] on a payload file that parses, as the text it prints; it then
    returns 0.  [path] is [sys.argv[1]]. *)
Definition main (path : string) (payload : Payload) : string :=
  let ev := evidence_of payload in
  let cits := citations_of payload in
  let decision := pl_decision payload in
  let doc_keys := doc_keys_of cits in
  let doc_div := doc_div_of doc_keys in
  let rel_scores := rel_scores_of ev in
  let bad_scores := bad_scores_of ev in
  let rel_sum := sum_ints rel_scores in
  let bad_sum := sum_ints bad_scores in
  let score := composite rel_sum doc_div bad_sum in
  let warnings := warnings_of doc_div rel_sum bad_sum in
  PyText.printed
    (["== Report Quality Check ==";
      ("Payload: " ++ path)%string;
      ("Decision: " ++ fmt_decision decision)%string;
      ("Docs in top citations: " ++ PyText.str_of_int doc_div ++ " ("
         ++ String.concat ", " (PyText.sorted_set doc_keys) ++ ")")%string;
      ("C3 relevance hits (top evidence): " ++ PyText.repr_ints rel_scores
         ++ "  (sum=" ++ PyText.str_of_int rel_sum ++ ")")%string]
     ++ (if (bad_sum =? 0)%Z then []
         else [("⚠️ Irrelevance signals detected: " ++ PyText.repr_ints bad_scores
                ++ " (sum=" ++ PyText.str_of_int bad_sum ++ ")")%string])
     ++ [("Quality score (heuristic): " ++ PyText.str_of_int score ++ "/100")%string]
     ++ match warnings with
        | [] => [(weighing_balance.newline ++ "Looks good ✅")%string]
        | _ => (weighing_balance.newline ++ "Warnings:")%string
               :: map (fun w => ("- " ++ w)%string) warnings
        end).

End score_report_quality.

(* ================================================================== *)
(** ** Further auxiliary definitions *)
(* ================================================================== *)

(** The tags that [detect_issues] can give. *)
Definition ISSUE_TAGS : list string :=
  ["householder"; "amenity"; "design"; "heritage"; "highways"; "flood"; "trees";
   "general"].

(** The condition that [_draft_householder_conditions] always drafts. *)
Definition APPROVED_PLANS : string :=
  "The development hereby approved shall be carried out in accordance with the approved plans and supporting documents.".

(** The first five precedents of an optional precedent block. *)
Definition first_five (case_block : option CaseBlock) : list CaseResult :=
  firstn 5 (Py.list_or (match case_block with
                        | Some cb => cb_results cb
                        | None => None
                        end) []).

(** Ten feedback records, the last of which reports low diversity. *)
Definition ten_records : list string :=
  repeat "ok" 9 ++ ["Low document diversity in top citations"].

(** A payload with one cited document and one evidence item off the topic. *)
Definition off_topic_payload : Payload :=
  mkPayload
    (Some (mkPolicyBlock true None None
             (Some [mkCitation None (Some "csucp_2015") None (Some "p1") None None None None])
             (Some [mkEvidence None (Some "csucp_2015") None (Some "p1") None None None
                      (Some 3.0%Q) (Some "Cinema and museum quarter") None None])))
    (Some "needs_officer_review").

(* ================================================================== *)
(** ** Numbers and strings *)
(* ================================================================== *)

Lemma Qltb_true_iff (a b : Q) : Py.Qltb a b = true <-> (a < b)%Q.
Proof.
  unfold Py.Qltb. rewrite negb_true_iff, <- not_true_iff_false, Qle_bool_iff.
  split; [apply Qnot_le_lt | apply Qlt_not_le].
Qed.

Lemma Qltb_false_iff (a b : Q) : Py.Qltb a b = false <-> (b <= a)%Q.
Proof.
  unfold Py.Qltb. rewrite negb_false_iff. apply Qle_bool_iff.
Qed.

Lemma py_min_Qmin (a b : Q) : (Py.min a b == Qmin a b)%Q.
Proof.
  unfold Py.min. destruct (Py.Qltb b a) eqn:E.
  - apply Qltb_true_iff in E. symmetry. apply Q.min_r. now apply Qlt_le_weak.
  - apply Qltb_false_iff in E. symmetry. now apply Q.min_l.
Qed.

Lemma py_max_Qmax (a b : Q) : (Py.max a b == Qmax a b)%Q.
Proof.
  unfold Py.max. destruct (Py.Qltb a b) eqn:E.
  - apply Qltb_true_iff in E. symmetry. apply Q.max_r. now apply Qlt_le_weak.
  - apply Qltb_false_iff in E. symmetry. now apply Q.max_l.
Qed.

Lemma num_or0_eq (q : Q) : (Py.num_or0 (Some q) == q)%Q.
Proof.
  unfold Py.num_or0. destruct (Qeq_bool q 0) eqn:E.
  - apply Qeq_bool_iff in E. now symmetry.
  - reflexivity.
Qed.

Lemma any_in_true (ks : list string) (t : string) :
  Py.any_in ks t = true <-> exists k, In k ks /\ Py.str_in k t = true.
Proof. unfold Py.any_in. apply existsb_exists. Qed.

(* ================================================================== *)
(** ** The decision engine *)
(* ================================================================== *)

Lemma tilt_loop_cons (c : CaseResult) (cs : list CaseResult) (t : bool * bool) :
  exists tc,
    judgment.tilt_loop (c :: cs) t
    = judgment.tilt_loop cs
        (if Py.str_in "refus" (Py.lower (Py.str_or (cr_decision c) ""))
            && Py.any_in judgment.REFUSAL_TERMS (judgment.reasons_of c)
         then true else fst t, tc).
Proof. eexists. reflexivity. Qed.

Lemma tilt_loop_keeps_refuse (cs : list CaseResult) (tc : bool) :
  fst (judgment.tilt_loop cs (true, tc)) = true.
Proof.
  revert tc. induction cs as [|c cs IH]; intros tc.
  - reflexivity.
  - destruct (tilt_loop_cons c cs (true, tc)) as [tc' ->].
    replace (if _ && _ then true else fst (true, tc)) with true
      by (now destruct (_ && _)).
    apply IH.
Qed.

Lemma tilt_loop_refuse (cs : list CaseResult) (t : bool * bool) :
  (exists c, In c cs /\ refused_for_harm c) ->
  fst (judgment.tilt_loop cs t) = true.
Proof.
  revert t. induction cs as [|c cs IH]; intros t [c0 [Hin [Hdec Hterm]]].
  - destruct Hin.
  - destruct (tilt_loop_cons c cs t) as [tc' ->].
    destruct Hin as [-> | Hin].
    + apply any_in_true in Hterm. rewrite Hdec, Hterm.
      apply tilt_loop_keeps_refuse.
    + apply IH. exists c0. split; [assumption|]. split; assumption.
Qed.

(** C1.  Gate monotonicity: a policy block that is missing, or whose [ok] is
    false, makes [make_recommendation] return the decision
    [insufficient_evidence], whatever the proposal, the scores of the block,
    the precedent block and the [require_precedent] flag are. *)
Theorem gate_not_ok_gives_insufficient_evidence
    (proposal_text : option string) (policy_block : option PolicyBlock)
    (case_block : option CaseBlock) (require_precedent : bool) :
  (forall pb, policy_block = Some pb -> pb_ok pb = false) ->
  Py.field "decision"
    (judgment.make_recommendation proposal_text policy_block case_block
       require_precedent)
  = Some (Py.PStr "insufficient_evidence").
Proof.
  intros Hgate. unfold judgment.make_recommendation.
  assert (Hps : judgment._policy_strength policy_block
                = (false, 0%Q, "no_policy_results")).
  { destruct policy_block as [pb|]; [|reflexivity].
    simpl. now rewrite (Hgate pb eq_refl). }
  rewrite Hps. destruct (judgment._case_strength case_block) as [[cok cs] cr].
  reflexivity.
Qed.

Lemma gate_not_ok_gives_insufficient_evidence_witness :
  Py.field "decision"
    (judgment.make_recommendation (Some "two storey rear extension")
       (Some (mkPolicyBlock false None None None
                (pb_evidence strong_policy_block)))
       (Some strong_precedents) true)
  = Some (Py.PStr "insufficient_evidence").
Proof.
  apply gate_not_ok_gives_insufficient_evidence.
  intros pb H. injection H as <-. reflexivity.
Defined.

(** C7 (as amended).  When the policy strength check passes and the
    precedent strength check passes (whether or not precedents are
    required), a harm phrase in the lowered proposal text together with a
    refused precedent among the first five whose reasons mention an
    amenity-harm term gives the decision [refuse], no conditions, and the
    fixed refusal reason. *)
Theorem harm_and_refused_precedent_refuse
    (proposal_text : option string) (pb : PolicyBlock) (cb : CaseBlock)
    (require_precedent : bool) :
  fst (fst (judgment._policy_strength (Some pb))) = true ->
  fst (fst (judgment._case_strength (Some cb))) = true ->
  (exists k, In k judgment.HARM_PHRASES
             /\ Py.str_in k (Py.lower (Py.str_or proposal_text "")) = true) ->
  (exists c, In c (firstn 5 (Py.list_or (cb_results cb) []))
             /\ refused_for_harm c) ->
  let r := judgment.make_recommendation proposal_text (Some pb) (Some cb)
             require_precedent in
  Py.field "decision" r = Some (Py.PStr "refuse")
  /\ Py.field "draft_conditions" r = Some (Py.PList [])
  /\ Py.field "draft_refusal_reasons" r
     = Some (Py.PList [Py.PStr judgment.REFUSAL_BOILERPLATE]).
Proof.
  intros Hp Hc Hharm Hprec r. subst r. unfold judgment.make_recommendation.
  destruct (judgment._policy_strength (Some pb)) as [[pok ps] pr].
  destruct (judgment._case_strength (Some cb)) as [[cok cs] cr].
  simpl in Hp, Hc. subst pok cok.
  rewrite andb_false_r.
  cbv beta iota zeta delta [negb].
  apply any_in_true in Hharm. rewrite Hharm.
  pose proof (tilt_loop_refuse _ (false, true) Hprec) as Ht.
  unfold Py.take.
  destruct (judgment.tilt_loop _ _) as [tr tc]. simpl in Ht. subst tr.
  repeat split.
Qed.

Lemma harm_and_refused_precedent_refuse_witness :
  Py.field "decision"
    (judgment.make_recommendation
       (Some "Extension causing overlooking and unacceptable harm")
       (Some strong_policy_block) (Some strong_precedents) false)
  = Some (Py.PStr "refuse").
Proof.
  apply (harm_and_refused_precedent_refuse
           (Some "Extension causing overlooking and unacceptable harm")
           strong_policy_block strong_precedents false).
  - vm_compute. reflexivity.
  - vm_compute. reflexivity.
  - exists "overlooking". split; [simpl; tauto | vm_compute; reflexivity].
  - eexists. split; [left; reflexivity|]. split; [vm_compute; reflexivity|].
    exists "overlooking". split; [simpl; tauto | vm_compute; reflexivity].
Defined.

(** C7, the claim as it was stated, at a concrete input: the policy check
    passes, precedents are not required, the proposal holds the harm phrase
    "overlooking", the first precedent is a refusal for "overlooking"; its
    score 1.0 is under the precedent threshold 2.0, so no tilt is computed
    and the decision is not [refuse]. *)
Lemma refuse_needs_strong_precedents :
  let proposal := Some "Extension causing overlooking and unacceptable harm" in
  fst (fst (judgment._policy_strength (Some strong_policy_block))) = true
  /\ fst (fst (judgment._case_strength (Some weak_precedents))) = false
  /\ Py.any_in judgment.HARM_PHRASES (Py.lower (Py.str_or proposal "")) = true
  /\ (exists c, In c (firstn 5 (Py.list_or (cb_results weak_precedents) []))
                /\ refused_for_harm c)
  /\ Py.field "decision"
       (judgment.make_recommendation proposal (Some strong_policy_block)
          (Some weak_precedents) false)
     = Some (Py.PStr "approve_with_conditions").
Proof.
  cbv zeta. repeat split; try (vm_compute; reflexivity).
  eexists. split; [left; reflexivity|]. split; [vm_compute; reflexivity|].
  exists "overlooking". split; [simpl; tauto | vm_compute; reflexivity].
Qed.

Lemma weigh_balance_fields
    (proposal_text : option string) (policy_block : option PolicyBlock) :
  weighing_balance.results_of policy_block <> [] ->
  let scores := weighing_balance.scores_of (weighing_balance.results_of policy_block) in
  let d := weighing_balance.decision_rule (weighing_balance.avg_score scores)
             (weighing_balance.top_score scores) in
  let r := weighing_balance.weigh_balance proposal_text policy_block in
  Py.field "decision" r = Some (Py.PStr (fst d))
  /\ Py.field "confidence" r = Some (Py.PNum (snd d)).
Proof.
  intros Hne. cbv zeta. unfold weighing_balance.weigh_balance.
  destruct (weighing_balance.results_of policy_block) as [|e l]; [congruence|].
  destruct (weighing_balance.decision_rule _ _) as [d c].
  split; reflexivity.
Qed.

(** The order of the doubles. *)
Lemma fle_trans (a b c : Py.float) :
  Py.fle a b = true -> Py.fle b c = true -> Py.fle a c = true.
Proof.
  destruct a, b, c; simpl; try discriminate; try reflexivity.
  rewrite !Qle_bool_iff. apply Qle_trans.
Qed.

Lemma fle_refl (a : Py.float) : a <> Py.NaN -> Py.fle a a = true.
Proof.
  destruct a; simpl; try reflexivity; [|congruence].
  intros _. apply Qle_bool_iff, Qle_refl.
Qed.

Lemma flt_fle (a b : Py.float) : Py.flt a b = true -> Py.fle a b = true.
Proof.
  destruct a, b; simpl; try discriminate; try reflexivity.
  intros H. apply Qltb_true_iff in H. apply Qle_bool_iff. now apply Qlt_le_weak.
Qed.

Lemma flt_false_fle (a b : Py.float) :
  a <> Py.NaN -> b <> Py.NaN -> Py.flt a b = false -> Py.fle b a = true.
Proof.
  destruct a, b; simpl; try discriminate; try reflexivity; try congruence.
  intros _ _ H. apply Qltb_false_iff in H. now apply Qle_bool_iff.
Qed.

Lemma flt_not_fle (a b : Py.float) : Py.flt a b = true -> Py.fle b a = false.
Proof.
  destruct a, b; simpl; try discriminate; try reflexivity.
  intros H. apply Qltb_true_iff in H. apply not_true_iff_false.
  rewrite Qle_bool_iff. lra.
Qed.

Lemma round_not_nan (q : Q) : Py.round q <> Py.NaN.
Proof.
  unfold Py.round. destruct (Qle_bool _ _); [discriminate|].
  destruct (Qle_bool _ _); discriminate.
Qed.

Lemma fmax_ge_l (a b : Py.float) :
  a <> Py.NaN -> Py.fle a (Py.fmax a b) = true.
Proof.
  intros Ha. unfold Py.fmax. destruct (Py.flt a b) eqn:E;
    [now apply flt_fle | now apply fle_refl].
Qed.

Lemma fmax_ge_r (a b : Py.float) :
  a <> Py.NaN -> b <> Py.NaN -> Py.fle b (Py.fmax a b) = true.
Proof.
  intros Ha Hb. unfold Py.fmax. destruct (Py.flt a b) eqn:E;
    [now apply fle_refl | now apply flt_false_fle].
Qed.

Lemma fmax_not_nan (a b : Py.float) :
  a <> Py.NaN -> b <> Py.NaN -> Py.fmax a b <> Py.NaN.
Proof. intros Ha Hb. unfold Py.fmax. now destruct (Py.flt a b). Qed.

Lemma fold_fmax_ge (l : list Py.float) (s : Py.float) :
  s <> Py.NaN -> (forall x, In x l -> x <> Py.NaN) ->
  Py.fle s (fold_left Py.fmax l s) = true
  /\ forall x, In x l -> Py.fle x (fold_left Py.fmax l s) = true.
Proof.
  revert s. induction l as [|y l IH]; intros s Hs Hl; simpl.
  - split; [now apply fle_refl | intros x []].
  - assert (Hy : y <> Py.NaN) by (apply Hl; now left).
    destruct (IH (Py.fmax s y) (fmax_not_nan s y Hs Hy)
                (fun x Hx => Hl x (or_intror Hx))) as [H1 H2].
    split.
    + apply fle_trans with (Py.fmax s y); [now apply fmax_ge_l | exact H1].
    + intros x [<-|Hx]; [|now apply H2].
      apply fle_trans with (Py.fmax s y); [now apply fmax_ge_r | exact H1].
Qed.

Lemma fold_fmax_In (l : list Py.float) (s : Py.float) :
  fold_left Py.fmax l s = s \/ In (fold_left Py.fmax l s) l.
Proof.
  revert s. induction l as [|y l IH]; intros s; simpl; [now left|].
  destruct (IH (Py.fmax s y)) as [H|H]; [|now right; right].
  rewrite H. unfold Py.fmax. destruct (Py.flt s y); [right; now left | now left].
Qed.

(** The scores that [weigh_balance] reads are numbers or infinities. *)
Lemma scores_not_nan (results : list Evidence) (x : Py.float) :
  In x (weighing_balance.scores_of results) -> x <> Py.NaN.
Proof.
  unfold weighing_balance.scores_of. intros Hx. apply in_map_iff in Hx.
  destruct Hx as [e [<- _]]. apply round_not_nan.
Qed.

(** [top_score] is a largest score of the list, and one of its scores. *)
Lemma top_score_ge (scores : list Py.float) (x : Py.float) :
  (forall y, In y scores -> y <> Py.NaN) ->
  In x scores -> Py.fle x (weighing_balance.top_score scores) = true.
Proof.
  destruct scores as [|s l]; [intros _ []|]. intros Hn. simpl.
  destruct (fold_fmax_ge l s (Hn s (or_introl eq_refl))
              (fun y Hy => Hn y (or_intror Hy))) as [H1 H2].
  intros [<-|Hx]; auto.
Qed.

Lemma top_score_In (scores : list Py.float) :
  scores <> [] -> In (weighing_balance.top_score scores) scores.
Proof.
  destruct scores as [|s l]; [congruence|]. intros _. simpl.
  destruct (fold_fmax_In l s) as [H|H]; [left; now rewrite H | now right].
Qed.



(** The average is the double that Python computes: on the scores 4.5, 4.0
    and 3.4999999999999996 the sum rounds to 12.0 and the average is 4.0,
    while the mean of the three numbers is under 4.0. *)
Lemma average_is_rounded :
  (Py.sum [4.5; 4.0; 3.4999999999999996] / 3 < 4.0)%Q
  /\ weighing_balance.avg_score
       (weighing_balance.scores_of (weighing_balance.results_of borderline_results))
     = Py.Fin 4.
Proof. split; vm_compute; reflexivity. Qed.

(** The sum of 1e308, 1e308, -1e308 and -1e308 overflows at the first
    addition, and the average is infinite. *)
Lemma average_overflows :
  weighing_balance.avg_score (map Py.round [1e308; 1e308; -1e308; -1e308]%Q) = Py.PInf.
Proof. vm_compute. reflexivity. Qed.

(** C6 (as amended).  For the score-only engine, a decision
    [insufficient_evidence] always comes with a confidence, and it is at most
    0.25; the precedent-aware engine returns no [confidence] key at all. *)
Theorem insufficient_evidence_confidence :
  (forall proposal_text policy_block,
     let r := weighing_balance.weigh_balance proposal_text policy_block in
     Py.field "decision" r = Some (Py.PStr "insufficient_evidence") ->
     exists c, Py.field "confidence" r = Some (Py.PNum c) /\ (c <= 0.25)%Q)
  /\ (forall proposal_text policy_block case_block require_precedent,
        Py.field "confidence"
          (judgment.make_recommendation proposal_text policy_block case_block
             require_precedent)
        = None).
Proof.
  split.
  - intros proposal_text policy_block r Hd.
    destruct (weighing_balance.results_of policy_block) as [|e l] eqn:Hres.
    + exists 0.0%Q. split; [|lra].
      subst r. unfold weighing_balance.weigh_balance. rewrite Hres. reflexivity.
    + assert (Hne : weighing_balance.results_of policy_block <> [])
        by (rewrite Hres; discriminate).
      destruct (weigh_balance_fields proposal_text policy_block Hne) as [Hd' Hc].
      fold r in Hd', Hc. rewrite Hd' in Hd. rewrite Hc.
      revert Hd. unfold weighing_balance.decision_rule.
      destruct (_ && _); [discriminate|].
      destruct (Py.flt _ _); [|discriminate].
      intros _. exists 0.25%Q. split; [reflexivity | lra].
  - intros proposal_text policy_block case_block require_precedent.
    unfold judgment.make_recommendation.
    destruct (judgment._policy_strength policy_block) as [[pok ps] pr].
    destruct (judgment._case_strength case_block) as [[cok cs] cr].
    destruct (negb pok); [reflexivity|].
    destruct (require_precedent && negb cok); [reflexivity|].
    destruct (if cok then _ else _) as [tr tc].
    destruct (tr && _); reflexivity.
Qed.

Lemma insufficient_evidence_confidence_witness :
  exists c,
    Py.field "confidence"
      (weighing_balance.weigh_balance (Some "porch") (five_results 2.0 2.0))
    = Some (Py.PNum c) /\ (c <= 0.25)%Q.
Proof.
  apply (proj1 insufficient_evidence_confidence (Some "porch") (five_results 2.0 2.0)).
  vm_compute. reflexivity.
Defined.

(** C6, the claim as it was stated, at a concrete input: without a policy
    block the precedent-aware engine decides [insufficient_evidence] and the
    dict it returns has no [confidence]. *)
Lemma make_recommendation_has_no_confidence :
  Py.field "decision" (judgment.make_recommendation (Some "porch") None None false)
  = Some (Py.PStr "insufficient_evidence")
  /\ Py.field "confidence" (judgment.make_recommendation (Some "porch") None None false)
     = None.
Proof. split; vm_compute; reflexivity. Qed.

(** C9 (as amended).  The gate returns [ok = false] exactly when the
    provider's [ok] is false or there are fewer than [min_results] results;
    then the citations and the evidence are empty and the reason is the
    provider's reason when it gave a non-empty one, and the text
    "Insufficient policy evidence" otherwise; with [ok = true] there is no
    reason, the evidence is the result list and the citations are built from
    it one for one. *)
Theorem require_policy_evidence_result (retrieval_out : PolicyBlock) (min_results : Z) :
  let results := Py.list_or (pb_results retrieval_out) [] in
  let out := policy_evidence.require_policy_evidence retrieval_out min_results in
  (pb_ok out = false
   <-> pb_ok retrieval_out = false \/ (Py.len results < min_results)%Z)
  /\ (pb_ok out = false ->
        pb_citations out = Some [] /\ pb_evidence out = Some []
        /\ (forall s, pb_reason retrieval_out = Some s -> s <> "" ->
                      pb_reason out = Some s)
        /\ (pb_reason retrieval_out = None \/ pb_reason retrieval_out = Some "" ->
            pb_reason out = Some "Insufficient policy evidence"))
  /\ (pb_ok out = true ->
        pb_reason out = None /\ pb_evidence out = Some results
        /\ pb_citations out = Some (map policy_evidence.citation_of results)
        /\ List.length (map policy_evidence.citation_of results)
           = List.length results).
Proof.
  intros results out. subst out. unfold policy_evidence.require_policy_evidence.
  fold results.
  destruct (pb_ok retrieval_out) eqn:Hok;
    destruct (Py.len results <? min_results)%Z eqn:Hlen; cbn [negb orb];
    try (apply Z.ltb_lt in Hlen); try (apply Z.ltb_ge in Hlen); cbn.
  all: repeat split; intros; try tauto; try discriminate; try lia;
    try (now apply length_map).
  all: try match goal with
           | H : _ \/ _ |- _ => destruct H; try discriminate; try lia
           end.
  all: try match goal with
           | H : pb_reason _ = _ |- _ => rewrite H
           end.
  all: try match goal with
           | H : _ \/ _ |- _ => destruct H as [H|H]; rewrite H
           end.
  all: try reflexivity.
  all: try match goal with
           | |- Some (Py.str_or (Some ?s) _) = _ => destruct s; [congruence | reflexivity]
           end.
Qed.

Lemma require_policy_evidence_result_witness :
  pb_citations (policy_evidence.require_policy_evidence
                  (mkPolicyBlock false None None None None) 3) = Some []
  /\ pb_reason (policy_evidence.require_policy_evidence
                  (mkPolicyBlock false None None None None) 3)
     = Some "Insufficient policy evidence".
Proof.
  destruct (require_policy_evidence_result
              (mkPolicyBlock false None None None None) 3) as [_ [H _]].
  destruct (H eq_refl) as [Hc [_ [_ Hr]]].
  split; [exact Hc | apply Hr; left; reflexivity].
Defined.

(** C9, the claim as it was stated, at a concrete input: the provider
    reports not-ok and gives no reason; the gate's reason is then
    "Insufficient policy evidence", which is none of the four words of the
    vocabulary. *)
Lemma gate_reason_outside_vocabulary :
  let out := policy_evidence.require_policy_evidence
               (mkPolicyBlock false None None None None) 3 in
  pb_ok out = false
  /\ pb_reason out = Some "Insufficient policy evidence"
  /\ ~ In "Insufficient policy evidence" AsSpecified.REASON_VOCABULARY.
Proof.
  cbv zeta. repeat split.
  intros H. simpl in H. repeat (destruct H as [H|H]; [discriminate H|]). exact H.
Qed.

(** C10.  [score_item] does not read the key [topic_penalty]: two weights
    that differ in that key only give every item the same score, and so the
    irrelevance branch of the per-run tuner, which writes that key, changes no
    score and no reranked list. *)
Theorem topic_penalty_key_never_read :
  (forall text base_score dk ddt mei ckb ck ipp msf db tps tp1 tp2,
     report_rerank.score_item text base_score dk
       (mkWeights ddt mei ckb ck ipp msf db tps tp1)
     = report_rerank.score_item text base_score dk
         (mkWeights ddt mei ckb ck ipp msf db tps tp2))
  /\ (forall text base_score dk irrelevant w,
        report_rerank.score_item text base_score dk
          (auto_tune_weights.tune false irrelevant w)
        = report_rerank.score_item text base_score dk w)
  /\ (forall evidence irrelevant w,
        report_rerank.rerank_evidence evidence
          (auto_tune_weights.tune false irrelevant w)
        = report_rerank.rerank_evidence evidence w).
Proof.
  assert (Hs : forall text base_score dk irrelevant w,
             report_rerank.score_item text base_score dk
               (auto_tune_weights.tune false irrelevant w)
             = report_rerank.score_item text base_score dk w).
  { intros text base_score dk irrelevant w.
    destruct w as [ddt mei ckb ck ipp msf db tps tp].
    unfold report_rerank.score_item, auto_tune_weights.tune.
    cbn [doc_boost c3_keyword_boost c3_keywords irrelevance_penalty_per_hit
         min_score_floor topic_penalties topic_penalty set_doc_boost
         set_topic_penalty].
    destruct db; reflexivity. }
  split; [reflexivity|]. split; [exact Hs|].
  intros evidence irrelevant w.
  unfold report_rerank.rerank_evidence.
  assert (Ha : forall e,
             report_rerank.attach_score
               (report_rerank.load_weights (auto_tune_weights.tune false irrelevant w)) e
             = report_rerank.attach_score (report_rerank.load_weights w) e).
  { intros e. unfold report_rerank.attach_score. f_equal. f_equal.
    destruct w as [ddt mei ckb ck ipp msf db tps tp].
    unfold report_rerank.score_item, auto_tune_weights.tune, report_rerank.load_weights.
    cbn [doc_boost c3_keyword_boost c3_keywords irrelevance_penalty_per_hit
         min_score_floor topic_penalties topic_penalty set_doc_boost
         set_topic_penalty doc_diversity_target max_evidence_items].
    destruct db; reflexivity. }
  rewrite (map_ext _ _ Ha).
  destruct w as [ddt mei ckb ck ipp msf db tps tp]. reflexivity.
Qed.

(* ================================================================== *)
(** ** The weight tuners *)
(* ================================================================== *)

Lemma dict_get_set_same {A} (k : string) (v : A) (d : Py.dict A) :
  Py.dict_get k (Py.dict_set k v d) = Some v.
Proof.
  induction d as [|[k' v'] d IH]; simpl.
  - now rewrite String.eqb_refl.
  - destruct (String.eqb k k') eqn:E; simpl; rewrite E; [reflexivity | exact IH].
Qed.

Lemma dict_get_set_other {A} (k k' : string) (v : A) (d : Py.dict A) :
  k <> k' -> Py.dict_get k' (Py.dict_set k v d) = Py.dict_get k' d.
Proof.
  intros Hne. induction d as [|[k0 v0] d IH]; simpl.
  - destruct (String.eqb k' k) eqn:E; [|reflexivity].
    apply String.eqb_eq in E. congruence.
  - destruct (String.eqb k k0) eqn:E; simpl.
    + apply String.eqb_eq in E. subst k0.
      destruct (String.eqb k' k) eqn:E'; [|reflexivity].
      apply String.eqb_eq in E'. congruence.
    + now rewrite IH.
Qed.

Lemma forallb_dict_set (P : string * Q -> bool) (k : string) (v : Q) (d : Py.dict Q) :
  (forall k', P (k', v) = true) ->
  forallb P d = true -> forallb P (Py.dict_set k v d) = true.
Proof.
  intros Hv. induction d as [|[k' v'] d IH]; simpl.
  - intros _. now rewrite Hv.
  - intros H. apply andb_true_iff in H. destruct H as [H1 H2].
    destruct (String.eqb k k'); simpl.
    + now rewrite Hv, H2.
    + now rewrite H1, IH.
Qed.

Lemma clamp_bounds (x lo hi : Q) :
  (lo <= hi)%Q ->
  (lo <= auto_tune_weights.clamp x lo hi)%Q /\ (auto_tune_weights.clamp x lo hi <= hi)%Q.
Proof.
  intros H. unfold auto_tune_weights.clamp, Py.max, Py.min.
  destruct (Py.Qltb x hi) eqn:E1.
  - destruct (Py.Qltb lo x) eqn:E2.
    + apply Qltb_true_iff in E1, E2. lra.
    + lra.
  - destruct (Py.Qltb lo hi) eqn:E2; lra.
Qed.

Lemma clamp_at_ceiling (x lo hi : Q) :
  (lo <= hi)%Q -> (hi <= x)%Q -> (auto_tune_weights.clamp x lo hi == hi)%Q.
Proof.
  intros H Hx. unfold auto_tune_weights.clamp, Py.max, Py.min.
  destruct (Py.Qltb x hi) eqn:E1.
  - apply Qltb_true_iff in E1. lra.
  - destruct (Py.Qltb lo hi) eqn:E2; [reflexivity|].
    apply Qltb_false_iff in E2. lra.
Qed.

Lemma clamp_at_floor (x lo hi : Q) :
  (lo <= hi)%Q -> (x <= lo)%Q -> (auto_tune_weights.clamp x lo hi == lo)%Q.
Proof.
  intros H Hx. unfold auto_tune_weights.clamp, Py.max, Py.min.
  destruct (Py.Qltb x hi) eqn:E1.
  - destruct (Py.Qltb lo x) eqn:E2; [|reflexivity].
    apply Qltb_true_iff in E2. lra.
  - apply Qltb_false_iff in E1.
    destruct (Py.Qltb lo hi) eqn:E2; [|reflexivity]. lra.
Qed.

Lemma py_min_le_r (x c : Q) : (Py.min x c <= c)%Q.
Proof.
  unfold Py.min. destruct (Py.Qltb c x) eqn:E; [lra|].
  now apply Qltb_false_iff in E.
Qed.

Lemma py_min_at_cap (x c : Q) : (c <= x)%Q -> (Py.min x c == c)%Q.
Proof.
  intros H. unfold Py.min. destruct (Py.Qltb c x) eqn:E; [reflexivity|].
  apply Qltb_false_iff in E. lra.
Qed.

Lemma bump_within (doc : string) (delta : Q) (db : Py.dict Q) :
  forallb boost_ok db = true -> forallb boost_ok (auto_tune_weights.bump doc delta db) = true.
Proof.
  intros H. unfold auto_tune_weights.bump. apply forallb_dict_set; [|exact H].
  intros k'. unfold boost_ok. cbn [snd].
  match goal with |- context [auto_tune_weights.clamp ?x ?lo ?hi] =>
    destruct (clamp_bounds x lo hi) as [H1 H2]; [lra|] end.
  apply andb_true_iff. split; now apply Qle_bool_iff.
Qed.

Lemma lower_penalties_within (ks : list string) (tp : Py.dict Q) :
  forallb penalty_ok tp = true ->
  forallb penalty_ok (auto_tune_weights.lower_penalties ks tp) = true.
Proof.
  revert tp. induction ks as [|k ks IH]; intros tp H; simpl; [exact H|].
  apply IH. apply forallb_dict_set; [|exact H].
  intros k'. unfold penalty_ok. cbn [snd].
  match goal with |- context [auto_tune_weights.clamp ?x ?lo ?hi] =>
    destruct (clamp_bounds x lo hi) as [H1 H2]; [lra|] end.
  apply andb_true_iff. split; now apply Qle_bool_iff.
Qed.

Lemma raise_penalties_within (ks : list string) (tp : Py.dict Q) :
  forallb penalties_ok tp = true ->
  forallb penalties_ok (update_weights_from_feedback.raise_penalties ks tp) = true.
Proof.
  revert tp. induction ks as [|k ks IH]; intros tp H; simpl; [exact H|].
  apply IH. apply forallb_dict_set; [|exact H].
  intros k'. unfold penalties_ok. cbn [snd].
  apply Qle_bool_iff.
  match goal with |- (Py.min ?x ?c <= _)%Q => pose proof (py_min_le_r x c) end. lra.
Qed.

Lemma per_run_within (low_div irrelevant : bool) (w : Weights) :
  weights_within_bounds w = true ->
  weights_within_bounds (auto_tune_weights.tune low_div irrelevant w) = true.
Proof.
  unfold weights_within_bounds, auto_tune_weights.tune.
  destruct w as [ddt mei ckb ck ipp msf db tps tp].
  cbn [doc_boost topic_penalty topic_penalties irrelevance_penalty_per_hit
       doc_diversity_target set_doc_boost set_topic_penalty report_rerank.get].
  intros H. repeat (apply andb_true_iff in H; destruct H as [H ?]).
  repeat (apply andb_true_iff; split); try assumption.
  - destruct low_div; [|exact H]. now repeat apply bump_within.
  - destruct irrelevant; [|assumption]. now apply lower_penalties_within.
Qed.

Lemma batch_within (txt : string) (w : Weights) :
  weights_within_bounds w = true ->
  weights_within_bounds (fst (update_weights_from_feedback.tune txt w)) = true.
Proof.
  unfold weights_within_bounds, update_weights_from_feedback.tune.
  destruct w as [ddt mei ckb ck ipp msf db tps tp].
  intros H. cbn [doc_boost topic_penalty topic_penalties irrelevance_penalty_per_hit
       doc_diversity_target report_rerank.get] in H.
  repeat (apply andb_true_iff in H; destruct H as [H ?]).
  destruct (Py.str_in "low document diversity" txt);
    cbn [doc_diversity_target];
    [destruct (report_rerank.get ddt 2 <? 3)%Z eqn:Hcur|];
    destruct (_ || _);
    cbn [fst doc_boost topic_penalty topic_penalties irrelevance_penalty_per_hit
         doc_diversity_target set_doc_diversity_target
         set_irrelevance_penalty_per_hit set_topic_penalties report_rerank.get];
    repeat (apply andb_true_iff; split); try assumption;
    try (apply Qle_bool_iff;
         match goal with |- (Py.min ?x ?c <= _)%Q => pose proof (py_min_le_r x c) end;
         lra);
    try (now apply raise_penalties_within);
    try (apply Z.ltb_lt in Hcur; apply Z.leb_le; lia).
Qed.

Lemma step_within (store : option Weights) (i : Invocation) :
  within_bounds store = true -> within_bounds (step store i) = true.
Proof.
  intros H. destruct i as [score_text | feedback min_records]; simpl.
  - unfold auto_tune_weights.main. cbn [within_bounds].
    apply per_run_within. destruct store as [w|]; [exact H | reflexivity].
  - unfold update_weights_from_feedback.main.
    destruct store as [w|]; [|reflexivity].
    destruct feedback as [lines|]; [|exact H].
    destruct (Py.len lines <? min_records)%Z; [exact H|].
    match goal with |- context [update_weights_from_feedback.tune ?t w] =>
      pose proof (batch_within t w H) as Hb;
      destruct (update_weights_from_feedback.tune t w) as [w' changed] end.
    destruct changed; [exact Hb | exact H].
Qed.

Lemma run_within (store : option Weights) (invs : list Invocation) :
  within_bounds store = true -> within_bounds (run store invs) = true.
Proof.
  revert store. induction invs as [|i invs IH]; intros store H; simpl.
  - exact H.
  - apply IH. now apply step_within.
Qed.

Lemma bump_other (doc k : string) (delta q : Q) (db : Py.dict Q) :
  doc <> k -> holds k q db -> holds k q (auto_tune_weights.bump doc delta db).
Proof.
  intros Hne [v [Hv Hq]]. exists v. split; [|exact Hq].
  unfold auto_tune_weights.bump. now rewrite dict_get_set_other.
Qed.

Lemma bump_at_ceiling (k : string) (delta : Q) (db : Py.dict Q) :
  (0 <= delta)%Q -> holds k 1.50 db -> holds k 1.50 (auto_tune_weights.bump k delta db).
Proof.
  intros Hd [v [Hv Hq]]. unfold auto_tune_weights.bump. rewrite Hv.
  eexists. split; [apply dict_get_set_same|].
  cbn [report_rerank.get]. apply clamp_at_ceiling; lra.
Qed.

Lemma bump_at_floor (k : string) (delta : Q) (db : Py.dict Q) :
  (delta <= 0)%Q -> holds k 0.80 db -> holds k 0.80 (auto_tune_weights.bump k delta db).
Proof.
  intros Hd [v [Hv Hq]]. unfold auto_tune_weights.bump. rewrite Hv.
  eexists. split; [apply dict_get_set_same|].
  cbn [report_rerank.get]. apply clamp_at_floor; lra.
Qed.

Lemma lower_penalties_at_floor (ks : list string) (k : string) (tp : Py.dict Q) :
  holds k 0.50 tp -> holds k 0.50 (auto_tune_weights.lower_penalties ks tp).
Proof.
  revert tp. induction ks as [|k' ks IH]; intros tp H; simpl; [exact H|].
  apply IH. destruct H as [v [Hv Hq]].
  destruct (string_dec k' k) as [->|Hne].
  - rewrite Hv. eexists. split; [apply dict_get_set_same|].
    cbn [report_rerank.get]. apply clamp_at_floor; lra.
  - exists v. split; [|exact Hq]. now rewrite dict_get_set_other.
Qed.

Lemma raise_penalties_at_cap (ks : list string) (k : string) (tp : Py.dict Q) :
  holds k 4.0 tp -> holds k 4.0 (update_weights_from_feedback.raise_penalties ks tp).
Proof.
  revert tp. induction ks as [|k' ks IH]; intros tp H; simpl; [exact H|].
  apply IH. destruct H as [v [Hv Hq]].
  destruct (string_dec k' k) as [->|Hne].
  - rewrite Hv. eexists. split; [apply dict_get_set_same|].
    cbn [report_rerank.get]. apply py_min_at_cap. lra.
  - exists v. split; [|exact Hq]. now rewrite dict_get_set_other.
Qed.

(** What the batch tuner leaves of a weights file and what it writes. *)
Lemma batch_tune_effect (txt : string) (w : Weights) :
  let w' := fst (update_weights_from_feedback.tune txt w) in
  doc_boost w' = doc_boost w
  /\ topic_penalty w' = topic_penalty w
  /\ (topic_penalties w' = topic_penalties w
      \/ topic_penalties w'
         = Some (update_weights_from_feedback.raise_penalties
                   update_weights_from_feedback.RAISED
                   (report_rerank.get (topic_penalties w) [])))
  /\ (irrelevance_penalty_per_hit w' = irrelevance_penalty_per_hit w
      \/ irrelevance_penalty_per_hit w'
         = Some (Py.min (report_rerank.get (irrelevance_penalty_per_hit w) 0.6 + 0.1) 1.5)%Q)
  /\ (doc_diversity_target w' = doc_diversity_target w
      \/ (report_rerank.get (doc_diversity_target w) 2 < 3)%Z).
Proof.
  destruct w as [ddt mei ckb ck ipp msf db tps tp].
  unfold update_weights_from_feedback.tune.
  destruct (Py.str_in "low document diversity" txt);
    cbn [doc_diversity_target];
    [destruct (report_rerank.get ddt 2 <? 3)%Z eqn:Hcur|];
    destruct (_ || _); cbn; repeat split; auto;
    right; now apply Z.ltb_lt.
Qed.

(** The weights file after a batch run is the old one or the tuned one. *)
Lemma batch_main_cases (feedback : option (list string)) (min_records : Z) (w : Weights) :
  update_weights_from_feedback.main feedback min_records (Some w) = Some w
  \/ exists txt,
       update_weights_from_feedback.main feedback min_records (Some w)
       = Some (fst (update_weights_from_feedback.tune txt w)).
Proof.
  unfold update_weights_from_feedback.main.
  destruct feedback as [lines|]; [|now left].
  destruct (Py.len lines <? min_records)%Z; [now left|].
  match goal with |- context [update_weights_from_feedback.tune ?t w] =>
    destruct (update_weights_from_feedback.tune t w) as [w' changed] eqn:E;
    destruct changed; [right; exists t; now rewrite E | now left] end.
Qed.

Lemma per_run_doc_boost (score_text : string) (w : Weights) (k : string) (q : Q) :
  (auto_tune_weights.low_div_of score_text = true ->
   holds k q (report_rerank.get (doc_boost w) []) ->
   holds k q (auto_tune_weights.bump "csucp_2015" (-0.02)
                (auto_tune_weights.bump "dap_2020" 0.02
                   (auto_tune_weights.bump "nppf_2024" 0.03
                      (report_rerank.get (doc_boost w) []))))) ->
  entry_is doc_boost k q (Some w) ->
  entry_is doc_boost k q (auto_tune_weights.main score_text (Some w)).
Proof.
  intros Hb [w0 [v [Hw [Hv Hq]]]]. injection Hw as <-.
  assert (Hh : holds k q (report_rerank.get (doc_boost w) [])) by (now exists v).
  unfold auto_tune_weights.main, auto_tune_weights.tune. cbn [report_rerank.get].
  destruct (auto_tune_weights.low_div_of score_text).
  - destruct (Hb eq_refl Hh) as [v' [Hv' Hq']].
    eexists; exists v'. split; [reflexivity|].
    destruct w; split; [exact Hv' | exact Hq'].
  - eexists; exists v. split; [reflexivity|].
    destruct w; split; [exact Hv | exact Hq].
Qed.

Lemma batch_keeps_dict (sel : Weights -> option (Py.dict Q))
    (feedback : option (list string)) (min_records : Z) (w : Weights)
    (k : string) (q : Q) :
  (forall txt, sel (fst (update_weights_from_feedback.tune txt w)) = sel w) ->
  entry_is sel k q (Some w) ->
  entry_is sel k q (update_weights_from_feedback.main feedback min_records (Some w)).
Proof.
  intros Hsel H.
  destruct (batch_main_cases feedback min_records w) as [-> | [txt ->]]; [exact H|].
  destruct H as [w0 [v [Hw [Hv Hq]]]]. injection Hw as <-.
  eexists; exists v. split; [reflexivity|]. now rewrite Hsel.
Qed.

(** A value at the bound that a trigger pushes against is left as it is by
    every tuner invocation. *)
Lemma saturated_values_stay (s : option Weights) (i : Invocation) :
  (entry_is doc_boost "nppf_2024" 1.50 s -> entry_is doc_boost "nppf_2024" 1.50 (step s i))
  /\ (entry_is doc_boost "dap_2020" 1.50 s -> entry_is doc_boost "dap_2020" 1.50 (step s i))
  /\ (entry_is doc_boost "csucp_2015" 0.80 s ->
      entry_is doc_boost "csucp_2015" 0.80 (step s i))
  /\ (forall k, entry_is topic_penalty k 0.50 s -> entry_is topic_penalty k 0.50 (step s i))
  /\ (forall k, entry_is topic_penalties k 4.0 s -> entry_is topic_penalties k 4.0 (step s i))
  /\ (number_is irrelevance_penalty_per_hit 1.5 s ->
      number_is irrelevance_penalty_per_hit 1.5 (step s i))
  /\ (target_is 3 s -> target_is 3 (step s i)).
Proof.
  destruct s as [w|].
  2:{ repeat split; intros;
      match goal with
      | H : entry_is _ _ _ None |- _ => destruct H as [? [? [Hw _]]]; discriminate
      | H : number_is _ _ None |- _ => destruct H as [? [? [Hw _]]]; discriminate
      | H : target_is _ None |- _ => destruct H as [? [Hw _]]; discriminate
      end. }
  destruct i as [score_text | feedback min_records]; cbn [step].
  - (* the per-run tuner *)
    split; [|split; [|split; [|split; [|split; [|split]]]]].
    + apply per_run_doc_boost. intros _ H.
      apply bump_other; [discriminate|]. apply bump_other; [discriminate|].
      apply bump_at_ceiling; [lra | exact H].
    + apply per_run_doc_boost. intros _ H.
      apply bump_other; [discriminate|]. apply bump_at_ceiling; [lra|].
      apply bump_other; [discriminate | exact H].
    + apply per_run_doc_boost. intros _ H.
      apply bump_at_floor; [lra|].
      apply bump_other; [discriminate|]. apply bump_other; [discriminate | exact H].
    + intros k [w0 [v [Hw [Hv Hq]]]]. injection Hw as <-.
      assert (Hh : holds k 0.50 (report_rerank.get (topic_penalty w) []))
        by (now exists v).
      unfold auto_tune_weights.main, auto_tune_weights.tune. cbn [report_rerank.get].
      destruct (auto_tune_weights.irrelevant_of score_text).
      * destruct (lower_penalties_at_floor auto_tune_weights.WATCH_LIST k _ Hh)
          as [v' [Hv' Hq']].
        eexists; exists v'. split; [reflexivity|].
        destruct w; split; [exact Hv' | exact Hq'].
      * eexists; exists v. split; [reflexivity|].
        destruct w; split; [exact Hv | exact Hq].
    + intros k [w0 [v [Hw [Hv Hq]]]]. injection Hw as <-.
      eexists; exists v. split; [reflexivity|]. destruct w; split; [exact Hv | exact Hq].
    + intros [w0 [v [Hw [Hv Hq]]]]. injection Hw as <-.
      eexists; exists v. split; [reflexivity|]. destruct w; split; [exact Hv | exact Hq].
    + intros [w0 [Hw Ht]]. injection Hw as <-.
      eexists. split; [reflexivity|]. destruct w; exact Ht.
  - (* the batch tuner *)
    split; [|split; [|split; [|split; [|split; [|split]]]]].
    + apply batch_keeps_dict. intros txt. apply (batch_tune_effect txt w).
    + apply batch_keeps_dict. intros txt. apply (batch_tune_effect txt w).
    + apply batch_keeps_dict. intros txt. apply (batch_tune_effect txt w).
    + intros k. apply batch_keeps_dict. intros txt. apply (batch_tune_effect txt w).
    + intros k H.
      destruct (batch_main_cases feedback min_records w) as [-> | [txt ->]]; [exact H|].
      destruct H as [w0 [v [Hw [Hv Hq]]]]. injection Hw as <-.
      destruct (batch_tune_effect txt w) as [_ [_ [[E|E] _]]].
      * eexists; exists v. split; [reflexivity|]. now rewrite E.
      * destruct (raise_penalties_at_cap update_weights_from_feedback.RAISED k
                    (report_rerank.get (topic_penalties w) []))
          as [v' [Hv' Hq']]; [now exists v|].
        eexists; exists v'. split; [reflexivity|]. rewrite E. now split.
    + intros H.
      destruct (batch_main_cases feedback min_records w) as [-> | [txt ->]]; [exact H|].
      destruct H as [w0 [v [Hw [Hv Hq]]]]. injection Hw as <-.
      destruct (batch_tune_effect txt w) as [_ [_ [_ [[E|E] _]]]].
      * eexists; exists v. split; [reflexivity|]. now rewrite E.
      * eexists; eexists. split; [reflexivity|]. split; [exact E|].
        rewrite Hv. cbn [report_rerank.get]. apply py_min_at_cap. lra.
    + intros H.
      destruct (batch_main_cases feedback min_records w) as [-> | [txt ->]]; [exact H|].
      destruct H as [w0 [Hw Ht]]. injection Hw as <-.
      destruct (batch_tune_effect txt w) as [_ [_ [_ [_ [E|E]]]]].
      * eexists. split; [reflexivity|]. now rewrite E.
      * rewrite Ht in E. cbn in E. lia.
Qed.

(** C2.  From a weights file within its bounds, any finite sequence of
    per-run and batch tuner invocations, in any order and with any inputs,
    leads to a weights file within its bounds: every [doc_boost] entry in
    [0.80, 1.50], every [topic_penalty] entry in [0.50, 1.00], every
    [topic_penalties] entry at most 4.00, [irrelevance_penalty_per_hit] at
    most 1.5 and [doc_diversity_target] at most 3.  In every such state a
    value that sits at the bound its trigger pushes against is left unchanged
    by the next invocation, whatever it is. *)
Theorem tuner_bounds_hold (store : option Weights) (invs : list Invocation) :
  within_bounds store = true ->
  let s := run store invs in
  within_bounds s = true
  /\ forall i,
       (entry_is doc_boost "nppf_2024" 1.50 s ->
        entry_is doc_boost "nppf_2024" 1.50 (step s i))
       /\ (entry_is doc_boost "dap_2020" 1.50 s ->
           entry_is doc_boost "dap_2020" 1.50 (step s i))
       /\ (entry_is doc_boost "csucp_2015" 0.80 s ->
           entry_is doc_boost "csucp_2015" 0.80 (step s i))
       /\ (forall k, entry_is topic_penalty k 0.50 s ->
                     entry_is topic_penalty k 0.50 (step s i))
       /\ (forall k, entry_is topic_penalties k 4.0 s ->
                     entry_is topic_penalties k 4.0 (step s i))
       /\ (number_is irrelevance_penalty_per_hit 1.5 s ->
           number_is irrelevance_penalty_per_hit 1.5 (step s i))
       /\ (target_is 3 s -> target_is 3 (step s i)).
Proof.
  intros H s. split.
  - now apply run_within.
  - intros i. apply saturated_values_stay.
Qed.

Lemma tuner_bounds_hold_witness :
  within_bounds (run None fifty_runs) = true.
Proof.
  apply (tuner_bounds_hold None fifty_runs). reflexivity.
Defined.

(* ================================================================== *)
(** ** The reranker: the score of one item *)
(* ================================================================== *)

Lemma kw_hit_counted (text key : string) :
  report_rerank.kw_hit (Py.lower text) key = counted text key.
Proof. destruct key; reflexivity. Qed.

Lemma count_hits_filter (text : string) (keywords : list string) (hits : Z) :
  report_rerank.count_hits (Py.lower text) keywords hits
  = (hits + Py.len (filter (counted text) keywords))%Z.
Proof.
  revert hits. induction keywords as [|kw rest IH]; intros hits; simpl.
  - unfold Py.len. simpl. lia.
  - rewrite IH, kw_hit_counted. destruct (counted text kw); unfold Py.len; simpl; lia.
Qed.

Lemma penalty_loop_filter (text : string) (items : Py.dict Q) (st : Z * Q) :
  let matching := filter (fun kv => counted text (fst kv)) items in
  fst (report_rerank.penalty_loop (Py.lower text) items st)
  = (fst st + Py.len matching)%Z
  /\ (snd (report_rerank.penalty_loop (Py.lower text) items st)
      == snd st * penalty_factor matching)%Q.
Proof.
  revert st. induction items as [|[topic mult] rest IH]; intros [n s]; cbn zeta.
  - simpl. unfold Py.len. simpl. split; [lia | ring].
  - cbn [report_rerank.penalty_loop filter fst snd].
    rewrite kw_hit_counted. destruct (counted text topic).
    + destruct (IH ((n + 1)%Z, (s * (1.0 / report_rerank.mult_or1 mult))%Q)) as [H1 H2].
      cbn zeta in H1, H2. rewrite H1, H2. cbn [fst snd penalty_factor fold_right].
      split.
      * unfold Py.len. cbn [List.length]. lia.
      * fold (penalty_factor (filter (fun kv => counted text (fst kv)) rest)).
        field. unfold report_rerank.mult_or1.
        destruct (Qeq_bool mult 0) eqn:E; [discriminate|].
        now apply Qeq_bool_neq in E.
    + apply (IH (n, s)).
Qed.

Lemma floor_is_max (s x floor : Q) :
  (s == x)%Q -> ((if Py.Qltb s floor then floor else s) == Qmax floor x)%Q.
Proof.
  intros H. destruct (Py.Qltb s floor) eqn:E.
  - apply Qltb_true_iff in E. symmetry. apply Q.max_l. rewrite <- H. lra.
  - apply Qltb_false_iff in E. rewrite H. symmetry. apply Q.max_r. now rewrite <- H.
Qed.

(** C4 (as amended).  [score_item] returns the maximum of the floor and
    [raw * doc_boost * (1 + (boost - 1) * min(1, hits / 3)) * P - n * penalty],
    where [hits] counts the non-empty keywords that occur in the text without
    regard to case, the matching topics are the non-empty topic keys that
    occur likewise, [n] is their number and [P] the product of
    [1 / multiplier] over them, a multiplier of zero taken as one.  The
    defaults are 1.0 for a document without boost and for the keyword boost,
    0.7 for the penalty per hit and 0.1 for the floor. *)
Theorem score_item_formula (text : string) (raw_score : Q) (dk : string) (w : Weights) :
  let boost := report_rerank.get (c3_keyword_boost w) 1.0%Q in
  let hits := Py.len (filter (counted text) (Py.list_or (c3_keywords w) [])) in
  let matching :=
    filter (fun kv => counted text (fst kv)) (report_rerank.get (topic_penalties w) []) in
  (report_rerank.score_item text raw_score dk w
   == Qmax (report_rerank.get (min_score_floor w) 0.1)
        (raw_score
         * report_rerank.get (Py.dict_get dk (report_rerank.get (doc_boost w) [])) 1.0
         * (1 + (boost - 1) * Qmin 1 (inject_Z hits / 3))
         * penalty_factor matching
         - inject_Z (Py.len matching)
           * report_rerank.get (irrelevance_penalty_per_hit w) 0.7))%Q.
Proof.
  intros boost hits matching. unfold report_rerank.score_item.
  rewrite count_hits_filter. fold hits. rewrite Z.add_0_l.
  set (db := report_rerank.get (Py.dict_get dk (report_rerank.get (doc_boost w) [])) 1.0%Q).
  set (pen := report_rerank.get (irrelevance_penalty_per_hit w) 0.7%Q).
  fold boost.
  set (s0 := if (hits =? 0)%Z then (Py.num_or0 (Some raw_score) * db)%Q
             else (Py.num_or0 (Some raw_score) * db
                   * (1.0 + (boost - 1.0) * Py.min 1.0 (inject_Z hits / 3.0)))%Q).
  assert (Hs0 : (s0 == raw_score * db * (1 + (boost - 1) * Qmin 1 (inject_Z hits / 3)))%Q).
  { subst s0. destruct (hits =? 0)%Z eqn:Eh.
    - apply Z.eqb_eq in Eh. rewrite Eh, num_or0_eq.
      assert (Hm : (Qmin 1 (inject_Z 0 / 3) == 0)%Q).
      { rewrite Q.min_r; [reflexivity | unfold Qle; simpl; lia]. }
      rewrite Hm. ring.
    - rewrite num_or0_eq, py_min_Qmin.
      assert (E1 : (1.0 == 1)%Q) by reflexivity.
      assert (E3 : (3.0 == 3)%Q) by reflexivity.
      now rewrite E1, E3. }
  destruct (penalty_loop_filter text (report_rerank.get (topic_penalties w) []) (0%Z, s0))
    as [Hn Hp].
  cbn zeta in Hn, Hp. fold matching in Hn, Hp. cbn [fst snd] in Hn, Hp.
  destruct (report_rerank.penalty_loop _ _ _) as [ph sc].
  cbn [fst snd] in Hn, Hp. rewrite Z.add_0_l in Hn. subst ph.
  apply floor_is_max.
  destruct (Py.len matching =? 0)%Z eqn:En.
  - apply Z.eqb_eq in En. rewrite En, Hp, Hs0.
    assert (E0 : (inject_Z 0 == 0)%Q) by reflexivity. rewrite E0. ring.
  - rewrite Hp, Hs0. reflexivity.
Qed.

(** C4, the claim as it was stated, at a concrete input: the empty keyword
    is a substring of the text "abc", so the formula of the claim counts one
    hit and gives [1 * (1 + (2 - 1) * 1/3) = 4/3]; the code skips the empty
    keyword and returns the raw score 1. *)
Lemma empty_keyword_is_not_a_hit :
  (report_rerank.score_item "abc" 1 "dap_2020" empty_keyword_weights == 1)%Q
  /\ (AsSpecified.claimed_score "abc" 1 "dap_2020" empty_keyword_weights == 4 # 3)%Q
  /\ ~ (report_rerank.score_item "abc" 1 "dap_2020" empty_keyword_weights
        == AsSpecified.claimed_score "abc" 1 "dap_2020" empty_keyword_weights)%Q.
Proof.
  split; [|split].
  - vm_compute. reflexivity.
  - vm_compute. reflexivity.
  - vm_compute. discriminate.
Qed.

(* ================================================================== *)
(** ** The stable sort by decreasing key *)
(* ================================================================== *)

Section StableSort.

Variable A : Type.
Variable key : A -> Q.

Lemma before_refl (a : A) : (before A key) a a.
Proof. unfold before. apply Qle_refl. Qed.

Lemma before_trans (a b c : A) : (before A key) a b -> (before A key) b c -> (before A key) a c.
Proof. unfold before. intros H1 H2. now apply Qle_trans with (key b). Qed.



Lemma insert_desc_In (x y : A) (l : list A) :
  In y (Py.insert_desc key x l) <-> y = x \/ In y l.
Proof.
  induction l as [|z l IH]; simpl.
  - intuition.
  - destruct (Py.Qltb (key x) (key z)); simpl; rewrite ?IH; intuition.
Qed.

Lemma sort_desc_In (y : A) (l : list A) : In y (Py.sort_desc key l) <-> In y l.
Proof.
  induction l as [|x l IH]; simpl.
  - tauto.
  - rewrite insert_desc_In, IH. intuition.
Qed.

Lemma insert_desc_sorted (x : A) (l : list A) :
  StronglySorted (before A key) l -> StronglySorted (before A key) (Py.insert_desc key x l).
Proof.
  induction l as [|z l IH]; intros Hs; simpl.
  - constructor; constructor.
  - inversion Hs as [|? ? Hs' Hall]; subst.
    destruct (Py.Qltb (key x) (key z)) eqn:E.
    + constructor; [now apply IH|].
      apply Forall_forall. intros y Hy. apply insert_desc_In in Hy.
      destruct Hy as [->|Hy].
      * apply Qltb_true_iff in E. unfold before. now apply Qlt_le_weak.
      * rewrite Forall_forall in Hall. now apply Hall.
    + apply Qltb_false_iff in E. constructor; [exact Hs|].
      constructor; [exact E|].
      apply Forall_forall. intros y Hy. rewrite Forall_forall in Hall.
      apply before_trans with z; [exact E | now apply Hall].
Qed.

Lemma sort_desc_sorted (l : list A) : StronglySorted (before A key) (Py.sort_desc key l).
Proof.
  induction l as [|x l IH]; simpl; [constructor | now apply insert_desc_sorted].
Qed.






End StableSort.

(* ================================================================== *)
(** ** The reranker: the two passes *)
(* ================================================================== *)

Lemma pass1_cons (t : Z) (e : Evidence) (rest picked : list Evidence)
    (seen : list string) :
  report_rerank.pass1 t (e :: rest) picked seen
  = match named_doc e with
    | Some dk =>
        if report_rerank.doc_seen dk seen then report_rerank.pass1 t rest picked seen
        else if (Py.len (dk :: seen) >=? t)%Z then picked ++ [e]
             else report_rerank.pass1 t rest (picked ++ [e]) (dk :: seen)
    | None => report_rerank.pass1 t rest picked seen
    end.
Proof. unfold named_doc. simpl. destruct (doc_key e) as [[|c s]|]; reflexivity. Qed.

Lemma doc_seen_cons (dk dk' : string) (seen : list string) :
  report_rerank.doc_seen dk (dk' :: seen) = true ->
  dk = dk' \/ report_rerank.doc_seen dk seen = true.
Proof.
  unfold report_rerank.doc_seen. simpl. intros H. apply orb_true_iff in H.
  destruct H as [H|H]; [left; now apply String.eqb_eq | now right].
Qed.

Lemma doc_seen_weaken (dk dk' : string) (seen : list string) :
  report_rerank.doc_seen dk seen = true ->
  report_rerank.doc_seen dk (dk' :: seen) = true.
Proof. unfold report_rerank.doc_seen. simpl. intros ->. apply orb_true_r. Qed.

Lemma doc_seen_head (dk : string) (seen : list string) :
  report_rerank.doc_seen dk (dk :: seen) = true.
Proof. unfold report_rerank.doc_seen. simpl. now rewrite String.eqb_refl. Qed.

Lemma len_cons {B} (x : B) (l : list B) : Py.len (x :: l) = (Py.len l + 1)%Z.
Proof. unfold Py.len. simpl List.length. lia. Qed.

Lemma len_app {B} (l1 l2 : list B) : Py.len (l1 ++ l2) = (Py.len l1 + Py.len l2)%Z.
Proof. unfold Py.len. rewrite length_app. lia. Qed.

Lemma len_nonneg {B} (l : list B) : (0 <= Py.len l)%Z.
Proof. unfold Py.len. lia. Qed.

Ltac split5 := split; [|split; [|split; [|split]]].

(** What pass 1 does on a sorted list. *)
Lemma pass1_spec (t : Z) (l : list Evidence) :
  sorted l ->
  forall picked seen,
  exists D,
    report_rerank.pass1 t l picked seen = picked ++ D
    /\ picks t seen D
    /\ sorted D
    /\ (forall d, In d D -> In d l)
    /\ (forall x, In x l -> passed_over t seen D x).
Proof.
  induction l as [|e rest IH]; intros Hs picked seen.
  - exists []. simpl. rewrite app_nil_r.
    split5; [reflexivity | constructor | constructor | intros x [] | intros x []].
  - inversion Hs as [|? ? Hs' Hall]; subst. rewrite Forall_forall in Hall.
    rewrite pass1_cons. destruct (named_doc e) as [dk|] eqn:Hdoc.
    + destruct (report_rerank.doc_seen dk seen) eqn:Hseen.
      * destruct (IH Hs' picked seen) as [D [H1 [H2 [H3 [H4 H5]]]]].
        exists D. split5; auto.
        -- intros d Hd. right. now apply H4.
        -- intros x [<-|Hx]; [|now apply H5].
           right; left. now exists dk.
      * destruct (Py.len (dk :: seen) >=? t)%Z eqn:Hlen.
        -- apply Z.geb_le in Hlen.
           exists [e]. split5.
           ++ reflexivity.
           ++ eapply picks_last; eauto. lia.
           ++ repeat constructor.
           ++ intros d [<-|[]]. now left.
           ++ intros x [<-|Hx].
              ** right; right; left. exists e.
                 split; [now left|]. split; [reflexivity | apply before_refl].
              ** right; right; right. split; [discriminate|]. split.
                 --- rewrite len_cons in Hlen. rewrite len_cons.
                     unfold Py.len at 2. simpl. lia.
                 --- intros d [<-|[]]. now apply Hall.
        -- assert (Hlt : (Py.len (dk :: seen) < t)%Z).
           { destruct (Z.geb_spec (Py.len (dk :: seen)) t); [discriminate | lia]. }
           destruct (IH Hs' (picked ++ [e]) (dk :: seen)) as [D [H1 [H2 [H3 [H4 H5]]]]].
           exists (e :: D). split5.
           ++ rewrite H1, <- app_assoc. reflexivity.
           ++ eapply picks_cons; eauto.
           ++ constructor; [exact H3|]. apply Forall_forall. intros d Hd.
              apply Hall. now apply H4.
           ++ intros d [<-|Hd]; [now left | right; now apply H4].
           ++ intros x [<-|Hx].
              ** right; right; left. exists e.
                 split; [now left|]. split; [reflexivity | apply before_refl].
              ** destruct (H5 x Hx)
                   as [Hn | [[dk' [Hn Hs2]] | [[d [Hd [Hn Hb]]] | [Hne [Hl Hb]]]]].
                 --- now left.
                 --- destruct (doc_seen_cons _ _ _ Hs2) as [->|Hs3].
                     +++ right; right; left. exists e.
                         split; [now left|]. split; [congruence | now apply Hall].
                     +++ right; left. now exists dk'.
                 --- right; right; left. exists d.
                     split; [now right|]. split; assumption.
                 --- right; right; right. split; [discriminate|]. split.
                     +++ rewrite len_cons in Hl. rewrite len_cons. lia.
                     +++ intros d [<-|Hd]; [now apply Hall | now apply Hb].
    + destruct (IH Hs' picked seen) as [D [H1 [H2 [H3 [H4 H5]]]]].
      exists D. split5; auto.
      * intros d Hd. right. now apply H4.
      * intros x [<-|Hx]; [now left | now apply H5].
Qed.








(** What pass 2 does on a sorted list. *)
Lemma pass2_spec (m : Z) (l : list Evidence) :
  forall picked,
  exists F,
    report_rerank.pass2 m l picked = picked ++ F
    /\ pickable m picked F
    /\ (forall f, In f F -> In f l)
    /\ (sorted l -> sorted F).
Proof.
  induction l as [|e rest IH]; intros picked.
  - exists []. simpl. rewrite app_nil_r.
    split; [reflexivity|]. split; [exact I|]. split; [intros f [] | auto].
  - simpl. destruct (Py.len picked >=? m)%Z eqn:Hlen.
    + exists []. rewrite app_nil_r.
      split; [reflexivity|]. split; [exact I|].
      split; [intros f [] | intros _; constructor].
    + destruct (report_rerank.ev_in e picked) eqn:Hin.
      * destruct (IH picked) as [F [H1 [H2 [H3 H4]]]].
        exists F. split; [exact H1|]. split; [exact H2|]. split.
        -- intros f Hf. right. now apply H3.
        -- intros Hs. apply H4. now inversion Hs.
      * destruct (IH (picked ++ [e])) as [F [H1 [H2 [H3 H4]]]].
        exists (e :: F). split; [|split; [|split]].
        -- rewrite H1, <- app_assoc. reflexivity.
        -- simpl. split; [|split; assumption].
           destruct (Z.geb_spec (Py.len picked) m); [discriminate | lia].
        -- intros f [<-|Hf]; [now left | right; now apply H3].
        -- intros Hs. inversion Hs as [|? ? Hs' Hall]; subst.
           constructor; [now apply H4|].
           rewrite Forall_forall in Hall. apply Forall_forall.
           intros f Hf. apply Hall. now apply H3.
Qed.



Lemma pickable_length (m : Z) (F picked : list Evidence) :
  pickable m picked F -> F = [] \/ (Py.len picked + Py.len F <= m)%Z.
Proof.
  revert picked. induction F as [|f F IH]; intros picked H; [now left|].
  right. destruct H as [Hlen [_ HF]].
  destruct (IH _ HF) as [->|Hle].
  - unfold Py.len in *. simpl. lia.
  - rewrite len_app in Hle. rewrite len_cons. unfold Py.len in Hle at 2.
    simpl in Hle. lia.
Qed.

Lemma picks_length (t : Z) (seen : list string) (D : list Evidence) :
  picks t seen D -> (Py.len D <= Z.max 1 (t - Py.len seen))%Z.
Proof.
  induction 1 as [seen | seen d dk Hd Hs Hl | seen d dk D Hd Hs Hl Hrest IH].
  - unfold Py.len. simpl. lia.
  - unfold Py.len. simpl. lia.
  - rewrite (len_cons dk seen) in Hl, IH. rewrite (len_cons d D). lia.
Qed.

Lemma named_doc_key (d : Evidence) (dk : string) :
  named_doc d = Some dk -> doc_key d = Some dk.
Proof.
  unfold named_doc. destruct (doc_key d) as [[|c s]|]; congruence.
Qed.

Lemma picks_docs (t : Z) (seen : list string) (D : list Evidence) :
  picks t seen D ->
  NoDup (map doc_key D)
  /\ forall d, In d D ->
       exists dk, named_doc d = Some dk /\ report_rerank.doc_seen dk seen = false.
Proof.
  induction 1 as [seen | seen d dk Hd Hs Hl | seen d dk D Hd Hs Hl Hrest [IH1 IH2]].
  - split; [constructor | intros d []].
  - split; [repeat constructor; intros [] | intros d0 [<-|[]]; eauto].
  - split.
    + simpl. constructor; [|exact IH1].
      intros Hin. apply in_map_iff in Hin. destruct Hin as [d0 [Hk Hd0]].
      destruct (IH2 d0 Hd0) as [dk0 [Hn0 Hs0]].
      apply named_doc_key in Hn0, Hd. rewrite Hd, Hn0 in Hk. injection Hk as ->.
      now rewrite doc_seen_head in Hs0.
    + intros d0 [<-|Hd0]; [eauto|].
      destruct (IH2 d0 Hd0) as [dk0 [Hn0 Hs0]]. exists dk0. split; [exact Hn0|].
      destruct (report_rerank.doc_seen dk0 seen) eqn:E; [|reflexivity].
      now rewrite (doc_seen_weaken _ dk _ E) in Hs0.
Qed.


Lemma attach_score_doc (w : Weights) (e : Evidence) :
  named_doc (report_rerank.attach_score w e) = named_doc e.
Proof. reflexivity. Qed.

(** The two passes on the sorted scored list, put together. *)
Lemma rerank_evidence_spec (evidence : list Evidence) (weights : Weights) :
  let w := report_rerank.load_weights weights in
  let t := report_rerank.get (doc_diversity_target w) 3%Z in
  let m := report_rerank.get (max_evidence_items w) 10%Z in
  let S := Py.sort_desc rkey (map (report_rerank.attach_score w) evidence) in
  exists D F,
    report_rerank.rerank_evidence evidence weights = D ++ F
    /\ picks t [] D /\ sorted D /\ sorted F
    /\ pickable m D F
    /\ (forall x, In x (D ++ F) -> In x S)
    /\ (forall x, In x S -> passed_over t [] D x).
Proof.
  intros w t m S. unfold report_rerank.rerank_evidence. fold w. fold S. fold t. fold m.
  assert (HS : sorted S) by apply sort_desc_sorted.
  destruct (pass1_spec t S HS [] []) as [D [H1 [H2 [H3 [H4 H5]]]]].
  rewrite H1. simpl app.
  destruct (pass2_spec m S D) as [F [G1 [G2 [G3 G4]]]].
  rewrite G1. exists D, F.
  split; [reflexivity|]. split; [exact H2|]. split; [exact H3|].
  split; [now apply G4|]. split; [exact G2|]. split; [|exact H5].
  intros x Hx. apply in_app_or in Hx. destruct Hx; auto.
Qed.


Lemma doc_list_In (dk : string) (l : list Evidence) :
  In dk (doc_list l) <-> exists e, In e l /\ named_doc e = Some dk.
Proof.
  unfold doc_list. rewrite in_flat_map. split; intros [e [He H]]; exists e; split; auto.
  - destruct (named_doc e) as [d|]; [destruct H as [->|[]]; reflexivity | destruct H].
  - rewrite H. now left.
Qed.

Lemma doc_list_length (l : list Evidence) : (List.length (doc_list l) <= List.length l)%nat.
Proof.
  induction l as [|e l IH]; simpl; [lia|].
  rewrite length_app. destruct (named_doc e); simpl; lia.
Qed.

(** When pass 1 ends under its target, every document of the input is the
    document of a picked item. *)
Lemma pass1_exhausts (t : Z) (D S : list Evidence) (evidence : list Evidence)
    (w : Weights) :
  (Py.len D < t)%Z ->
  (forall x, In x (map (report_rerank.attach_score w) evidence) -> In x S) ->
  (forall x, In x S -> passed_over t [] D x) ->
  (Py.len (named_docs evidence) <= Py.len D)%Z.
Proof.
  intros Hlt Hin Hover.
  assert (Hincl : incl (named_docs evidence) (doc_list D)).
  { intros dk Hdk. unfold named_docs in Hdk. apply nodup_In in Hdk.
    fold (doc_list evidence) in Hdk. apply doc_list_In in Hdk.
    destruct Hdk as [e [He Hn]].
    assert (Hx : In (report_rerank.attach_score w e) S)
      by (apply Hin, in_map, He).
    destruct (Hover _ Hx)
      as [Hnone | [[dk' [_ Hseen]] | [[d [Hd [Hsame _]]] | [_ [Hlen _]]]]].
    - rewrite attach_score_doc in Hnone. congruence.
    - discriminate Hseen.
    - rewrite attach_score_doc, Hn in Hsame. apply doc_list_In. now exists d.
    - unfold Py.len in Hlen at 1. simpl in Hlen. lia. }
  pose proof (NoDup_incl_length (NoDup_nodup string_dec _) Hincl) as Hle.
  fold (named_docs evidence) in Hle.
  pose proof (doc_list_length D). unfold Py.len. lia.
Qed.

Lemma load_weights_target (weights : Weights) :
  report_rerank.get (doc_diversity_target (report_rerank.load_weights weights)) 3%Z
  = report_rerank.get (doc_diversity_target weights) 3%Z.
Proof. destruct weights as [[?|] ? ? ? ? ? ? ? ?]; reflexivity. Qed.

Lemma load_weights_max (weights : Weights) :
  report_rerank.get (max_evidence_items (report_rerank.load_weights weights)) 10%Z
  = report_rerank.get (max_evidence_items weights) 10%Z.
Proof. destruct weights as [? [?|] ? ? ? ? ? ? ?]; reflexivity. Qed.

(** C3 (as amended).  The evidence list that [rerank_policy] returns has at
    most [max(max_evidence_items, doc_diversity_target, 1)] items, hence at
    most [max_evidence_items] when [1 <= doc_diversity_target <=
    max_evidence_items]; and when the input holds at least
    [doc_diversity_target] distinct non-empty [doc_key] values, the first
    [doc_diversity_target] items returned have pairwise distinct
    [doc_key]s. *)
Theorem rerank_policy_length_and_diversity
    (citations : list Citation) (evidence : list Evidence) (weights : Weights) :
  let t := report_rerank.get (doc_diversity_target weights) 3%Z in
  let m := report_rerank.get (max_evidence_items weights) 10%Z in
  let out := snd (report_rerank.rerank_policy citations evidence weights) in
  (Py.len out <= Z.max m (Z.max t 1))%Z
  /\ ((1 <= t <= m)%Z -> (Py.len out <= m)%Z)
  /\ ((t <= Py.len (named_docs evidence))%Z ->
      NoDup (map doc_key (firstn (Z.to_nat t) out))).
Proof.
  intros t m out. subst out. unfold report_rerank.rerank_policy. cbn [snd].
  destruct (rerank_evidence_spec evidence weights)
    as [D [F [HP [Hpicks [HsD [HsF [Hpk [Hsub Hover]]]]]]]].
  rewrite load_weights_target in Hpicks, Hover. rewrite load_weights_max in Hpk.
  fold t in Hpicks, Hover. fold m in Hpk. rewrite HP.
  pose proof (picks_length _ _ _ Hpicks) as HlenD.
  unfold Py.len in HlenD at 2. simpl in HlenD. rewrite Z.sub_0_r in HlenD.
  assert (Hlen : (Py.len (D ++ F) <= Z.max m (Z.max t 1))%Z).
  { rewrite len_app. destruct (pickable_length _ _ _ Hpk) as [->|Hle].
    - unfold Py.len at 2. simpl. lia.
    - lia. }
  split; [exact Hlen|]. split; [lia|].
  intros Hdocs. destruct (Z.le_gt_cases t 0) as [Ht|Ht].
  - replace (Z.to_nat t) with 0%nat by lia. constructor.
  - assert (HD : (t <= Py.len D)%Z).
    { destruct (Z.le_gt_cases t (Py.len D)) as [Hle|Hgt]; [exact Hle|].
      assert (Hex : (Py.len (named_docs evidence) <= Py.len D)%Z).
      { apply (pass1_exhausts t D
                 (Py.sort_desc rkey
                    (map (report_rerank.attach_score (report_rerank.load_weights weights))
                       evidence))
                 evidence (report_rerank.load_weights weights));
          [lia | | exact Hover].
        intros x Hx. now apply sort_desc_In. }
      lia. }
    assert (Hn : Z.to_nat t = List.length D) by (unfold Py.len in *; lia).
    rewrite Hn, firstn_app, firstn_all, Nat.sub_diag. simpl. rewrite app_nil_r.
    apply (picks_docs _ _ _ Hpicks).
Qed.

Lemma rerank_policy_length_and_diversity_witness :
  NoDup (map doc_key
           (firstn 3 (snd (report_rerank.rerank_policy [] three_documents empty_weights)))).
Proof.
  apply (proj2 (proj2 (rerank_policy_length_and_diversity [] three_documents
                         empty_weights))).
  vm_compute. discriminate.
Defined.

(** C3, the claim as it was stated, at two concrete inputs.  With a target
    of two documents, the input has two distinct [doc_key] values,
    "dap_2020" and the empty string, and the first two items returned are
    both of "dap_2020": pass 1 does not pick an item without a document.
    With a target of three documents and two slots, three items are
    returned: pass 1 picks one item per document whatever
    [max_evidence_items] is. *)
Lemma rerank_policy_claim_fails :
  ((2 <= Py.len (AsSpecified.distinct_doc_keys one_named_document))%Z
   /\ ~ NoDup (map doc_key
                 (firstn 2 (snd (report_rerank.rerank_policy [] one_named_document
                                   target_two)))))
  /\ (max_evidence_items two_slots = Some 2%Z
      /\ Py.len (snd (report_rerank.rerank_policy [] three_documents two_slots)) = 3%Z).
Proof.
  split; split.
  - vm_compute. discriminate.
  - intros H. vm_compute in H. inversion H as [|? ? Hnot _]. apply Hnot. now left.
  - reflexivity.
  - vm_compute. reflexivity.
Qed.

(* ================================================================== *)
(** ** Further properties of the decision engine *)
(* ================================================================== *)

(** X1.  [detect_issues] never returns an empty list and never repeats a
    tag; every tag is one of the eight fixed ones, and "general" is given
    only when it is the only tag. *)
Theorem detect_issues_tags (proposal_text : option string) :
  let issues := judgment.detect_issues proposal_text in
  issues <> []
  /\ NoDup issues
  /\ (forall x, In x issues -> In x ISSUE_TAGS)
  /\ (In "general" issues -> issues = ["general"]).
Proof.
  cbv zeta. unfold judgment.detect_issues.
  repeat match goal with
         | |- context [Py.any_in ?ws ?t] =>
             let b := fresh "b" in
             generalize (Py.any_in ws t); intros b
         end.
  repeat match goal with b : bool |- _ => destruct b end;
    cbn [app judgment.dedup existsb String.eqb Ascii.eqb Bool.eqb orb];
    (split; [discriminate|]);
    (split; [repeat constructor; simpl; intuition discriminate|]);
    (split; [intros x Hx; simpl in Hx; simpl; intuition|]);
    intros H; simpl in H; try reflexivity;
    exfalso; intuition discriminate.
Qed.

Lemma tilt_loop_keeps_conditions (cs : list CaseResult) (tr : bool) :
  snd (judgment.tilt_loop cs (tr, true)) = true.
Proof.
  revert tr. induction cs as [|c cs IH]; intros tr; simpl; [reflexivity|].
  match goal with |- context [judgment.tilt_loop cs (?a, ?b)] =>
    replace b with true by (now destruct (_ && _)) end.
  apply IH.
Qed.

Lemma tilt_loop_refuse_inv (cs : list CaseResult) (tc : bool) :
  fst (judgment.tilt_loop cs (false, tc)) = true ->
  exists c, In c cs /\ refused_for_harm c.
Proof.
  revert tc. induction cs as [|c cs IH]; intros tc H.
  - discriminate H.
  - destruct (tilt_loop_cons c cs (false, tc)) as [tc' E]. rewrite E in H. clear E.
    destruct (Py.str_in "refus" (Py.lower (Py.str_or (cr_decision c) ""))) eqn:Hd;
      [destruct (Py.any_in judgment.REFUSAL_TERMS (judgment.reasons_of c)) eqn:Ht|];
      cbn [andb fst] in H.
    + exists c. split; [now left|]. split; [exact Hd | now apply any_in_true].
    + destruct (IH _ H) as [c0 [Hin Hc0]]. exists c0. split; [now right | exact Hc0].
    + destruct (IH _ H) as [c0 [Hin Hc0]]. exists c0. split; [now right | exact Hc0].
Qed.

Lemma draft_conditions_head (ev : list Evidence) (proposal_text : option string) :
  exists rest,
    judgment._draft_householder_conditions ev proposal_text = APPROVED_PLANS :: rest.
Proof. eexists. reflexivity. Qed.

(** The branches of [make_recommendation], by the two strength checks, the
    harm flag and the tilt. *)
Lemma make_recommendation_cases
    (proposal_text : option string) (policy_block : option PolicyBlock)
    (case_block : option CaseBlock) (require_precedent : bool) :
  let r := judgment.make_recommendation proposal_text policy_block case_block
             require_precedent in
  let policy_ok := fst (fst (judgment._policy_strength policy_block)) in
  let case_ok := fst (fst (judgment._case_strength case_block)) in
  let harm := Py.any_in judgment.HARM_PHRASES (Py.lower (Py.str_or proposal_text "")) in
  let tilt := fst (judgment.tilt_loop (first_five case_block) (false, true)) in
  (policy_ok = false
   /\ Py.field "decision" r = Some (Py.PStr "insufficient_evidence")
   /\ Py.field "reason" r
      = Some (Py.PStr ("policy_retrieval_weak:"
                       ++ snd (judgment._policy_strength policy_block)))
   /\ Py.field "draft_conditions" r = Some (Py.PList [])
   /\ Py.field "draft_refusal_reasons" r = Some (Py.PList []))
  \/ (policy_ok = true /\ require_precedent = true /\ case_ok = false
      /\ Py.field "decision" r = Some (Py.PStr "insufficient_evidence")
      /\ Py.field "reason" r
         = Some (Py.PStr ("precedent_retrieval_weak:"
                          ++ snd (judgment._case_strength case_block)))
      /\ Py.field "draft_conditions" r = Some (Py.PList [])
      /\ Py.field "draft_refusal_reasons" r = Some (Py.PList []))
  \/ (policy_ok = true /\ case_ok = true /\ harm = true /\ tilt = true
      /\ Py.field "decision" r = Some (Py.PStr "refuse")
      /\ Py.field "reason" r = Some Py.PNone
      /\ Py.field "draft_conditions" r = Some (Py.PList [])
      /\ Py.field "draft_refusal_reasons" r
         = Some (Py.strs [judgment.REFUSAL_BOILERPLATE]))
  \/ (policy_ok = true /\ (require_precedent = false \/ case_ok = true)
      /\ (case_ok = false \/ harm = false \/ tilt = false)
      /\ Py.field "decision" r = Some (Py.PStr "approve_with_conditions")
      /\ Py.field "reason" r = Some Py.PNone
      /\ (exists rest,
            Py.field "draft_conditions" r = Some (Py.strs (APPROVED_PLANS :: rest)))
      /\ Py.field "draft_refusal_reasons" r = Some (Py.PList [])).
Proof.
  cbv zeta. unfold judgment.make_recommendation, first_five.
  destruct (judgment._policy_strength policy_block) as [[pok ps] pr].
  destruct (judgment._case_strength case_block) as [[cok cs] cr].
  cbn [fst snd]. destruct pok; cbn [negb].
  2:{ left. repeat split. }
  right. destruct require_precedent, cok; cbn [negb andb].
  2:{ left. repeat split. }
  all: right.
  - unfold Py.take.
    pose proof (tilt_loop_keeps_conditions
                  (firstn 5 (Py.list_or match case_block with
                                        | Some cb => cb_results cb
                                        | None => None
                                        end [])) false) as Hc.
    destruct (judgment.tilt_loop _ _) as [tr tc]. cbn [fst snd] in *. subst tc.
    destruct tr, (Py.any_in judgment.HARM_PHRASES _); cbn [andb].
    + left. repeat split.
    + right. destruct (draft_conditions_head
                         (Py.list_or match policy_block with
                                     | Some pb => pb_evidence pb
                                     | None => None
                                     end []) proposal_text) as [rest ->].
      split; [reflexivity|]. split; [now right|]. split; [auto|].
      split; [reflexivity|]. split; [reflexivity|]. split; [now exists rest | reflexivity].
    + right. destruct (draft_conditions_head
                         (Py.list_or match policy_block with
                                     | Some pb => pb_evidence pb
                                     | None => None
                                     end []) proposal_text) as [rest ->].
      split; [reflexivity|]. split; [now right|]. split; [auto|].
      split; [reflexivity|]. split; [reflexivity|]. split; [now exists rest | reflexivity].
    + right. destruct (draft_conditions_head
                         (Py.list_or match policy_block with
                                     | Some pb => pb_evidence pb
                                     | None => None
                                     end []) proposal_text) as [rest ->].
      split; [reflexivity|]. split; [now right|]. split; [auto|].
      split; [reflexivity|]. split; [reflexivity|]. split; [now exists rest | reflexivity].
  - unfold Py.take.
    pose proof (tilt_loop_keeps_conditions
                  (firstn 5 (Py.list_or match case_block with
                                        | Some cb => cb_results cb
                                        | None => None
                                        end [])) false) as Hc.
    destruct (judgment.tilt_loop _ _) as [tr tc]. cbn [fst snd] in *. subst tc.
    destruct tr, (Py.any_in judgment.HARM_PHRASES _); cbn [andb].
    + left. repeat split.
    + right. destruct (draft_conditions_head
                         (Py.list_or match policy_block with
                                     | Some pb => pb_evidence pb
                                     | None => None
                                     end []) proposal_text) as [rest ->].
      split; [reflexivity|]. split; [now left|]. split; [auto|].
      split; [reflexivity|]. split; [reflexivity|]. split; [now exists rest | reflexivity].
    + right. destruct (draft_conditions_head
                         (Py.list_or match policy_block with
                                     | Some pb => pb_evidence pb
                                     | None => None
                                     end []) proposal_text) as [rest ->].
      split; [reflexivity|]. split; [now left|]. split; [auto|].
      split; [reflexivity|]. split; [reflexivity|]. split; [now exists rest | reflexivity].
    + right. destruct (draft_conditions_head
                         (Py.list_or match policy_block with
                                     | Some pb => pb_evidence pb
                                     | None => None
                                     end []) proposal_text) as [rest ->].
      split; [reflexivity|]. split; [now left|]. split; [auto|].
      split; [reflexivity|]. split; [reflexivity|]. split; [now exists rest | reflexivity].
  - destruct (draft_conditions_head
                (Py.list_or match policy_block with
                            | Some pb => pb_evidence pb
                            | None => None
                            end []) proposal_text) as [rest ->].
    right.
    split; [reflexivity|]. split; [now left|]. split; [now left|].
    split; [reflexivity|]. split; [reflexivity|]. split; [now exists rest | reflexivity].
Qed.

(** X2.  [make_recommendation] has three outcomes only:
    [insufficient_evidence] with no conditions and no refusal reasons,
    [refuse] with no conditions and the fixed refusal reason, or
    [approve_with_conditions] with conditions that start with the
    approved-plans condition and no refusal reasons.  It never returns
    [approve] or [needs_officer_review]. *)
Theorem make_recommendation_outcomes
    (proposal_text : option string) (policy_block : option PolicyBlock)
    (case_block : option CaseBlock) (require_precedent : bool) :
  let r := judgment.make_recommendation proposal_text policy_block case_block
             require_precedent in
  (Py.field "decision" r = Some (Py.PStr "insufficient_evidence")
   /\ Py.field "draft_conditions" r = Some (Py.PList [])
   /\ Py.field "draft_refusal_reasons" r = Some (Py.PList []))
  \/ (Py.field "decision" r = Some (Py.PStr "refuse")
      /\ Py.field "draft_conditions" r = Some (Py.PList [])
      /\ Py.field "draft_refusal_reasons" r
         = Some (Py.strs [judgment.REFUSAL_BOILERPLATE]))
  \/ (Py.field "decision" r = Some (Py.PStr "approve_with_conditions")
      /\ (exists rest,
            Py.field "draft_conditions" r = Some (Py.strs (APPROVED_PLANS :: rest)))
      /\ Py.field "draft_refusal_reasons" r = Some (Py.PList [])).
Proof.
  cbv zeta.
  destruct (make_recommendation_cases proposal_text policy_block case_block
              require_precedent)
    as [H | [H | [H | H]]]; cbv zeta in H.
  - left. tauto.
  - left. tauto.
  - right; left. tauto.
  - right; right. tauto.
Qed.

(** X3.  [make_recommendation] refuses only on evidence: when the decision
    is [refuse], the policy strength check and the precedent strength check
    have passed, the lowered proposal holds a harm phrase, and one of the
    first five precedents is a refusal whose reasons mention an amenity-harm
    term. *)
Theorem refuse_only_with_refused_precedent
    (proposal_text : option string) (policy_block : option PolicyBlock)
    (case_block : option CaseBlock) (require_precedent : bool) :
  Py.field "decision"
    (judgment.make_recommendation proposal_text policy_block case_block
       require_precedent)
  = Some (Py.PStr "refuse") ->
  fst (fst (judgment._policy_strength policy_block)) = true
  /\ fst (fst (judgment._case_strength case_block)) = true
  /\ (exists k, In k judgment.HARM_PHRASES
                /\ Py.str_in k (Py.lower (Py.str_or proposal_text "")) = true)
  /\ (exists c, In c (first_five case_block) /\ refused_for_harm c).
Proof.
  intros Hd.
  destruct (make_recommendation_cases proposal_text policy_block case_block
              require_precedent)
    as [H | [H | [H | H]]]; cbv zeta in H.
  - destruct H as [_ [H _]]. rewrite H in Hd. discriminate Hd.
  - destruct H as [_ [_ [_ [H _]]]]. rewrite H in Hd. discriminate Hd.
  - destruct H as [Hp [Hc [Hh [Ht _]]]].
    split; [exact Hp|]. split; [exact Hc|].
    split; [now apply any_in_true | now apply tilt_loop_refuse_inv in Ht].
  - destruct H as [_ [_ [_ [H _]]]]. rewrite H in Hd. discriminate Hd.
Qed.

Lemma refuse_only_with_refused_precedent_witness :
  exists c, In c (first_five (Some strong_precedents)) /\ refused_for_harm c.
Proof.
  apply (refuse_only_with_refused_precedent
           (Some "Extension causing overlooking and unacceptable harm")
           (Some strong_policy_block) (Some strong_precedents) false).
  vm_compute. reflexivity.
Defined.

(** X4.  When precedents are required, a precedent block that is missing or
    fails its strength check gives [insufficient_evidence], however strong
    the policy evidence is; when the policy check has passed, the reason
    names the precedent failure. *)
Theorem required_precedents_missing
    (proposal_text : option string) (policy_block : option PolicyBlock)
    (case_block : option CaseBlock) :
  fst (fst (judgment._case_strength case_block)) = false ->
  let r := judgment.make_recommendation proposal_text policy_block case_block true in
  Py.field "decision" r = Some (Py.PStr "insufficient_evidence")
  /\ (fst (fst (judgment._policy_strength policy_block)) = true ->
      Py.field "reason" r
      = Some (Py.PStr ("precedent_retrieval_weak:"
                       ++ snd (judgment._case_strength case_block)))).
Proof.
  intros Hc. cbv zeta.
  destruct (make_recommendation_cases proposal_text policy_block case_block true)
    as [H | [H | [H | H]]]; cbv zeta in H.
  - destruct H as [Hp [H _]]. split; [exact H|]. intros Hp'. congruence.
  - destruct H as [_ [_ [_ [H [Hr _]]]]]. split; [exact H | intros _; exact Hr].
  - destruct H as [_ [Hc' _]]. congruence.
  - destruct H as [_ [[Hr | Hc'] _]]; [discriminate | congruence].
Qed.

Lemma required_precedents_missing_witness :
  Py.field "decision"
    (judgment.make_recommendation (Some "single storey rear extension")
       (Some strong_policy_block) None true)
  = Some (Py.PStr "insufficient_evidence").
Proof.
  apply (required_precedents_missing (Some "single storey rear extension")
           (Some strong_policy_block) None).
  reflexivity.
Defined.

Lemma sum_from (l : list Q) (acc : Q) :
  (fold_left Qplus l acc == acc + Py.sum l)%Q.
Proof.
  unfold Py.sum. revert acc. induction l as [|x l IH]; intros acc; simpl.
  - ring.
  - rewrite IH, (IH (0 + x)%Q). ring.
Qed.

Lemma sum_cons (x : Q) (l : list Q) : (Py.sum (x :: l) == x + Py.sum l)%Q.
Proof. unfold Py.sum at 1. simpl. rewrite sum_from. ring. Qed.

Lemma inject_len_cons {B} (x : B) (l : list B) :
  (inject_Z (Py.len (x :: l)) == inject_Z (Py.len l) + 1)%Q.
Proof.
  unfold Py.len. simpl List.length. rewrite Nat2Z.inj_succ, <- Z.add_1_r, inject_Z_plus.
  reflexivity.
Qed.

Lemma inject_len_nonneg {B} (l : list B) : (0 <= inject_Z (Py.len l))%Q.
Proof.
  unfold Py.len, Qle. simpl. lia.
Qed.

Lemma sum_ge (l : list Q) (lo : Q) :
  (forall x, In x l -> (lo <= x)%Q) -> (inject_Z (Py.len l) * lo <= Py.sum l)%Q.
Proof.
  induction l as [|x l IH]; intros H.
  - unfold Py.sum, Py.len. simpl. rewrite Qmult_0_l. apply Qle_refl.
  - rewrite sum_cons, inject_len_cons.
    assert (lo <= x)%Q by (apply H; now left).
    assert (inject_Z (Py.len l) * lo <= Py.sum l)%Q by (apply IH; intros; apply H; now right).
    lra.
Qed.

Lemma sum_le (l : list Q) (hi : Q) :
  (forall x, In x l -> (x <= hi)%Q) -> (Py.sum l <= inject_Z (Py.len l) * hi)%Q.
Proof.
  induction l as [|x l IH]; intros H.
  - unfold Py.sum, Py.len. simpl. rewrite Qmult_0_l. apply Qle_refl.
  - rewrite sum_cons, inject_len_cons.
    assert (x <= hi)%Q by (apply H; now left).
    assert (Py.sum l <= inject_Z (Py.len l) * hi)%Q by (apply IH; intros; apply H; now right).
    lra.
Qed.

Lemma sum_lt (l : list Q) (c : Q) :
  l <> [] -> (forall x, In x l -> (x < c)%Q) -> (Py.sum l < inject_Z (Py.len l) * c)%Q.
Proof.
  destruct l as [|x l]; [congruence|]. intros _ H.
  rewrite sum_cons, inject_len_cons.
  assert (x < c)%Q by (apply H; now left).
  assert (Py.sum l <= inject_Z (Py.len l) * c)%Q.
  { apply sum_le. intros y Hy. apply Qlt_le_weak, H. now right. }
  lra.
Qed.

Lemma In_take {B} (n : nat) (l : list B) (x : B) : In x (firstn n l) -> In x l.
Proof.
  intros H. rewrite <- (firstn_skipn n l). apply in_or_app. now left.
Qed.

(** The scores that [_avg_top_scores] averages: the first [n] of the sorted
    scores. *)
Lemma top_scores_spec {A} `{Scored A} (evidence : list A) (n : nat) :
  evidence <> [] -> (1 <= n)%nat ->
  exists top,
    top <> []
    /\ (forall x, In x top -> exists e, In e evidence /\ x = Py.num_or0 (get_score e))
    /\ (judgment._avg_top_scores evidence n == Py.sum top / inject_Z (Py.len top))%Q.
Proof.
  intros Hne Hn. unfold judgment._avg_top_scores.
  destruct evidence as [|e0 rest]; [congruence|].
  set (scores := map (fun e => Py.num_or0 (get_score e)) (e0 :: rest)).
  set (top := Py.take n (Py.sort_desc (fun x => x) scores)).
  exists top. split; [|split].
  - subst top. unfold Py.take.
    destruct (Py.sort_desc (fun x => x) scores) as [|s l] eqn:E.
    + assert (Hin : In (Py.num_or0 (get_score e0)) (Py.sort_desc (fun x => x) scores))
        by (apply sort_desc_In; now left).
      rewrite E in Hin. destruct Hin.
    + destruct n; [lia | discriminate].
  - intros x Hx. subst top. unfold Py.take in Hx.
    apply In_take, sort_desc_In in Hx. subst scores.
    apply in_map_iff in Hx. destruct Hx as [e [<- He]]. now exists e.
  - assert (Hk : (1 <= Py.len top)%Z).
    { assert (top <> []).
      { subst top. unfold Py.take.
        destruct (Py.sort_desc (fun x => x) scores) as [|s l] eqn:E.
        - assert (Hin : In (Py.num_or0 (get_score e0)) (Py.sort_desc (fun x => x) scores))
            by (apply sort_desc_In; now left).
          rewrite E in Hin. destruct Hin.
        - destruct n; [lia | discriminate]. }
      unfold Py.len. destruct top; [congruence | simpl; lia]. }
    rewrite Z.max_r by exact Hk. reflexivity.
Qed.

Lemma avg_top_scores_ge {A} `{Scored A} (evidence : list A) (n : nat) (lo : Q) :
  evidence <> [] -> (1 <= n)%nat ->
  (forall e, In e evidence -> (lo <= Py.num_or0 (get_score e))%Q) ->
  (lo <= judgment._avg_top_scores evidence n)%Q.
Proof.
  intros Hne Hn Hall.
  destruct (top_scores_spec evidence n Hne Hn) as [top [Ht [Hin ->]]].
  assert (Hpos : (0 < inject_Z (Py.len top))%Q).
  { destruct top as [|x l]; [congruence|]. rewrite inject_len_cons.
    pose proof (inject_len_nonneg l). lra. }
  apply Qle_shift_div_l; [exact Hpos|].
  rewrite Qmult_comm. apply sum_ge.
  intros x Hx. destruct (Hin x Hx) as [e [He ->]]. now apply Hall.
Qed.

Lemma avg_top_scores_lt {A} `{Scored A} (evidence : list A) (n : nat) (c : Q) :
  evidence <> [] -> (1 <= n)%nat ->
  (forall e, In e evidence -> (Py.num_or0 (get_score e) < c)%Q) ->
  (judgment._avg_top_scores evidence n < c)%Q.
Proof.
  intros Hne Hn Hall.
  destruct (top_scores_spec evidence n Hne Hn) as [top [Ht [Hin ->]]].
  assert (Hpos : (0 < inject_Z (Py.len top))%Q).
  { destruct top as [|x l]; [congruence|]. rewrite inject_len_cons.
    pose proof (inject_len_nonneg l). lra. }
  apply Qlt_shift_div_r; [exact Hpos|].
  rewrite Qmult_comm. apply sum_lt; [exact Ht|].
  intros x Hx. destruct (Hin x Hx) as [e [He ->]]. now apply Hall.
Qed.

(** ** The strongest items decide the strength checks *)

Lemma filter_insert_desc_length {B} (key : B -> Q) (P : B -> bool) (x : B) (l : list B) :
  List.length (filter P (Py.insert_desc key x l)) = List.length (filter P (x :: l)).
Proof.
  induction l as [|y l IH]; [reflexivity|]. simpl.
  destruct (Py.Qltb (key x) (key y)); [|reflexivity].
  simpl. simpl in IH. destruct (P y), (P x); simpl in *; lia.
Qed.

Lemma filter_sort_desc_length {B} (key : B -> Q) (P : B -> bool) (l : list B) :
  List.length (filter P (Py.sort_desc key l)) = List.length (filter P l).
Proof.
  induction l as [|x l IH]; [reflexivity|]. simpl Py.sort_desc.
  rewrite filter_insert_desc_length. simpl. destruct (P x); simpl; lia.
Qed.

(** In a list sorted by decreasing value, the values that reach [t] come
    first. *)
Lemma sorted_take_ge (t : Q) (l : list Q) (n : nat) :
  StronglySorted (before Q (fun x => x)) l ->
  (n <= List.length (filter (fun x => Qle_bool t x) l))%nat ->
  List.length (firstn n l) = n /\ forall x, In x (firstn n l) -> (t <= x)%Q.
Proof.
  intros Hs. revert n. induction Hs as [|y l Hs IH Hall]; intros n Hn.
  - simpl in Hn. assert (n = 0)%nat by lia. subst n. split; [reflexivity | intros x []].
  - destruct n as [|n]; [split; [reflexivity | intros x []]|].
    simpl in Hn. destruct (Qle_bool t y) eqn:E.
    + simpl in Hn. destruct (IH n ltac:(lia)) as [Hl Hx]. split.
      * simpl. now rewrite Hl.
      * intros x [<-|Hin]; [now apply Qle_bool_iff | now apply Hx].
    + exfalso.
      assert (Hz : filter (fun x => Qle_bool t x) l = []).
      { clear IH Hn Hs. induction l as [|z l IHl]; [reflexivity|].
        inversion Hall as [|? ? Hz Hall']; subst. simpl.
        assert (Ez : Qle_bool t z = false).
        { apply not_true_iff_false. rewrite Qle_bool_iff. intros Htz.
          apply not_true_iff_false in E. apply E. apply Qle_bool_iff.
          unfold before in Hz. now apply Qle_trans with z. }
        rewrite Ez. now apply IHl. }
      rewrite Hz in Hn. simpl in Hn. lia.
Qed.

(** [_avg_top_scores] reaches [t] as soon as [n] items do, whatever the
    other items score. *)
Lemma avg_top_scores_strong {A} `{Scored A} (evidence : list A) (n : nat) (t : Q) :
  (1 <= n)%nat ->
  (n <= List.length (filter (fun e => Qle_bool t (Py.num_or0 (get_score e))) evidence))%nat ->
  (t <= judgment._avg_top_scores evidence n)%Q.
Proof.
  intros Hn Hc. unfold judgment._avg_top_scores.
  destruct evidence as [|e0 rest]; [simpl in Hc; lia|].
  set (scores := map (fun e => Py.num_or0 (get_score e)) (e0 :: rest)).
  assert (Hc' : (n <= List.length (filter (fun x => Qle_bool t x)
                                     (Py.sort_desc (fun x => x) scores)))%nat).
  { rewrite filter_sort_desc_length. subst scores.
    clear -Hc. revert Hc. generalize (e0 :: rest). intros l.
    assert (E : List.length (filter (fun x => Qle_bool t x)
                               (map (fun e => Py.num_or0 (get_score e)) l))
                = List.length (filter (fun e => Qle_bool t (Py.num_or0 (get_score e))) l)).
    { induction l as [|e l IH]; [reflexivity|]. simpl.
      destruct (Qle_bool t (Py.num_or0 (get_score e))); simpl; now rewrite IH. }
    now rewrite E. }
  destruct (sorted_take_ge t _ n (sort_desc_sorted Q (fun x => x) scores) Hc')
    as [Hl Hx].
  unfold Py.take. set (top := firstn n (Py.sort_desc (fun x => x) scores)) in *.
  assert (Hk : Py.len top = Z.of_nat n) by (unfold Py.len; now rewrite Hl).
  rewrite Hk, Z.max_r by lia.
  assert (Hpos : (0 < inject_Z (Z.of_nat n))%Q) by (unfold Qlt; simpl; lia).
  apply Qle_shift_div_l; [exact Hpos|].
  rewrite Qmult_comm, <- Hk. now apply sum_ge.
Qed.

(** X5.  Weak items do not dilute strong ones.  A policy block with [ok]
    that holds at least six items scoring 3.0 or more passes
    [_policy_strength] whatever its other items score, and a precedent block
    with [ok] that holds at least five results scoring 2.0 or more passes
    [_case_strength]: only the six, respectively five, highest scores are
    averaged. *)
Theorem strongest_items_decide :
  (forall pb,
     let ev := Py.list_or (Py.opt_list_or (pb_evidence pb) (pb_results pb)) [] in
     pb_ok pb = true ->
     (6 <= List.length (filter (fun e => Qle_bool 3.0 (Py.num_or0 (score e))) ev))%nat ->
     fst (fst (judgment._policy_strength (Some pb))) = true
     /\ snd (judgment._policy_strength (Some pb)) = "ok")
  /\ (forall cb,
        let ev := Py.list_or (cb_results cb) [] in
        cb_ok cb = true ->
        (5 <= List.length (filter (fun c => Qle_bool 2.0 (Py.num_or0 (cr_score c))) ev))%nat ->
        fst (fst (judgment._case_strength (Some cb))) = true
        /\ snd (judgment._case_strength (Some cb)) = "ok").
Proof.
  split.
  - intros pb ev Hok Hc.
    assert (Hlen : (6 <= List.length ev)%nat).
    { apply Nat.le_trans with (1 := Hc). apply filter_length_le. }
    unfold judgment._policy_strength. rewrite Hok. cbn [negb]. fold ev.
    destruct (Z.ltb_spec (Py.len ev) 3) as [Hl|Hl]; [unfold Py.len in Hl; lia|].
    assert (Ha : (3.0 <= judgment._avg_top_scores ev 6)%Q)
      by (apply avg_top_scores_strong; [lia | exact Hc]).
    apply Qltb_false_iff in Ha. rewrite Ha. split; reflexivity.
  - intros cb ev Hok Hc.
    assert (Hlen : (5 <= List.length ev)%nat).
    { apply Nat.le_trans with (1 := Hc). apply filter_length_le. }
    unfold judgment._case_strength. rewrite Hok. cbn [negb]. fold ev.
    destruct (Z.ltb_spec (Py.len ev) 1) as [Hl|Hl]; [unfold Py.len in Hl; lia|].
    assert (Ha : (2.0 <= judgment._avg_top_scores ev 5)%Q)
      by (apply avg_top_scores_strong; [lia | exact Hc]).
    apply Qltb_false_iff in Ha. rewrite Ha. split; reflexivity.
Qed.

Lemma strongest_items_decide_witness :
  fst (fst (judgment._policy_strength (Some diluted_policy_block))) = true
  /\ snd (judgment._policy_strength (Some diluted_policy_block)) = "ok".
Proof.
  refine (proj1 strongest_items_decide diluted_policy_block eq_refl _).
  vm_compute. lia.
Defined.

(** X6.  A policy block with [ok], at least three evidence items and every
    score at least 3.0 passes [_policy_strength]; with every score under 3.0
    it fails with the reason [policy_scores_too_low].  A precedent block with
    [ok], at least one result and every score at least 2.0 passes
    [_case_strength]. *)
Theorem strength_checks_by_scores :
  (forall pb,
     let ev := Py.list_or (Py.opt_list_or (pb_evidence pb) (pb_results pb)) [] in
     pb_ok pb = true -> (3 <= Py.len ev)%Z ->
     ((forall e, In e ev -> (3.0 <= Py.num_or0 (score e))%Q) ->
      fst (judgment._policy_strength (Some pb)) = (true, judgment._avg_top_scores ev 6)
      /\ snd (judgment._policy_strength (Some pb)) = "ok")
     /\ ((forall e, In e ev -> (Py.num_or0 (score e) < 3.0)%Q) ->
         fst (fst (judgment._policy_strength (Some pb))) = false
         /\ snd (judgment._policy_strength (Some pb)) = "policy_scores_too_low"))
  /\ (forall cb,
        let ev := Py.list_or (cb_results cb) [] in
        cb_ok cb = true -> ev <> [] ->
        (forall c, In c ev -> (2.0 <= Py.num_or0 (cr_score c))%Q) ->
        fst (fst (judgment._case_strength (Some cb))) = true
        /\ snd (judgment._case_strength (Some cb)) = "ok").
Proof.
  split.
  - intros pb ev Hok Hlen.
    assert (Hne : ev <> []).
    { intros E. rewrite E in Hlen. unfold Py.len in Hlen. simpl in Hlen. lia. }
    unfold judgment._policy_strength. rewrite Hok. cbn [negb]. fold ev.
    destruct (Z.ltb_spec (Py.len ev) 3); [lia|].
    split; intros Hall.
    + assert (Ha : (3.0 <= judgment._avg_top_scores ev 6)%Q)
        by (apply avg_top_scores_ge; auto; lia).
      apply Qltb_false_iff in Ha. rewrite Ha. split; reflexivity.
    + assert (Ha : (judgment._avg_top_scores ev 6 < 3.0)%Q)
        by (apply avg_top_scores_lt; auto; lia).
      apply Qltb_true_iff in Ha. rewrite Ha. split; reflexivity.
  - intros cb ev Hok Hne Hall.
    unfold judgment._case_strength. rewrite Hok. cbn [negb]. fold ev.
    destruct (Z.ltb_spec (Py.len ev) 1) as [Hl|Hl].
    + destruct ev; [congruence|]. unfold Py.len in Hl. simpl in Hl. lia.
    + assert (Ha : (2.0 <= judgment._avg_top_scores ev 5)%Q)
        by (apply avg_top_scores_ge; auto; lia).
      apply Qltb_false_iff in Ha. rewrite Ha. split; reflexivity.
Qed.

Lemma strength_checks_by_scores_witness :
  snd (judgment._policy_strength (Some strong_policy_block)) = "ok".
Proof.
  refine (proj2 (proj1 (proj1 strength_checks_by_scores strong_policy_block
                          eq_refl _) _)).
  - vm_compute. discriminate.
  - intros e [<-|[<-|[<-|[]]]]; vm_compute; discriminate.
Defined.

(* ================================================================== *)
(** ** Further properties of the score-only engine and of the gate *)
(* ================================================================== *)

(** ** Rounding to binary64 *)

(** [round_half_even] is within one half of its argument. *)
Lemma round_half_even_near (r : Q) :
  (inject_Z (Py.round_half_even r) - (1 # 2) <= r
   /\ r <= inject_Z (Py.round_half_even r) + (1 # 2))%Q.
Proof.
  unfold Py.round_half_even.
  pose proof (Qfloor_le r) as Hlo. pose proof (Qlt_floor r) as Hhi.
  rewrite inject_Z_plus in Hhi. change (inject_Z 1) with 1%Q in Hhi.
  destruct (Qcompare_spec (r - inject_Z (Qfloor r)) (1 # 2)) as [E|E|E];
    [destruct (Z.even (Qfloor r))| |];
    rewrite ?inject_Z_plus; change (inject_Z 1) with 1%Q; split; lra.
Qed.

Lemma round_half_even_floor (r : Q) :
  (Qfloor r <= Py.round_half_even r <= Qfloor r + 1)%Z.
Proof.
  unfold Py.round_half_even.
  destruct (r - inject_Z (Qfloor r) ?= 1 # 2)%Q; [destruct (Z.even _)| |]; lia.
Qed.

Lemma round_half_even_mono (r s : Q) :
  (r <= s)%Q -> (Py.round_half_even r <= Py.round_half_even s)%Z.
Proof.
  intros Hrs. pose proof (Qfloor_resp_le r s Hrs) as Hf.
  destruct (Z.eq_dec (Qfloor r) (Qfloor s)) as [E|N].
  - unfold Py.round_half_even. rewrite <- E.
    destruct (Qcompare_spec (r - inject_Z (Qfloor r)) (1 # 2)) as [Er|Er|Er];
      destruct (Qcompare_spec (s - inject_Z (Qfloor r)) (1 # 2)) as [Es|Es|Es];
      try (destruct (Z.even (Qfloor r))); try lia; exfalso; lra.
  - pose proof (round_half_even_floor r). pose proof (round_half_even_floor s). lia.
Qed.

Lemma round_half_even_comp (r s : Q) :
  (r == s)%Q -> Py.round_half_even r = Py.round_half_even s.
Proof.
  intros E. apply Z.le_antisymm; apply round_half_even_mono; rewrite E; apply Qle_refl.
Qed.

Lemma round_half_even_Z (z : Z) : Py.round_half_even (inject_Z z) = z.
Proof.
  unfold Py.round_half_even. rewrite Qfloor_Z.
  destruct (Qcompare_spec (inject_Z z - inject_Z z) (1 # 2)) as [E|E|E];
    [exfalso; lra | reflexivity | exfalso; lra].
Qed.

(** Powers of two. *)
Lemma pow2_pos (k : Z) : (0 < 2 ^ k)%Q.
Proof. apply Qpower_0_lt. reflexivity. Qed.

Lemma pow2_plus (a b : Z) : (2 ^ (a + b) == 2 ^ a * 2 ^ b)%Q.
Proof. apply Qpower_plus. discriminate. Qed.

Lemma pow2_Z (k : Z) : (0 <= k)%Z -> (inject_Z (2 ^ k) == 2 ^ k)%Q.
Proof. intros H. now rewrite Zpower_Qpower. Qed.

Lemma pow2_le (a b : Z) : (a <= b)%Z -> (2 ^ a <= 2 ^ b)%Q.
Proof. intros H. apply Qpower_le_compat_l; [exact H | discriminate]. Qed.

Lemma pow2_lt_inv (a b : Z) : (2 ^ a < 2 ^ b)%Q -> (a < b)%Z.
Proof. intros H. apply Qpower_lt_compat_l_inv with (q := 2%Q); [exact H | reflexivity]. Qed.

(** [binade q] is the exponent of [q]. *)
Lemma binade_spec (q : Q) :
  (0 < q)%Q -> (2 ^ Py.binade q <= q /\ q < 2 ^ (Py.binade q + 1))%Q.
Proof.
  destruct q as [n d]. intros Hq.
  assert (Hn : (0 < n)%Z) by (unfold Qlt in Hq; simpl in Hq; lia).
  unfold Py.binade. cbn [Qnum Qden].
  set (a := Z.log2 n). set (c := Z.log2 (Z.pos d)).
  destruct (Z.log2_spec n Hn) as [Ha1 Ha2]. fold a in Ha1, Ha2.
  destruct (Z.log2_spec (Z.pos d) ltac:(lia)) as [Hc1 Hc2]. fold c in Hc1, Hc2.
  assert (Ha0 : (0 <= a)%Z) by apply Z.log2_nonneg.
  assert (Hc0 : (0 <= c)%Z) by apply Z.log2_nonneg.
  assert (Hq' : (n # d == inject_Z n / inject_Z (Z.pos d))%Q) by apply Qmake_Qdiv.
  assert (Hd : (0 < inject_Z (Z.pos d))%Q) by (unfold Qlt; simpl; lia).
  assert (Hnq : (0 < inject_Z n)%Q) by (unfold Qlt; simpl; lia).
  assert (Ba1 : (2 ^ a <= inject_Z n)%Q) by (rewrite <- pow2_Z, <- Zle_Qle; lia).
  assert (Ba2 : (inject_Z n < 2 ^ (a + 1))%Q) by (rewrite <- pow2_Z, <- Zlt_Qlt; lia).
  assert (Bc1 : (2 ^ c <= inject_Z (Z.pos d))%Q) by (rewrite <- pow2_Z, <- Zle_Qle; lia).
  assert (Bc2 : (inject_Z (Z.pos d) < 2 ^ (c + 1))%Q)
    by (rewrite <- pow2_Z, <- Zlt_Qlt; lia).
  pose proof (pow2_pos a) as Pa. pose proof (pow2_pos c) as Pc.
  destruct (Qle_bool (2 ^ (a - c)) (n # d)) eqn:E.
  - apply Qle_bool_iff in E. split; [exact E|].
    rewrite Hq'. apply Qlt_shift_div_r; [exact Hd|].
    replace (a - c + 1)%Z with ((a + 1) + - c)%Z by lia.
    rewrite pow2_plus, Qpower_opp.
    pose proof (pow2_pos (a + 1)) as Pa1.
    apply Qlt_le_trans with (2 ^ (a + 1) * / 2 ^ c * 2 ^ c)%Q.
    + field_simplify; [|lra]. lra.
    + apply Qmult_le_l; [|exact Bc1].
      apply Qmult_lt_0_compat; [exact Pa1 | now apply Qinv_lt_0_compat].
  - assert (E' : (n # d < 2 ^ (a - c))%Q).
    { apply Qnot_le_lt. intros H. apply Qle_bool_iff in H. congruence. }
    split.
    + rewrite Hq'. apply Qle_shift_div_l; [exact Hd|].
      replace (a - c - 1)%Z with (a + - (c + 1))%Z by lia.
      rewrite pow2_plus, Qpower_opp.
      pose proof (pow2_pos (c + 1)) as Pc1.
      apply Qle_trans with (2 ^ a * / 2 ^ (c + 1) * 2 ^ (c + 1))%Q.
      * apply Qmult_le_l; [|now apply Qlt_le_weak].
        apply Qmult_lt_0_compat; [exact Pa | now apply Qinv_lt_0_compat].
      * field_simplify; [|lra]. lra.
    + replace (a - c - 1 + 1)%Z with (a - c)%Z by lia. exact E'.
Qed.

Lemma binade_unique (q : Q) (k : Z) :
  (2 ^ k <= q)%Q -> (q < 2 ^ (k + 1))%Q -> Py.binade q = k.
Proof.
  intros H1 H2.
  assert (Hq : (0 < q)%Q) by (pose proof (pow2_pos k); lra).
  destruct (binade_spec q Hq) as [B1 B2].
  assert (k < Py.binade q + 1)%Z by (apply pow2_lt_inv; lra).
  assert (Py.binade q < k + 1)%Z by (apply pow2_lt_inv; lra).
  lia.
Qed.

Lemma binade_mono (x y : Q) :
  (0 < x)%Q -> (x <= y)%Q -> (Py.binade x <= Py.binade y)%Z.
Proof.
  intros Hx Hxy.
  destruct (binade_spec x Hx) as [B1 _].
  destruct (binade_spec y ltac:(lra)) as [_ B2].
  assert (Py.binade x < Py.binade y + 1)%Z by (apply pow2_lt_inv; lra).
  lia.
Qed.

Lemma ulp_of_pos (q : Q) :
  (0 < q)%Q -> Py.ulp q = (2 ^ Z.max (Py.binade q - 52) (-1074))%Q.
Proof.
  intros Hq. unfold Py.ulp. f_equal. f_equal. f_equal.
  destruct (binade_spec q Hq) as [B1 B2].
  apply binade_unique; rewrite Qabs_pos; auto; lra.
Qed.

Lemma ulp_pos (q : Q) : (0 < Py.ulp q)%Q.
Proof. apply pow2_pos. Qed.

(** [fl] on a positive number, a negative number and zero. *)
Lemma fl_of_pos (q : Q) :
  (0 < q)%Q ->
  (Py.fl q == inject_Z (Py.round_half_even (q / Py.ulp q)) * Py.ulp q)%Q.
Proof.
  intros Hq. unfold Py.fl.
  destruct (Qeq_bool q 0) eqn:E0; [apply Qeq_bool_iff in E0; lra|].
  assert (E1 : Qle_bool 0 q = true) by (apply Qle_bool_iff; lra).
  rewrite E1, Qred_correct.
  now rewrite (round_half_even_comp (Qabs q / Py.ulp q) (q / Py.ulp q))
    by (rewrite Qabs_pos; [reflexivity | lra]).
Qed.

Lemma fl_of_zero (q : Q) : (q == 0)%Q -> Py.fl q = 0%Q.
Proof.
  intros Hq. unfold Py.fl. apply Qeq_bool_iff in Hq. now rewrite Hq.
Qed.

Lemma fl_opp (q : Q) : (Py.fl (- q) == - Py.fl q)%Q.
Proof.
  destruct q as [[|p|p] d].
  - reflexivity.
  - unfold Py.fl. cbn [Qopp Qnum Qden Z.opp].
    change (Qeq_bool (Z.neg p # d) 0) with false.
    change (Qeq_bool (Z.pos p # d) 0) with false.
    change (Qle_bool 0 (Z.neg p # d)) with false.
    change (Qle_bool 0 (Z.pos p # d)) with true.
    reflexivity.
  - unfold Py.fl. cbn [Qopp Qnum Qden Z.opp].
    change (Qeq_bool (Z.neg p # d) 0) with false.
    change (Qeq_bool (Z.pos p # d) 0) with false.
    change (Qle_bool 0 (Z.neg p # d)) with false.
    change (Qle_bool 0 (Z.pos p # d)) with true.
    change (Py.ulp (Z.neg p # d)) with (Py.ulp (Z.pos p # d)).
    change (Qabs (Z.neg p # d)) with (Qabs (Z.pos p # d)).
    now rewrite Qopp_involutive.
Qed.

Lemma scaled_le (x : Q) (e k : Z) :
  (e <= k)%Z -> (x <= 2 ^ k)%Q ->
  (inject_Z (Py.round_half_even (x / 2 ^ e)) * 2 ^ e <= 2 ^ k)%Q.
Proof.
  intros Hek Hx. pose proof (pow2_pos e) as Pe.
  assert (Ek : (2 ^ k == inject_Z (2 ^ (k - e)) * 2 ^ e)%Q).
  { rewrite pow2_Z by lia. rewrite <- pow2_plus. now replace (k - e + e)%Z with k by lia. }
  rewrite Ek. apply Qmult_le_compat_r; [|lra].
  rewrite <- Zle_Qle. rewrite <- (round_half_even_Z (2 ^ (k - e))).
  apply round_half_even_mono. apply Qle_shift_div_r; [exact Pe | now rewrite <- Ek].
Qed.

Lemma scaled_ge (x : Q) (e k : Z) :
  (e <= k)%Z -> (2 ^ k <= x)%Q ->
  (2 ^ k <= inject_Z (Py.round_half_even (x / 2 ^ e)) * 2 ^ e)%Q.
Proof.
  intros Hek Hx. pose proof (pow2_pos e) as Pe.
  assert (Ek : (2 ^ k == inject_Z (2 ^ (k - e)) * 2 ^ e)%Q).
  { rewrite pow2_Z by lia. rewrite <- pow2_plus. now replace (k - e + e)%Z with k by lia. }
  rewrite Ek. apply Qmult_le_compat_r; [|lra].
  rewrite <- Zle_Qle. rewrite <- (round_half_even_Z (2 ^ (k - e))) at 1.
  apply round_half_even_mono. apply Qle_shift_div_l; [exact Pe | now rewrite <- Ek].
Qed.

Lemma fl_mono_pos (x y : Q) :
  (0 < x)%Q -> (x <= y)%Q -> (Py.fl x <= Py.fl y)%Q.
Proof.
  intros Hx Hxy. assert (Hy : (0 < y)%Q) by lra.
  rewrite (fl_of_pos x Hx), (fl_of_pos y Hy).
  rewrite (ulp_of_pos x Hx), (ulp_of_pos y Hy).
  pose proof (binade_mono x y Hx Hxy) as Hb.
  destruct (binade_spec x Hx) as [X1 X2]. destruct (binade_spec y Hy) as [Y1 Y2].
  set (ex := Z.max (Py.binade x - 52) (-1074)).
  set (ey := Z.max (Py.binade y - 52) (-1074)).
  destruct (Z.eq_dec ex ey) as [E|N].
  - rewrite <- E. pose proof (pow2_pos ex) as Pe.
    apply Qmult_le_compat_r; [|lra]. rewrite <- Zle_Qle.
    apply round_half_even_mono. apply Qmult_le_compat_r; [exact Hxy|].
    apply Qlt_le_weak. now apply Qinv_lt_0_compat.
  - assert (Hlt : (Py.binade x < Py.binade y)%Z) by lia.
    assert (Eey : ey = (Py.binade y - 52)%Z) by lia.
    apply Qle_trans with (2 ^ Py.binade y)%Q.
    + apply scaled_le; [lia|].
      apply Qle_trans with (2 ^ (Py.binade x + 1))%Q; [lra | apply pow2_le; lia].
    + apply scaled_ge; [lia | exact Y1].
Qed.

Lemma fl_nonneg (q : Q) : (0 <= q)%Q -> (0 <= Py.fl q)%Q.
Proof.
  intros Hq. destruct (Qlt_le_dec 0 q) as [H|H].
  - rewrite (fl_of_pos q H). pose proof (ulp_pos q) as Pu.
    assert (Hr : (Py.round_half_even (inject_Z 0) <= Py.round_half_even (q / Py.ulp q))%Z).
    { apply round_half_even_mono. apply Qle_shift_div_l; [exact Pu|].
      change (inject_Z 0) with 0%Q. lra. }
    rewrite round_half_even_Z in Hr.
    apply Qmult_le_0_compat; [|lra].
    change 0%Q with (inject_Z 0). now rewrite <- Zle_Qle.
  - rewrite (fl_of_zero q); [apply Qle_refl | lra].
Qed.

(** Rounding keeps the order of the numbers. *)
Lemma fl_mono (x y : Q) : (x <= y)%Q -> (Py.fl x <= Py.fl y)%Q.
Proof.
  intros Hxy. destruct (Qlt_le_dec 0 x) as [Hx|Hx].
  - now apply fl_mono_pos.
  - destruct (Qlt_le_dec y 0) as [Hy|Hy].
    + assert (H : (Py.fl (- y) <= Py.fl (- x))%Q) by (apply fl_mono_pos; lra).
      rewrite !fl_opp in H. lra.
    + apply Qle_trans with 0%Q; [|now apply fl_nonneg].
      assert (H : (0 <= Py.fl (- x))%Q) by (apply fl_nonneg; lra).
      rewrite fl_opp in H. lra.
Qed.

Lemma fl_comp (x y : Q) : (x == y)%Q -> (Py.fl x == Py.fl y)%Q.
Proof.
  intros E. apply Qle_antisym; apply fl_mono; rewrite E; apply Qle_refl.
Qed.

(** The integers under [2^53] are doubles. *)
Lemma fl_Z (z : Z) :
  (0 <= z < 2 ^ 53)%Z -> (Py.fl (inject_Z z) == inject_Z z)%Q.
Proof.
  intros [H0 H53]. destruct (Z.eq_dec z 0) as [->|Hz]; [reflexivity|].
  assert (Hq : (0 < inject_Z z)%Q) by (change 0%Q with (inject_Z 0); rewrite <- Zlt_Qlt; lia).
  set (b := Z.log2 z).
  destruct (Z.log2_spec z ltac:(lia)) as [L1 L2]. fold b in L1, L2.
  assert (Hb0 : (0 <= b)%Z) by apply Z.log2_nonneg.
  assert (Hb : (b < 53)%Z) by (apply Z.log2_lt_pow2; lia).
  assert (Eb : Py.binade (inject_Z z) = b).
  { apply binade_unique.
    - rewrite <- pow2_Z, <- Zle_Qle; lia.
    - rewrite <- pow2_Z, <- Zlt_Qlt; lia. }
  rewrite (fl_of_pos _ Hq), (ulp_of_pos _ Hq), Eb.
  replace (Z.max (b - 52) (-1074)) with (b - 52)%Z by lia.
  pose proof (pow2_pos (b - 52)) as Pe.
  assert (E : (inject_Z z / 2 ^ (b - 52) == inject_Z (z * 2 ^ (52 - b)))%Q).
  { rewrite inject_Z_mult, pow2_Z by lia.
    replace (52 - b)%Z with (- (b - 52))%Z by lia. rewrite Qpower_opp.
    unfold Qdiv. reflexivity. }
  rewrite (round_half_even_comp _ _ E), round_half_even_Z.
  rewrite inject_Z_mult, pow2_Z by lia.
  rewrite <- Qmult_assoc, <- pow2_plus.
  replace (52 - b + (b - 52))%Z with 0%Z by lia. change (2 ^ 0)%Q with 1%Q. ring.
Qed.

(** [fl q] is a multiple of [ulp q] within half a unit of [q]. *)
Lemma fl_nearest (q : Q) :
  (Qabs (Py.fl q - q) <= Py.ulp q / 2)%Q.
Proof.
  assert (Hpos : forall x, (0 < x)%Q -> (Qabs (Py.fl x - x) <= Py.ulp x / 2)%Q).
  { intros x Hx. rewrite (fl_of_pos x Hx). pose proof (ulp_pos x) as Pu.
    destruct (round_half_even_near (x / Py.ulp x)) as [N1 N2].
    assert (Ex : (x == x / Py.ulp x * Py.ulp x)%Q) by (field; lra).
    revert N1 N2 Ex.
    generalize (inject_Z (Py.round_half_even (x / Py.ulp x))) as m.
    generalize (x / Py.ulp x)%Q as r. generalize dependent (Py.ulp x). intros u Pu r m N1 N2 Ex.
    assert (A : (0 <= (r - (m - (1 # 2))) * u)%Q) by (apply Qmult_le_0_compat; lra).
    assert (B : (0 <= ((m + (1 # 2)) - r) * u)%Q) by (apply Qmult_le_0_compat; lra).
    assert (Eu : (u / 2 == (1 # 2) * u)%Q) by (field; lra).
    rewrite Eu. apply Qabs_Qle_condition.
    ring_simplify in A. ring_simplify in B. split; lra. }
  destruct (Qlt_le_dec 0 q) as [H|H]; [now apply Hpos|].
  destruct (Qlt_le_dec q 0) as [H'|H'].
  - specialize (Hpos (- q)%Q ltac:(lra)). rewrite fl_opp in Hpos.
    assert (Eu : Py.ulp (- q) = Py.ulp q).
    { unfold Py.ulp. f_equal. f_equal. f_equal.
      destruct q as [[|p|p] d]; reflexivity. }
    rewrite Eu in Hpos.
    assert (E : (- Py.fl q - - q == - (Py.fl q - q))%Q) by ring.
    now rewrite E, Qabs_opp in Hpos.
  - rewrite (fl_of_zero q) by lra. pose proof (ulp_pos q) as Pu.
    assert (Eu : (Py.ulp q / 2 == (1 # 2) * Py.ulp q)%Q) by (field; lra).
    rewrite Eu. apply Qabs_Qle_condition. split; lra.
Qed.

(** ** Sums and averages of doubles against whole-number bounds *)

Lemma pow2_1024_big : (inject_Z (2 ^ 53) < 2 ^ 1024)%Q.
Proof. rewrite pow2_Z by lia. apply Qpower_lt_compat_l; [lia | reflexivity]. Qed.

Lemma round_ge (c q : Q) :
  (0 <= c)%Q -> (c <= Py.fl q)%Q -> Py.fle (Py.Fin c) (Py.round q) = true.
Proof.
  intros Hc H. unfold Py.round. pose proof (pow2_pos 1024) as P.
  destruct (Qle_bool (2 ^ 1024) (Py.fl q)); [reflexivity|].
  destruct (Qle_bool (Py.fl q) (- 2 ^ 1024)) eqn:E.
  - apply Qle_bool_iff in E. exfalso. lra.
  - simpl. now apply Qle_bool_iff.
Qed.

Lemma round_le (c q : Q) :
  (c < 2 ^ 1024)%Q -> (Py.fl q <= c)%Q -> Py.fle (Py.round q) (Py.Fin c) = true.
Proof.
  intros Hc H. unfold Py.round.
  destruct (Qle_bool (2 ^ 1024) (Py.fl q)) eqn:E.
  - apply Qle_bool_iff in E. exfalso. lra.
  - destruct (Qle_bool (Py.fl q) (- 2 ^ 1024)); [reflexivity|].
    simpl. now apply Qle_bool_iff.
Qed.

Lemma fsum_from_ge (t : Z) (l : list Py.float) (k : Z) (acc : Py.float) :
  (0 <= t)%Z -> (0 <= k)%Z -> (t * (k + Py.len l) < 2 ^ 53)%Z ->
  Py.fle (Py.Fin (inject_Z (t * k))) acc = true ->
  (forall x, In x l -> Py.fle (Py.Fin (inject_Z t)) x = true) ->
  Py.fle (Py.Fin (inject_Z (t * (k + Py.len l)))) (fold_left Py.fadd l acc) = true.
Proof.
  intros Ht. revert k acc. induction l as [|x l IH]; intros k acc Hk Hb Hacc Hall.
  - simpl. unfold Py.len. simpl. now rewrite Z.add_0_r.
  - simpl. unfold Py.len in *. simpl List.length in *. rewrite Nat2Z.inj_succ in *.
    replace (k + Z.succ (Z.of_nat (List.length l)))%Z
      with ((k + 1) + Z.of_nat (List.length l))%Z in * by lia.
    apply IH; [lia | exact Hb | | intros y Hy; apply Hall; now right].
    assert (Hx : Py.fle (Py.Fin (inject_Z t)) x = true) by (apply Hall; now left).
    assert (Hz : (0 <= t * (k + 1) < 2 ^ 53)%Z) by nia.
    destruct acc as [a| | |], x as [b| | |]; simpl in Hacc, Hx; try discriminate;
      try reflexivity.
    apply Qle_bool_iff in Hacc, Hx. simpl Py.fadd. apply round_ge.
    + change 0%Q with (inject_Z 0). rewrite <- Zle_Qle. lia.
    + rewrite <- (fl_Z _ Hz). apply fl_mono.
      replace (t * (k + 1))%Z with (t * k + t)%Z by lia. rewrite inject_Z_plus. lra.
Qed.

Lemma fsum_from_le (t : Z) (l : list Py.float) (k : Z) (acc : Py.float) :
  (0 <= t)%Z -> (0 <= k)%Z -> (t * (k + Py.len l) < 2 ^ 53)%Z ->
  Py.fle acc (Py.Fin (inject_Z (t * k))) = true ->
  (forall x, In x l -> Py.fle x (Py.Fin (inject_Z t)) = true) ->
  Py.fle (fold_left Py.fadd l acc) (Py.Fin (inject_Z (t * (k + Py.len l)))) = true.
Proof.
  intros Ht. revert k acc. induction l as [|x l IH]; intros k acc Hk Hb Hacc Hall.
  - simpl. unfold Py.len. simpl. now rewrite Z.add_0_r.
  - simpl. unfold Py.len in *. simpl List.length in *. rewrite Nat2Z.inj_succ in *.
    replace (k + Z.succ (Z.of_nat (List.length l)))%Z
      with ((k + 1) + Z.of_nat (List.length l))%Z in * by lia.
    apply IH; [lia | exact Hb | | intros y Hy; apply Hall; now right].
    assert (Hx : Py.fle x (Py.Fin (inject_Z t)) = true) by (apply Hall; now left).
    assert (Hz : (0 <= t * (k + 1) < 2 ^ 53)%Z) by nia.
    destruct acc as [a| | |], x as [b| | |]; simpl in Hacc, Hx; try discriminate;
      try reflexivity.
    apply Qle_bool_iff in Hacc, Hx. simpl Py.fadd. apply round_le.
    + apply Qlt_trans with (inject_Z (2 ^ 53)); [|apply pow2_1024_big].
      rewrite <- Zlt_Qlt. lia.
    + rewrite <- (fl_Z _ Hz). apply fl_mono.
      replace (t * (k + 1))%Z with (t * k + t)%Z by lia. rewrite inject_Z_plus. lra.
Qed.

(** The average of fewer than [2^50] doubles that all reach the whole
    number [t] reaches [t], and the average of doubles that stay under [t]
    stays under it: the whole numbers in reach are doubles, and rounding
    keeps the order. *)
Lemma avg_score_bounds (t : Z) (scores : list Py.float) :
  scores <> [] -> (0 <= t <= 4)%Z -> (Py.len scores < 2 ^ 50)%Z ->
  ((forall x, In x scores -> Py.fle (Py.Fin (inject_Z t)) x = true) ->
   Py.fle (Py.Fin (inject_Z t)) (weighing_balance.avg_score scores) = true)
  /\ ((forall x, In x scores -> Py.fle x (Py.Fin (inject_Z t)) = true) ->
      Py.fle (weighing_balance.avg_score scores) (Py.Fin (inject_Z t)) = true).
Proof.
  intros Hne Ht Hlen.
  assert (Hn : (1 <= Py.len scores)%Z).
  { unfold Py.len. destruct scores; [congruence | simpl List.length; lia]. }
  assert (Hp : (2 ^ 50 * 4 < 2 ^ 53)%Z) by reflexivity.
  assert (Hp' : (2 ^ 50 < 2 ^ 53)%Z) by reflexivity.
  unfold weighing_balance.avg_score, Py.fsum.
  rewrite Z.max_l by lia. set (n := Py.len scores) in *.
  assert (En : (Py.fl (inject_Z n) == inject_Z n)%Q) by (apply fl_Z; lia).
  assert (Hnq : (0 < inject_Z n)%Q)
    by (change 0%Q with (inject_Z 0); rewrite <- Zlt_Qlt; lia).
  assert (Etn : (inject_Z (t * n) == inject_Z t * inject_Z n)%Q)
    by (rewrite inject_Z_mult; reflexivity).
  assert (Hz : (0 <= t < 2 ^ 53)%Z) by lia.
  assert (Hdiv : forall a, (Py.fl (a / Py.fl (inject_Z n)) == Py.fl (a / inject_Z n))%Q).
  { intros a. apply fl_comp. now rewrite En. }
  split; intros Hall.
  - pose proof (fsum_from_ge t scores 0 (Py.Fin 0)) as H. rewrite Z.add_0_l in H.
    fold n in H. specialize (H ltac:(lia) ltac:(lia) ltac:(nia)).
    rewrite Z.mul_0_r in H. specialize (H eq_refl Hall).
    destruct (fold_left Py.fadd scores (Py.Fin 0)) as [a| | |]; simpl in H;
      try discriminate; [|reflexivity].
    apply Qle_bool_iff in H. simpl Py.fdiv_int. apply round_ge.
    + change 0%Q with (inject_Z 0). rewrite <- Zle_Qle. lia.
    + rewrite Hdiv, <- (fl_Z t Hz). apply fl_mono.
      apply Qle_shift_div_l; [exact Hnq | now rewrite <- Etn].
  - pose proof (fsum_from_le t scores 0 (Py.Fin 0)) as H. rewrite Z.add_0_l in H.
    fold n in H. specialize (H ltac:(lia) ltac:(lia) ltac:(nia)).
    rewrite Z.mul_0_r in H. specialize (H eq_refl Hall).
    destruct (fold_left Py.fadd scores (Py.Fin 0)) as [a| | |]; simpl in H;
      try discriminate; [|reflexivity].
    apply Qle_bool_iff in H. simpl Py.fdiv_int. apply round_le.
    + apply Qlt_trans with (inject_Z (2 ^ 53)); [|apply pow2_1024_big].
      rewrite <- Zlt_Qlt. lia.
    + rewrite Hdiv, <- (fl_Z t Hz). apply fl_mono.
      apply Qle_shift_div_r; [exact Hnq | now rewrite <- Etn].
Qed.

(** X7.  The decision of [weigh_balance] for scores in one band, on a
    non-empty list of fewer than [2^50] results; the scores are the doubles
    read from the results and the average is rounded as the code rounds it.
    Every score at least 4.0 and one at least 4.5: [approve_with_conditions],
    0.70.  Every score at most 2.0: [insufficient_evidence], 0.25.  Every
    score at least 3.0 and under 4.5: [needs_officer_review], 0.45.  And no
    approval without a score of 4.5 or more, whatever the average. *)
Theorem decision_by_score_bands
    (proposal_text : option string) (policy_block : option PolicyBlock) :
  let results := weighing_balance.results_of policy_block in
  let r := weighing_balance.weigh_balance proposal_text policy_block in
  results <> [] -> (Py.len results < 2 ^ 50)%Z ->
  ((forall e, In e results -> Py.fle (Py.Fin 4.0) (Py.float_or0 (score e)) = true) ->
   (exists e, In e results /\ Py.fle (Py.Fin 4.5) (Py.float_or0 (score e)) = true) ->
   Py.field "decision" r = Some (Py.PStr "approve_with_conditions")
   /\ Py.field "confidence" r = Some (Py.PNum 0.70))
  /\ ((forall e, In e results -> Py.fle (Py.float_or0 (score e)) (Py.Fin 2.0) = true) ->
      Py.field "decision" r = Some (Py.PStr "insufficient_evidence")
      /\ Py.field "confidence" r = Some (Py.PNum 0.25))
  /\ ((forall e, In e results ->
         Py.fle (Py.Fin 3.0) (Py.float_or0 (score e)) = true
         /\ Py.flt (Py.float_or0 (score e)) (Py.Fin 4.5) = true) ->
      Py.field "decision" r = Some (Py.PStr "needs_officer_review")
      /\ Py.field "confidence" r = Some (Py.PNum 0.45))
  /\ ((forall e, In e results -> Py.flt (Py.float_or0 (score e)) (Py.Fin 4.5) = true) ->
      Py.field "decision" r <> Some (Py.PStr "approve_with_conditions")).
Proof.
  intros results r Hne Hlen.
  destruct (weigh_balance_fields proposal_text policy_block Hne) as [Hd Hc].
  fold r results in Hd, Hc. rewrite Hd, Hc. clear Hd Hc.
  set (scores := weighing_balance.scores_of results).
  assert (Hs : scores <> []).
  { subst scores. unfold weighing_balance.scores_of.
    destruct results; [congruence | discriminate]. }
  assert (Hls : (Py.len scores < 2 ^ 50)%Z).
  { subst scores. unfold weighing_balance.scores_of, Py.len in *.
    now rewrite length_map. }
  assert (Hnan : forall y, In y scores -> y <> Py.NaN)
    by (intros y; apply scores_not_nan).
  assert (Hin : forall x, In x scores ->
                  exists e, In e results /\ x = Py.float_or0 (score e)).
  { intros x Hx. subst scores. unfold weighing_balance.scores_of in Hx.
    apply in_map_iff in Hx. destruct Hx as [e [<- He]]. now exists e. }
  assert (Htop : (forall e, In e results ->
                    Py.flt (Py.float_or0 (score e)) (Py.Fin 4.5) = true) ->
                 Py.fle (Py.Fin 4.5) (weighing_balance.top_score scores) = false).
  { intros Hall. destruct (Hin _ (top_score_In scores Hs)) as [e [He ->]].
    apply flt_not_fle. now apply Hall. }
  unfold weighing_balance.decision_rule.
  split; [|split; [|split]].
  - intros Hall [e [He Hbig]].
    assert (Ha : Py.fle (Py.Fin 4.0) (weighing_balance.avg_score scores) = true).
    { apply fle_trans with (Py.Fin (inject_Z 4)); [reflexivity|].
      apply (avg_score_bounds 4 scores Hs ltac:(lia) Hls).
      intros x Hx. destruct (Hin x Hx) as [e' [He' ->]].
      apply fle_trans with (Py.Fin 4.0); [reflexivity | now apply Hall]. }
    assert (Ht : Py.fle (Py.Fin 4.5) (weighing_balance.top_score scores) = true).
    { apply fle_trans with (1 := Hbig). apply top_score_ge; [exact Hnan|].
      subst scores. unfold weighing_balance.scores_of.
      apply in_map_iff. now exists e. }
    rewrite Ha, Ht. split; reflexivity.
  - intros Hall.
    assert (Ha : Py.fle (weighing_balance.avg_score scores) (Py.Fin (inject_Z 2)) = true).
    { apply (avg_score_bounds 2 scores Hs ltac:(lia) Hls).
      intros x Hx. destruct (Hin x Hx) as [e' [He' ->]].
      apply fle_trans with (Py.Fin 2.0); [now apply Hall | reflexivity]. }
    destruct (weighing_balance.avg_score scores) as [a| | |]; simpl in Ha;
      try discriminate; [|split; reflexivity].
    apply Qle_bool_iff in Ha.
    assert (E4 : Py.fle (Py.Fin 4.0) (Py.Fin a) = false).
    { simpl. apply not_true_iff_false. rewrite Qle_bool_iff.
      change (inject_Z 2) with 2%Q in Ha. lra. }
    assert (El : Py.flt (Py.Fin a) (Py.Fin 2.5) = true).
    { simpl. apply Qltb_true_iff. change (inject_Z 2) with 2%Q in Ha. lra. }
    rewrite E4, El. split; reflexivity.
  - intros Hall.
    assert (Ha : Py.fle (Py.Fin (inject_Z 3)) (weighing_balance.avg_score scores) = true).
    { apply (avg_score_bounds 3 scores Hs ltac:(lia) Hls).
      intros x Hx. destruct (Hin x Hx) as [e' [He' ->]].
      apply fle_trans with (Py.Fin 3.0); [reflexivity | now apply Hall]. }
    rewrite (Htop (fun e He => proj2 (Hall e He))), andb_false_r.
    destruct (weighing_balance.avg_score scores) as [a| | |]; simpl in Ha;
      try discriminate; [|split; reflexivity].
    apply Qle_bool_iff in Ha.
    assert (El : Py.flt (Py.Fin a) (Py.Fin 2.5) = false).
    { simpl. apply Qltb_false_iff. change (inject_Z 3) with 3%Q in Ha. lra. }
    rewrite El. split; reflexivity.
  - intros Hall. rewrite (Htop Hall), andb_false_r.
    destruct (Py.flt (weighing_balance.avg_score scores) (Py.Fin 2.5)); discriminate.
Qed.

Lemma decision_by_score_bands_witness :
  Py.field "decision"
    (weighing_balance.weigh_balance (Some "dormer") (five_results 4.05 4.8))
  = Some (Py.PStr "approve_with_conditions")
  /\ Py.field "confidence"
       (weighing_balance.weigh_balance (Some "dormer") (five_results 4.05 4.8))
     = Some (Py.PNum 0.70).
Proof.
  refine (proj1 (decision_by_score_bands (Some "dormer") (five_results 4.05 4.8) _ _)
            _ _).
  - discriminate.
  - reflexivity.
  - intros e He. vm_compute in He.
    destruct He as [<-|[<-|[<-|[<-|[<-|[]]]]]]; vm_compute; reflexivity.
  - eexists. split; [left; reflexivity | vm_compute; reflexivity].
Defined.

(** X8.  Without results, whether the block is missing, has no [results]
    key or has an empty list, [weigh_balance] returns
    [insufficient_evidence] with confidence 0.0, the single reason "No
    policy evidence retrieved.", and no reasons for, conditions or issues. *)
Theorem weigh_balance_without_results
    (proposal_text : option string) (policy_block : option PolicyBlock) :
  (policy_block = None
   \/ exists pb, policy_block = Some pb
                 /\ (pb_results pb = None \/ pb_results pb = Some [])) ->
  weighing_balance.weigh_balance proposal_text policy_block
  = Py.PDict [("decision", Py.PStr "insufficient_evidence");
              ("confidence", Py.PNum 0.0);
              ("reasons_for", Py.PList []);
              ("reasons_against", Py.strs ["No policy evidence retrieved."]);
              ("suggested_conditions", Py.PList []);
              ("issues", Py.PList [])].
Proof.
  intros [-> | [pb [-> [H | H]]]]; unfold weighing_balance.weigh_balance; simpl;
    try rewrite H; reflexivity.
Qed.

Lemma weigh_balance_without_results_witness :
  Py.field "confidence"
    (weighing_balance.weigh_balance (Some "porch")
       (Some (mkPolicyBlock true None (Some []) None (pb_evidence strong_policy_block))))
  = Some (Py.PNum 0.0).
Proof.
  rewrite (weigh_balance_without_results (Some "porch")
             (Some (mkPolicyBlock true None (Some []) None
                      (pb_evidence strong_policy_block)))).
  - reflexivity.
  - right. eexists. split; [reflexivity|]. now right.
Defined.

(** X9.  [weigh_balance] decides one of [approve_with_conditions],
    [insufficient_evidence] and [needs_officer_review].  It suggests
    conditions and gives reasons for exactly when it approves, with
    confidence 0.70 and no reason against; on the two other decisions the
    confidence is between 0 and 0.45, there is at least one reason against
    and there are neither conditions nor reasons for. *)
Theorem weigh_balance_reasons_match_decision
    (proposal_text : option string) (policy_block : option PolicyBlock) :
  let r := weighing_balance.weigh_balance proposal_text policy_block in
  (Py.field "decision" r = Some (Py.PStr "approve_with_conditions")
   /\ Py.field "confidence" r = Some (Py.PNum 0.70)
   /\ (exists c rest, Py.field "suggested_conditions" r = Some (Py.strs (c :: rest)))
   /\ (exists f rest, Py.field "reasons_for" r = Some (Py.strs (f :: rest)))
   /\ Py.field "reasons_against" r = Some (Py.strs []))
  \/ ((Py.field "decision" r = Some (Py.PStr "insufficient_evidence")
       \/ Py.field "decision" r = Some (Py.PStr "needs_officer_review"))
      /\ (exists c, Py.field "confidence" r = Some (Py.PNum c) /\ (0 <= c <= 0.45)%Q)
      /\ Py.field "suggested_conditions" r = Some (Py.strs [])
      /\ Py.field "reasons_for" r = Some (Py.strs [])
      /\ exists a rest, Py.field "reasons_against" r = Some (Py.strs (a :: rest))).
Proof.
  cbv zeta. unfold weighing_balance.weigh_balance.
  destruct (weighing_balance.results_of policy_block) as [|e l].
  - right. split; [now left|].
    split; [exists 0.0%Q; split; [reflexivity | lra]|].
    split; [reflexivity|]. split; [reflexivity|].
    eexists; eexists; reflexivity.
  - unfold weighing_balance.decision_rule.
    destruct (_ && _); [|destruct (Py.flt _ _)].
    + left. split; [reflexivity|]. split; [reflexivity|]. split; [|split].
      * eexists; eexists; reflexivity.
      * eexists; eexists; reflexivity.
      * reflexivity.
    + right. split; [now left|].
      split; [exists 0.25%Q; split; [reflexivity | lra]|].
      split; [reflexivity|]. split; [reflexivity|].
      eexists; eexists; reflexivity.
    + right. split; [now right|].
      split; [exists 0.45%Q; split; [reflexivity | lra]|].
      split; [reflexivity|]. split; [reflexivity|].
      eexists; eexists; reflexivity.
Qed.

(** X10.  The gate and the strength check together, with [min_results] at
    least 3.  A block that the gate rejects makes [make_recommendation]
    return [insufficient_evidence] with the reason
    "policy_retrieval_weak:no_policy_results".  On a block that the gate
    accepts the strength check can fail on the scores only: its reason is
    "ok" or "policy_scores_too_low", never a missing or too short result
    list; it is "ok" when every result scores 3.0 or more and when six
    results do, and when it is "policy_scores_too_low" the recommendation is
    [insufficient_evidence] with that reason. *)
Theorem gate_then_strength (retrieval_out : PolicyBlock) (min_results : Z)
    (proposal_text : option string) (case_block : option CaseBlock)
    (require_precedent : bool) :
  (3 <= min_results)%Z ->
  let out := policy_evidence.require_policy_evidence retrieval_out min_results in
  let verdict := snd (judgment._policy_strength (Some out)) in
  let r := judgment.make_recommendation proposal_text (Some out) case_block
             require_precedent in
  (pb_ok out = false ->
   Py.field "decision" r = Some (Py.PStr "insufficient_evidence")
   /\ Py.field "reason" r = Some (Py.PStr "policy_retrieval_weak:no_policy_results"))
  /\ (pb_ok out = true ->
      (verdict = "ok" \/ verdict = "policy_scores_too_low")
      /\ ((forall e, In e (Py.list_or (pb_results retrieval_out) []) ->
                     (3.0 <= Py.num_or0 (score e))%Q) ->
          verdict = "ok")
      /\ ((6 <= List.length
                  (filter (fun e => Qle_bool 3.0 (Py.num_or0 (score e)))
                     (Py.list_or (pb_results retrieval_out) [])))%nat ->
          verdict = "ok")
      /\ (verdict = "policy_scores_too_low" ->
          Py.field "decision" r = Some (Py.PStr "insufficient_evidence")
          /\ Py.field "reason" r
             = Some (Py.PStr "policy_retrieval_weak:policy_scores_too_low"))).
Proof.
  intros Hmin out verdict r.
  pose proof (make_recommendation_cases proposal_text (Some out) case_block
                require_precedent) as Hcases. cbv zeta in Hcases. fold r in Hcases.
  split.
  - intros Hok.
    destruct Hcases as [H | [H | [H | H]]].
    + destruct H as [_ [Hd [Hr _]]]. split; [exact Hd|]. rewrite Hr.
      simpl. rewrite Hok. reflexivity.
    + destruct H as [Hp _]. simpl in Hp. rewrite Hok in Hp. discriminate Hp.
    + destruct H as [Hp _]. simpl in Hp. rewrite Hok in Hp. discriminate Hp.
    + destruct H as [Hp _]. simpl in Hp. rewrite Hok in Hp. discriminate Hp.
  - intros Hok.
    assert (Hv : exists ev,
               Py.list_or (pb_results retrieval_out) [] = ev
               /\ (3 <= Py.len ev)%Z
               /\ judgment._policy_strength (Some out)
                  = if Py.Qltb (judgment._avg_top_scores ev 6) 3.0
                    then (false, judgment._avg_top_scores ev 6, "policy_scores_too_low")
                    else (true, judgment._avg_top_scores ev 6, "ok")).
    { subst out. revert Hok. unfold policy_evidence.require_policy_evidence.
      set (results := Py.list_or (pb_results retrieval_out) []).
      destruct (negb (pb_ok retrieval_out) || (Py.len results <? min_results)%Z) eqn:E;
        [discriminate|].
      intros _. apply orb_false_iff in E. destruct E as [_ E]. apply Z.ltb_ge in E.
      assert (Hlen : (3 <= Py.len results)%Z) by lia.
      exists results. split; [reflexivity|]. split; [exact Hlen|].
      destruct results as [|e0 rest] eqn:Hres.
      { unfold Py.len in Hlen. simpl in Hlen. lia. }
      unfold judgment._policy_strength. cbn [pb_ok negb pb_evidence pb_results
                                            Py.opt_list_or Py.list_or].
      destruct (Z.ltb_spec (Py.len (e0 :: rest)) 3); [lia | reflexivity]. }
    destruct Hv as [ev [Hev [Hlen Hps]]].
    assert (Hne : ev <> []).
    { intros E. rewrite E in Hlen. unfold Py.len in Hlen. simpl in Hlen. lia. }
    split; [|split; [|split]].
    + subst verdict. rewrite Hps.
      destruct (Py.Qltb (judgment._avg_top_scores ev 6) 3.0); [now right | now left].
    + intros Hall. subst verdict. rewrite Hps. rewrite Hev in Hall.
      assert (Ha : (3.0 <= judgment._avg_top_scores ev 6)%Q)
        by (apply avg_top_scores_ge; auto; lia).
      apply Qltb_false_iff in Ha. now rewrite Ha.
    + intros Hsix. subst verdict. rewrite Hps. rewrite Hev in Hsix.
      assert (Ha : (3.0 <= judgment._avg_top_scores ev 6)%Q)
        by (apply avg_top_scores_strong; [lia | exact Hsix]).
      apply Qltb_false_iff in Ha. now rewrite Ha.
    + intros Hlow. subst verdict.
      destruct Hcases as [H | [H | [H | H]]].
      * destruct H as [_ [Hd [Hr _]]]. split; [exact Hd|]. now rewrite Hr, Hlow.
      * destruct H as [Hp _]. rewrite Hps in Hp, Hlow.
        destruct (Py.Qltb (judgment._avg_top_scores ev 6) 3.0); discriminate.
      * destruct H as [Hp _]. rewrite Hps in Hp, Hlow.
        destruct (Py.Qltb (judgment._avg_top_scores ev 6) 3.0); discriminate.
      * destruct H as [Hp _]. rewrite Hps in Hp, Hlow.
        destruct (Py.Qltb (judgment._avg_top_scores ev 6) 3.0); discriminate.
Qed.

Lemma gate_then_strength_witness :
  snd (judgment._policy_strength
         (Some (policy_evidence.require_policy_evidence
                  (mkPolicyBlock true None (pb_evidence strong_policy_block)
                     None None) 3)))
  = "ok".
Proof.
  refine (proj1 (proj2 (proj2 (gate_then_strength
                          (mkPolicyBlock true None (pb_evidence strong_policy_block)
                             None None) 3 (Some "porch") None false _) _)) _).
  - lia.
  - reflexivity.
  - intros e He. vm_compute in He.
    destruct He as [<-|[<-|[<-|[]]]]; vm_compute; discriminate.
Defined.

(* ================================================================== *)
(** ** Further properties of the reranker *)
(* ================================================================== *)

(** X11.  [load_weights] keeps every value that the file gives, fills the
    eight keys it knows, and is idempotent; reranking with weights that were
    already loaded gives the same result as reranking with the file's own. *)
Theorem load_weights_idempotent (w : Weights) :
  report_rerank.load_weights (report_rerank.load_weights w) = report_rerank.load_weights w
  /\ (forall citations evidence,
        report_rerank.rerank_policy citations evidence (report_rerank.load_weights w)
        = report_rerank.rerank_policy citations evidence w)
  /\ (exists a b c d e f g h,
        report_rerank.load_weights w
        = mkWeights (Some a) (Some b) (Some c) (Some d) (Some e) (Some f) (Some g)
            (Some h) (topic_penalty w))
  /\ (forall v, doc_diversity_target w = Some v ->
                doc_diversity_target (report_rerank.load_weights w) = Some v)
  /\ (forall v, max_evidence_items w = Some v ->
                max_evidence_items (report_rerank.load_weights w) = Some v)
  /\ (forall v, c3_keyword_boost w = Some v ->
                c3_keyword_boost (report_rerank.load_weights w) = Some v)
  /\ (forall v, c3_keywords w = Some v ->
                c3_keywords (report_rerank.load_weights w) = Some v)
  /\ (forall v, irrelevance_penalty_per_hit w = Some v ->
                irrelevance_penalty_per_hit (report_rerank.load_weights w) = Some v)
  /\ (forall v, min_score_floor w = Some v ->
                min_score_floor (report_rerank.load_weights w) = Some v)
  /\ (forall v, doc_boost w = Some v ->
                doc_boost (report_rerank.load_weights w) = Some v)
  /\ (forall v, topic_penalties w = Some v ->
                topic_penalties (report_rerank.load_weights w) = Some v).
Proof.
  assert (Hidem : report_rerank.load_weights (report_rerank.load_weights w)
                  = report_rerank.load_weights w).
  { destruct w as [[?|] [?|] [?|] [?|] [?|] [?|] [?|] [?|] ?]; reflexivity. }
  split; [exact Hidem|]. split.
  { intros citations evidence.
    unfold report_rerank.rerank_policy, report_rerank.rerank_evidence.
    now rewrite Hidem. }
  split.
  { destruct w as [[?|] [?|] [?|] [?|] [?|] [?|] [?|] [?|] ?];
      do 8 eexists; reflexivity. }
  repeat split; intros v H; destruct w; simpl in *; now rewrite H.
Qed.






Lemma opt_eqb_string_eq (a b : option string) :
  report_rerank.opt_eqb String.eqb a b = true -> a = b.
Proof.
  destruct a as [x|], b as [y|]; simpl; try discriminate; [|reflexivity].
  intros H. apply String.eqb_eq in H. now subst.
Qed.

(** What the lookup in [cit_map] finds. *)
Lemma cit_lookup_some (key : option string * option string)
    (citations : list Citation) (found : option Citation) (c : Citation) :
  report_rerank.cit_lookup key citations found = Some c ->
  (found = Some c \/ In c citations)
  /\ (found = Some c \/ (c_doc_key c, c_paragraph_ref c) = key).
Proof.
  revert found. induction citations as [|c0 rest IH]; intros found H; simpl in H.
  - split; now left.
  - destruct (IH _ H) as [H1 H2].
    destruct (report_rerank.key_eqb key (c_doc_key c0, c_paragraph_ref c0)) eqn:E.
    + assert (Hk : (c_doc_key c0, c_paragraph_ref c0) = key).
      { unfold report_rerank.key_eqb in E. apply andb_true_iff in E.
        destruct E as [E1 E2]. apply opt_eqb_string_eq in E1, E2.
        destruct key. simpl in *. congruence. }
      split.
      * destruct H1 as [H1|H1]; [injection H1 as <-; right; now left | right; now right].
      * destruct H2 as [H2|H2]; [injection H2 as <-; now right | now right].
    + split.
      * destruct H1 as [H1|H1]; [now left | right; now right].
      * exact H2.
Qed.

(** X13.  The citations that [rerank_policy] returns go one for one with
    the evidence it returns, in the same order: the two lists have the same
    length, the citation at each place has the [doc_key] and the
    [paragraph_ref] of the evidence item at that place, and it is either one
    of the citations given or the one synthesised from that item, whose
    score is the item's rerank score. *)
Theorem rerank_policy_citations_aligned
    (citations : list Citation) (evidence : list Evidence) (weights : Weights) :
  let new_cits := fst (report_rerank.rerank_policy citations evidence weights) in
  let picked := snd (report_rerank.rerank_policy citations evidence weights) in
  List.length new_cits = List.length picked
  /\ map (fun c => (c_doc_key c, c_paragraph_ref c)) new_cits
     = map (fun e => (doc_key e, paragraph_ref e)) picked
  /\ Forall2 (fun c e => In c citations
                         \/ (c = report_rerank.synth_citation e
                             /\ c_score c = _rerank_score e))
       new_cits picked.
Proof.
  cbv zeta. unfold report_rerank.rerank_policy. cbn [fst snd].
  generalize (report_rerank.rerank_evidence evidence weights). intros picked.
  split; [apply length_map|]. split.
  - rewrite map_map. apply map_ext. intros e.
    destruct (report_rerank.cit_lookup (doc_key e, paragraph_ref e) citations None)
      as [c|] eqn:E; [|reflexivity].
    destruct (cit_lookup_some _ _ _ _ E) as [_ [H|H]]; [discriminate | exact H].
  - induction picked as [|e rest IH]; simpl; constructor; [|exact IH].
    destruct (report_rerank.cit_lookup (doc_key e, paragraph_ref e) citations None)
      as [c|] eqn:E.
    + destruct (cit_lookup_some _ _ _ _ E) as [[H|H] _]; [discriminate | now left].
    + right. split; reflexivity.
Qed.



(* ================================================================== *)
(** ** Further properties of the weight tuners *)
(* ================================================================== *)

(** X15.  For [lo <= hi], [clamp] returns a value in [lo, hi], returns a
    value of that range unchanged, and clamping again changes nothing. *)
Theorem clamp_properties (x lo hi : Q) :
  (lo <= hi)%Q ->
  (lo <= auto_tune_weights.clamp x lo hi <= hi)%Q
  /\ ((lo <= x <= hi)%Q -> (auto_tune_weights.clamp x lo hi == x)%Q)
  /\ (auto_tune_weights.clamp (auto_tune_weights.clamp x lo hi) lo hi
      == auto_tune_weights.clamp x lo hi)%Q.
Proof.
  intros H.
  assert (Hid : forall y, (lo <= y <= hi)%Q -> (auto_tune_weights.clamp y lo hi == y)%Q).
  { intros y [H1 H2]. unfold auto_tune_weights.clamp, Py.max, Py.min.
    destruct (Py.Qltb y hi) eqn:E1.
    - destruct (Py.Qltb lo y) eqn:E2; [reflexivity|].
      apply Qltb_false_iff in E2. lra.
    - apply Qltb_false_iff in E1.
      destruct (Py.Qltb lo hi) eqn:E2; [lra|].
      apply Qltb_false_iff in E2. lra. }
  pose proof (clamp_bounds x lo hi H) as Hb.
  split; [exact Hb|]. split; [apply Hid | apply Hid, Hb].
Qed.

Lemma clamp_properties_witness :
  (auto_tune_weights.clamp (auto_tune_weights.clamp 1.53 0.80 1.50) 0.80 1.50
   == auto_tune_weights.clamp 1.53 0.80 1.50)%Q.
Proof.
  apply (clamp_properties 1.53 0.80 1.50). vm_compute. discriminate.
Defined.

Lemma lower_penalties_other (ks : list string) (k : string) (tp : Py.dict Q) :
  ~ In k ks ->
  Py.dict_get k (auto_tune_weights.lower_penalties ks tp) = Py.dict_get k tp.
Proof.
  revert tp. induction ks as [|k' ks IH]; intros tp Hk; simpl; [reflexivity|].
  rewrite IH by (intros Hin; apply Hk; now right).
  apply dict_get_set_other. intros ->. apply Hk. now left.
Qed.

(** X16.  The per-run tuner writes two keys of the weights file only,
    [doc_boost] and [topic_penalty]: the seven other keys are left as they
    are; in [doc_boost] only the entries of nppf_2024, dap_2020 and
    csucp_2015 can change, in [topic_penalty] only the entries of the
    watch-list; and a report without warnings changes no entry at all. *)
Theorem per_run_tuner_frame (low_div irrelevant : bool) (w : Weights) :
  let w' := auto_tune_weights.tune low_div irrelevant w in
  (doc_diversity_target w' = doc_diversity_target w
   /\ max_evidence_items w' = max_evidence_items w
   /\ c3_keyword_boost w' = c3_keyword_boost w
   /\ c3_keywords w' = c3_keywords w
   /\ irrelevance_penalty_per_hit w' = irrelevance_penalty_per_hit w
   /\ min_score_floor w' = min_score_floor w
   /\ topic_penalties w' = topic_penalties w)
  /\ (forall k, ~ In k ["nppf_2024"; "dap_2020"; "csucp_2015"] ->
        Py.dict_get k (report_rerank.get (doc_boost w') [])
        = Py.dict_get k (report_rerank.get (doc_boost w) []))
  /\ (forall k, ~ In k auto_tune_weights.WATCH_LIST ->
        Py.dict_get k (report_rerank.get (topic_penalty w') [])
        = Py.dict_get k (report_rerank.get (topic_penalty w) []))
  /\ (low_div = false ->
      doc_boost w' = Some (report_rerank.get (doc_boost w) []))
  /\ (irrelevant = false ->
      topic_penalty w' = Some (report_rerank.get (topic_penalty w) [])).
Proof.
  cbv zeta. unfold auto_tune_weights.tune.
  destruct w as [ddt mei ckb ck ipp msf db tps tp].
  cbn [doc_diversity_target max_evidence_items c3_keyword_boost c3_keywords
       irrelevance_penalty_per_hit min_score_floor topic_penalties doc_boost
       topic_penalty set_doc_boost set_topic_penalty].
  split; [repeat split|]. split; [|split; [|split]].
  - intros k Hk. cbn [report_rerank.get]. destruct low_div; [|reflexivity].
    unfold auto_tune_weights.bump.
    rewrite !dict_get_set_other; [reflexivity | | |];
      intros <-; apply Hk; simpl; tauto.
  - intros k Hk. cbn [report_rerank.get]. destruct irrelevant; [|reflexivity].
    now apply lower_penalties_other.
  - intros ->. reflexivity.
  - intros ->. reflexivity.
Qed.

Lemma Qmin_step (v c d : Q) :
  (0 <= d)%Q -> (Qmin c (Qmin c v + d) == Qmin c (v + d))%Q.
Proof.
  intros Hd. destruct (Qlt_le_dec v c) as [H|H].
  - rewrite (Q.min_r c v) by lra. reflexivity.
  - rewrite (Q.min_l c v) by exact H.
    rewrite (Q.min_l c (c + d)) by lra. rewrite (Q.min_l c (v + d)) by lra. reflexivity.
Qed.

(** One low-diversity run on a boost that is at least 0.80. *)
Lemma bump_up_value (k : string) (delta v : Q) (db : Py.dict Q) :
  (0 <= delta)%Q -> (0.80 <= v)%Q -> holds k v db ->
  holds k (Qmin 1.50 (v + delta)) (auto_tune_weights.bump k delta db).
Proof.
  intros Hd Hv [v0 [Hget Hq]]. unfold auto_tune_weights.bump. rewrite Hget.
  eexists. split; [apply dict_get_set_same|]. cbn [report_rerank.get].
  rewrite <- Hq in Hv. rewrite <- Hq.
  unfold auto_tune_weights.clamp. rewrite py_max_Qmax, py_min_Qmin.
  destruct (Qlt_le_dec (v0 + delta) 1.50) as [H|H].
  - rewrite (Q.min_r 1.50 (v0 + delta)) by lra. apply Q.max_r. lra.
  - rewrite (Q.min_l 1.50 (v0 + delta)) by exact H. apply Q.max_r. lra.
Qed.

(** X17.  Repeated low-diversity reports raise the boost of nppf_2024 to
    the ceiling and hold it there: from a boost [v] in [0.80, 1.50], after
    [n] per-run invocations on a text with the low-diversity warning the
    boost is at least [v] and at most 1.50, and from the 24th invocation on
    it is 1.50. *)
Theorem repeated_low_diversity_runs (score_text : string) (w : Weights) (v : Q)
    (n : nat) :
  auto_tune_weights.low_div_of score_text = true ->
  (0.80 <= v <= 1.50)%Q ->
  entry_is doc_boost "nppf_2024" v (Some w) ->
  exists v',
    entry_is doc_boost "nppf_2024" v' (run (Some w) (repeat (PerRun score_text) n))
    /\ (v <= v' <= 1.50)%Q
    /\ ((24 <= n)%nat -> (v' == 1.50)%Q).
Proof.
  intros Hlow Hv He.
  assert (Hstep : forall w v, (0.80 <= v)%Q ->
            entry_is doc_boost "nppf_2024" v (Some w) ->
            exists w', step (Some w) (PerRun score_text) = Some w'
                       /\ entry_is doc_boost "nppf_2024" (Qmin 1.50 (v + 0.03)) (Some w')).
  { clear w v Hv He. intros w v Hv [w0 [v0 [Hw [Hget Hq]]]]. injection Hw as <-.
    eexists. split; [reflexivity|].
    unfold auto_tune_weights.tune. rewrite Hlow.
    assert (Hh : holds "nppf_2024" v (report_rerank.get (doc_boost w) []))
      by (now exists v0).
    pose proof (bump_up_value "nppf_2024" 0.03 v _ ltac:(lra) Hv Hh) as Hb.
    apply (bump_other "dap_2020" "nppf_2024" 0.02) in Hb; [|discriminate].
    apply (bump_other "csucp_2015" "nppf_2024" (-0.02)) in Hb; [|discriminate].
    destruct Hb as [v1 [Hv1 Hq1]].
    eexists; exists v1. split; [reflexivity|].
    destruct w; split; [exact Hv1 | exact Hq1]. }
  assert (Hruns : exists v',
            entry_is doc_boost "nppf_2024" v'
              (run (Some w) (repeat (PerRun score_text) n))
            /\ (v <= v' <= 1.50)%Q
            /\ (Qmin 1.50 (v + inject_Z (Z.of_nat n) * 0.03) <= v')%Q).
  { revert w v Hv He. induction n as [|n IH]; intros w v Hv He.
    - exists v. split; [exact He|]. split; [lra|].
      change (inject_Z (Z.of_nat 0)) with 0%Q.
      apply Qle_trans with (v + 0 * 0.03)%Q; [apply Q.le_min_r | lra].
    - destruct (Hstep w v (proj1 Hv) He) as [w' [E H']].
      unfold run. cbn [repeat fold_left]. rewrite E.
      fold (run (Some w') (repeat (PerRun score_text) n)).
      assert (Hv' : (0.80 <= Qmin 1.50 (v + 0.03) <= 1.50)%Q).
      { split; [apply Q.min_glb; lra | apply Q.le_min_l]. }
      destruct (IH w' _ Hv' H') as [v' [He' [[Hlo Hhi] Hmin]]].
      exists v'. split; [exact He'|]. split.
      + split; [|exact Hhi].
        apply Qle_trans with (2 := Hlo). apply Q.min_glb; lra.
      + apply Qle_trans with (2 := Hmin).
        assert (Hn : (0 <= inject_Z (Z.of_nat n) * 0.03)%Q).
        { assert (0 <= inject_Z (Z.of_nat n))%Q by (unfold Qle; simpl; lia). nra. }
        rewrite (Qmin_step (v + 0.03) 1.50 _ Hn).
        apply Q.min_le_compat_l.
        rewrite Nat2Z.inj_succ, <- Z.add_1_r, inject_Z_plus.
        change (inject_Z 1) with 1%Q. lra. }
  destruct Hruns as [v' [He' [Hb Hmin]]].
  exists v'. split; [exact He'|]. split; [exact Hb|].
  intros Hn. apply Qle_antisym; [apply Hb|].
  apply Qle_trans with (2 := Hmin). apply Q.min_glb; [lra|].
  assert (Hk : (24 <= inject_Z (Z.of_nat n))%Q).
  { change 24%Q with (inject_Z 24). rewrite <- Zle_Qle. lia. }
  nra.
Qed.

Lemma repeated_low_diversity_runs_witness :
  exists v',
    entry_is doc_boost "nppf_2024" v'
      (run (Some (set_doc_boost [("nppf_2024", 1.0%Q)] empty_weights))
         (repeat (PerRun "low document diversity") 50))
    /\ (1.0 <= v' <= 1.50)%Q
    /\ ((24 <= 50)%nat -> (v' == 1.50)%Q).
Proof.
  apply (repeated_low_diversity_runs "low document diversity"
           (set_doc_boost [("nppf_2024", 1.0%Q)] empty_weights) 1.0 50).
  - reflexivity.
  - split; vm_compute; discriminate.
  - exists (set_doc_boost [("nppf_2024", 1.0%Q)] empty_weights), 1.0%Q.
    split; [reflexivity|]. split; reflexivity.
Defined.

(** The text that the batch tuner searches: the last ten lines at most,
    joined and lowered. *)
Lemma batch_main_text (lines : list string) (min_records : Z) (w : Weights) :
  (min_records <= Py.len lines)%Z ->
  let txt := Py.lower (String.concat weighing_balance.newline
                         (Py.last_n (Nat.min 10 (List.length lines)) lines)) in
  update_weights_from_feedback.main (Some lines) min_records (Some w)
  = Some (if snd (update_weights_from_feedback.tune txt w)
          then fst (update_weights_from_feedback.tune txt w) else w).
Proof.
  intros Hlen. cbv zeta. unfold update_weights_from_feedback.main.
  destruct (Z.ltb_spec (Py.len lines) min_records); [lia|].
  destruct (update_weights_from_feedback.tune _ w) as [w' changed].
  destruct changed; reflexivity.
Qed.

(** X18.  The batch tuner leaves the weights file untouched when there is
    nothing to act on: no weights file (the run stops), no feedback file,
    fewer records than [min_records], or none of the four trigger phrases in
    the last ten records. *)
Theorem batch_tuner_no_change (feedback : option (list string)) (min_records : Z)
    (w : Weights) :
  update_weights_from_feedback.main feedback min_records None = None
  /\ update_weights_from_feedback.main None min_records (Some w) = Some w
  /\ (forall lines, (Py.len lines < min_records)%Z ->
        update_weights_from_feedback.main (Some lines) min_records (Some w) = Some w)
  /\ (forall lines,
        let txt := Py.lower (String.concat weighing_balance.newline
                               (Py.last_n (Nat.min 10 (List.length lines)) lines)) in
        Py.any_in ["low document diversity"; "irrelevance"; "unrelated";
                   "leisure/tourism"] txt = false ->
        update_weights_from_feedback.main (Some lines) min_records (Some w) = Some w).
Proof.
  split; [reflexivity|]. split; [reflexivity|]. split.
  - intros lines Hlen. unfold update_weights_from_feedback.main.
    destruct (Z.ltb_spec (Py.len lines) min_records); [reflexivity | lia].
  - intros lines txt Hno. unfold update_weights_from_feedback.main.
    destruct (Py.len lines <? min_records)%Z; [reflexivity|]. fold txt.
    unfold Py.any_in in Hno. cbn [existsb] in Hno.
    apply orb_false_iff in Hno. destruct Hno as [H1 Hno].
    apply orb_false_iff in Hno. destruct Hno as [H2 Hno].
    apply orb_false_iff in Hno. destruct Hno as [H3 Hno].
    apply orb_false_iff in Hno. destruct Hno as [H4 _].
    unfold update_weights_from_feedback.tune. rewrite H1, H2, H3, H4. reflexivity.
Qed.

Lemma last_n_app {B} (old recent : list B) :
  Py.last_n (Nat.min 10 (List.length (old ++ recent))) (old ++ recent)
  = Py.last_n (Nat.min 10 (List.length recent)) recent
    \/ (List.length recent < 10)%nat.
Proof.
  destruct (Nat.le_gt_cases 10 (List.length recent)) as [H|H]; [left | now right].
  unfold Py.last_n. rewrite length_app.
  rewrite !Nat.min_l by lia.
  replace (List.length old + List.length recent - 10)%nat
    with (List.length old + (List.length recent - 10))%nat by lia.
  rewrite skipn_app. replace (List.length old + (List.length recent - 10) - List.length old)%nat
    with (List.length recent - 10)%nat by lia.
  rewrite skipn_all2 by lia. reflexivity.
Qed.

(** X19.  Only the last ten feedback records count: with [min_records] at
    most 10, two feedback files that end with the same ten records lead the
    batch tuner to the same weights file, whatever the older records are. *)
Theorem batch_tuner_reads_last_ten (old1 old2 recent : list string)
    (min_records : Z) (store : option Weights) :
  List.length recent = 10%nat -> (min_records <= 10)%Z ->
  update_weights_from_feedback.main (Some (old1 ++ recent)) min_records store
  = update_weights_from_feedback.main (Some (old2 ++ recent)) min_records store.
Proof.
  intros Hlen Hmin. destruct store as [w|]; [|reflexivity].
  rewrite !batch_main_text by (unfold Py.len; rewrite length_app; lia).
  cbv zeta.
  destruct (last_n_app old1 recent) as [->|H]; [|lia].
  destruct (last_n_app old2 recent) as [->|H]; [|lia].
  reflexivity.
Qed.

Lemma batch_tuner_reads_last_ten_witness :
  update_weights_from_feedback.main (Some (["irrelevance"] ++ ten_records)) 3
    (Some empty_weights)
  = update_weights_from_feedback.main (Some ([] ++ ten_records)) 3 (Some empty_weights).
Proof.
  apply (batch_tuner_reads_last_ten ["irrelevance"] [] ten_records 3 (Some empty_weights)).
  - reflexivity.
  - lia.
Defined.

(** X20.  One batch run moves the weights by bounded steps: the document
    target stays or goes up by one, and only from under 3; the penalty per
    hit stays or becomes [min(old + 0.1, 1.5)], 0.6 standing for a missing
    value; [doc_boost] and [topic_penalty] are never written. *)
Theorem batch_tuner_steps (feedback : option (list string)) (min_records : Z)
    (w : Weights) :
  exists w',
    update_weights_from_feedback.main feedback min_records (Some w) = Some w'
    /\ (doc_diversity_target w' = doc_diversity_target w
        \/ ((report_rerank.get (doc_diversity_target w) 2 < 3)%Z
            /\ doc_diversity_target w'
               = Some (report_rerank.get (doc_diversity_target w) 2 + 1)%Z))
    /\ (irrelevance_penalty_per_hit w' = irrelevance_penalty_per_hit w
        \/ irrelevance_penalty_per_hit w'
           = Some (Py.min (report_rerank.get (irrelevance_penalty_per_hit w) 0.6 + 0.1)
                     1.5)%Q)
    /\ doc_boost w' = doc_boost w
    /\ topic_penalty w' = topic_penalty w
    /\ max_evidence_items w' = max_evidence_items w
    /\ c3_keyword_boost w' = c3_keyword_boost w
    /\ c3_keywords w' = c3_keywords w
    /\ min_score_floor w' = min_score_floor w.
Proof.
  destruct (batch_main_cases feedback min_records w) as [-> | [txt ->]].
  - exists w. split; [reflexivity|]. repeat split; now left.
  - eexists. split; [reflexivity|].
    destruct w as [ddt mei ckb ck ipp msf db tps tp].
    unfold update_weights_from_feedback.tune.
    destruct (Py.str_in "low document diversity" txt);
      cbn [doc_diversity_target];
      [destruct (report_rerank.get ddt 2 <? 3)%Z eqn:Hcur|];
      destruct (_ || _); cbn;
      try (apply Z.ltb_lt in Hcur);
      repeat split; auto.
Qed.

(* ================================================================== *)
(** ** The quality scorer *)
(* ================================================================== *)

Lemma count_terms_ge (t : string) (terms : list string) (hits : Z) :
  (hits <= score_report_quality.count_terms t terms hits)%Z.
Proof.
  revert hits. induction terms as [|w rest IH]; intros hits; simpl; [lia|].
  destruct (Py.str_in w t); [specialize (IH (hits + 1)%Z) | specialize (IH hits)]; lia.
Qed.

Lemma term_hits_nonneg (text : string) (terms : list string) :
  (0 <= score_report_quality.term_hits text terms)%Z.
Proof. apply count_terms_ge. Qed.

Lemma sum_ints_from (l : list Z) (acc : Z) :
  fold_left Z.add l acc = (acc + score_report_quality.sum_ints l)%Z.
Proof.
  unfold score_report_quality.sum_ints. revert acc.
  induction l as [|x l IH]; intros acc; simpl; [lia|].
  rewrite IH, (IH x). lia.
Qed.

Lemma sum_ints_nonneg (l : list Z) :
  (forall x, In x l -> (0 <= x)%Z) -> (0 <= score_report_quality.sum_ints l)%Z.
Proof.
  induction l as [|x l IH]; intros H.
  - reflexivity.
  - unfold score_report_quality.sum_ints. simpl. rewrite sum_ints_from.
    assert (0 <= x)%Z by (apply H; now left).
    assert (0 <= score_report_quality.sum_ints l)%Z by (apply IH; intros; apply H; now right).
    lia.
Qed.

Lemma rel_sum_nonneg (ev : list Evidence) :
  (0 <= score_report_quality.sum_ints (score_report_quality.rel_scores_of ev))%Z.
Proof.
  apply sum_ints_nonneg. intros x Hx. unfold score_report_quality.rel_scores_of in Hx.
  apply in_map_iff in Hx. destruct Hx as [e [<- _]]. apply term_hits_nonneg.
Qed.

Lemma bad_sum_nonneg (ev : list Evidence) :
  (0 <= score_report_quality.sum_ints (score_report_quality.bad_scores_of ev))%Z.
Proof.
  apply sum_ints_nonneg. intros x Hx. unfold score_report_quality.bad_scores_of in Hx.
  apply in_map_iff in Hx. destruct Hx as [e [<- _]]. apply term_hits_nonneg.
Qed.

(** X21.  The heuristic quality score of every payload lies between 20 and
    90, so the final clamp to [0, 100] never changes it: the score is
    [50 + min(30, 2 rel) + min(10, 3 docs) - min(30, 5 bad)] as it stands. *)
Theorem quality_score_range (payload : Payload) :
  let rel := score_report_quality.sum_ints
               (score_report_quality.rel_scores_of (score_report_quality.evidence_of payload)) in
  let docs := score_report_quality.doc_div_of
                (score_report_quality.doc_keys_of (score_report_quality.citations_of payload)) in
  let bad := score_report_quality.sum_ints
               (score_report_quality.bad_scores_of (score_report_quality.evidence_of payload)) in
  (20 <= score_report_quality.quality_score payload <= 90)%Z
  /\ score_report_quality.quality_score payload
     = (50 + Z.min 30 (rel * 2) + Z.min 10 (docs * 3) - Z.min 30 (bad * 5))%Z.
Proof.
  intros rel docs bad. unfold score_report_quality.quality_score.
  fold rel. fold docs. fold bad. unfold score_report_quality.composite.
  pose proof (rel_sum_nonneg (score_report_quality.evidence_of payload)) as Hr.
  pose proof (bad_sum_nonneg (score_report_quality.evidence_of payload)) as Hb.
  assert (Hd : (0 <= docs)%Z) by (subst docs; unfold score_report_quality.doc_div_of, Py.len; lia).
  fold rel in Hr. fold bad in Hb. lia.
Qed.

Lemma prefix_app (k a b : string) : prefix k a = true -> prefix k (a ++ b) = true.
Proof.
  revert k. induction a as [|c' a IH]; intros k H.
  - destruct k; [|discriminate H]. simpl. destruct b; reflexivity.
  - destruct k as [|c k]; [reflexivity|]. simpl in *.
    destruct (ascii_dec c c'); [now apply IH | discriminate H].
Qed.

Lemma str_in_app_l (k a b : string) :
  Py.str_in k a = true -> Py.str_in k (a ++ b) = true.
Proof.
  induction a as [|c a IH]; intros H.
  - simpl in H. rewrite orb_false_r in H.
    destruct k; [|discriminate H]. destruct b; reflexivity.
  - cbn [Py.str_in] in H. apply orb_true_iff in H.
    change (String c a ++ b)%string with (String c (a ++ b)). cbn [Py.str_in].
    apply orb_true_iff. destruct H as [H|H].
    + left. now apply (prefix_app k (String c a) b).
    + right. now apply IH.
Qed.

Lemma str_in_app_r (k a b : string) :
  Py.str_in k b = true -> Py.str_in k (a ++ b) = true.
Proof.
  intros H. induction a as [|c a IH]; [exact H|].
  change (String c a ++ b)%string with (String c (a ++ b)). cbn [Py.str_in].
  rewrite IH. apply orb_true_r.
Qed.

Lemma lower_app (a b : string) : Py.lower (a ++ b) = (Py.lower a ++ Py.lower b)%string.
Proof. induction a as [|c a IH]; simpl; [reflexivity | now rewrite IH]. Qed.

Lemma concat_cons (x : string) (rest : list string) :
  exists tail, String.concat "" (x :: rest) = (x ++ tail)%string
               /\ (rest <> [] -> tail = String.concat "" rest).
Proof.
  destruct rest as [|y rest].
  - exists ""%string. split; [|congruence]. simpl.
    induction x; simpl; congruence.
  - exists (String.concat "" (y :: rest)). split; reflexivity.
Qed.

(** A phrase found in a printed line is found in the printed text. *)
Lemma printed_line (k line : string) (lines : list string) :
  In line lines -> Py.str_in k (Py.lower line) = true ->
  Py.str_in k (Py.lower (PyText.printed lines)) = true.
Proof.
  intros Hin Hk. unfold PyText.printed.
  induction lines as [|l rest IH]; [destruct Hin|].
  cbn [map]. cbv beta.
  destruct (concat_cons (l ++ weighing_balance.newline)
              (map (fun l0 => (l0 ++ weighing_balance.newline)%string) rest))
    as [tail [-> Htail]].
  destruct Hin as [->|Hin].
  - rewrite !lower_app. apply str_in_app_l, str_in_app_l. exact Hk.
  - rewrite lower_app. apply str_in_app_r.
    rewrite Htail; [now apply IH|].
    destruct rest; [destruct Hin | discriminate].
Qed.

(** The warning lines are among the lines printed. *)
Lemma warning_printed (path : string) (payload : Payload) (w : string) :
  let doc_div := score_report_quality.doc_div_of
                   (score_report_quality.doc_keys_of
                      (score_report_quality.citations_of payload)) in
  let rel_sum := score_report_quality.sum_ints
                   (score_report_quality.rel_scores_of
                      (score_report_quality.evidence_of payload)) in
  let bad_sum := score_report_quality.sum_ints
                   (score_report_quality.bad_scores_of
                      (score_report_quality.evidence_of payload)) in
  In w (score_report_quality.warnings_of doc_div rel_sum bad_sum) ->
  forall k, Py.str_in k (Py.lower ("- " ++ w)) = true ->
  Py.str_in k (Py.lower (score_report_quality.main path payload)) = true.
Proof.
  intros doc_div rel_sum bad_sum Hw k Hk. unfold score_report_quality.main.
  fold doc_div. fold rel_sum. fold bad_sum.
  apply (printed_line k ("- " ++ w)); [|exact Hk].
  apply in_or_app. right. apply in_or_app. right. apply in_or_app. right.
  destruct (score_report_quality.warnings_of doc_div rel_sum bad_sum) as [|w0 ws];
    [destruct Hw|].
  right. apply in_map_iff. exists w. split; [reflexivity | exact Hw].
Qed.

(** X22.  The scorer speaks the per-run tuner's language: when a payload
    has fewer than two distinct cited documents, the text that the scorer
    prints makes the tuner set [low_div]; when it has at least one
    irrelevance hit, the text makes the tuner set [irrelevant]. *)
Theorem scorer_warnings_reach_tuner (path : string) (payload : Payload) :
  let doc_div := score_report_quality.doc_div_of
                   (score_report_quality.doc_keys_of
                      (score_report_quality.citations_of payload)) in
  let bad_sum := score_report_quality.sum_ints
                   (score_report_quality.bad_scores_of
                      (score_report_quality.evidence_of payload)) in
  let printed := score_report_quality.main path payload in
  ((doc_div < 2)%Z -> auto_tune_weights.low_div_of printed = true)
  /\ ((1 <= bad_sum)%Z -> auto_tune_weights.irrelevant_of printed = true).
Proof.
  intros doc_div bad_sum printed. split.
  - intros Hd. unfold auto_tune_weights.low_div_of. subst printed.
    apply (warning_printed path payload score_report_quality.LOW_DIVERSITY);
      [|vm_compute; reflexivity].
    cbv zeta. fold doc_div. unfold score_report_quality.warnings_of.
    destruct (Z.ltb_spec doc_div 2); [now left | lia].
  - intros Hb. unfold auto_tune_weights.irrelevant_of. subst printed.
    apply orb_true_iff. right.
    apply (warning_printed path payload score_report_quality.UNRELATED);
      [|vm_compute; reflexivity].
    cbv zeta. fold bad_sum. unfold score_report_quality.warnings_of.
    apply in_or_app. right. apply in_or_app. right.
    destruct (Z.geb_spec bad_sum 1); [now left | lia].
Qed.

(** X23.  A payload with at most one distinct cited document and no
    relevance hit scores at most 53, and the scorer prints both the
    low-diversity and the low-relevance warning for it. *)
Theorem low_quality_payload (path : string) (payload : Payload) :
  (score_report_quality.doc_div_of
     (score_report_quality.doc_keys_of (score_report_quality.citations_of payload))
   <= 1)%Z ->
  score_report_quality.sum_ints
    (score_report_quality.rel_scores_of (score_report_quality.evidence_of payload))
  = 0%Z ->
  (score_report_quality.quality_score payload <= 53)%Z
  /\ Py.str_in "- low document diversity in top citations (only 1 doc)."
       (Py.lower (score_report_quality.main path payload)) = true
  /\ Py.str_in "- low c3 relevance in top evidence (consider tuning retrieval)."
       (Py.lower (score_report_quality.main path payload)) = true.
Proof.
  intros Hd Hr. split; [|split].
  - unfold score_report_quality.quality_score, score_report_quality.composite.
    rewrite Hr.
    pose proof (bad_sum_nonneg (score_report_quality.evidence_of payload)). lia.
  - apply (warning_printed path payload score_report_quality.LOW_DIVERSITY);
      [|vm_compute; reflexivity].
    cbv zeta. unfold score_report_quality.warnings_of.
    match goal with |- context [(?d <? 2)%Z] => destruct (Z.ltb_spec d 2) end;
      [now left | lia].
  - apply (warning_printed path payload score_report_quality.LOW_RELEVANCE);
      [|vm_compute; reflexivity].
    cbv zeta. rewrite Hr. unfold score_report_quality.warnings_of.
    apply in_or_app. right. now left.
Qed.

Lemma low_quality_payload_witness :
  (score_report_quality.quality_score off_topic_payload <= 53)%Z.
Proof.
  apply (low_quality_payload "logs/payload.json" off_topic_payload).
  - vm_compute. discriminate.
  - reflexivity.
Defined.

(* ================================================================== *)
(** ** How the components compose *)
(* ================================================================== *)

(** X24.  The gate writes its items under [evidence] and no [results], and
    [weigh_balance] reads [results] only: so [weigh_balance] on a gate
    output, accepted or not, finds nothing and returns
    [insufficient_evidence] with confidence 0.0; and a second pass of a gate
    output through the gate, with [min_results] at least 1, is rejected. *)
Theorem gate_output_has_no_results (retrieval_out : PolicyBlock) (min_results : Z)
    (proposal_text : option string) :
  let out := policy_evidence.require_policy_evidence retrieval_out min_results in
  pb_results out = None
  /\ Py.field "decision" (weighing_balance.weigh_balance proposal_text (Some out))
     = Some (Py.PStr "insufficient_evidence")
  /\ Py.field "confidence" (weighing_balance.weigh_balance proposal_text (Some out))
     = Some (Py.PNum 0.0)
  /\ ((1 <= min_results)%Z ->
      pb_ok (policy_evidence.require_policy_evidence out min_results) = false).
Proof.
  cbv zeta.
  assert (Hres : pb_results (policy_evidence.require_policy_evidence retrieval_out
                               min_results) = None).
  { unfold policy_evidence.require_policy_evidence. destruct (_ || _); reflexivity. }
  split; [exact Hres|].
  assert (Hw : weighing_balance.results_of
                 (Some (policy_evidence.require_policy_evidence retrieval_out min_results))
               = []).
  { unfold weighing_balance.results_of. now rewrite Hres. }
  unfold weighing_balance.weigh_balance. rewrite Hw.
  split; [reflexivity|]. split; [reflexivity|].
  intros Hmin. unfold policy_evidence.require_policy_evidence at 1.
  rewrite Hres. cbn [Py.list_or].
  destruct (Z.ltb_spec (Py.len (@nil Evidence)) min_results) as [_|H].
  - now rewrite orb_true_r.
  - unfold Py.len in H. simpl in H. lia.
Qed.

Lemma gate_output_has_no_results_witness :
  pb_ok (policy_evidence.require_policy_evidence
           (policy_evidence.require_policy_evidence
              (mkPolicyBlock true None (pb_evidence strong_policy_block) None None) 3)
           3)
  = false.
Proof.
  apply (gate_output_has_no_results
           (mkPolicyBlock true None (pb_evidence strong_policy_block) None None) 3 None).
  lia.
Defined.

Lemma mult_or1_pos (m : Q) : (0 <= m)%Q -> (0 < report_rerank.mult_or1 m)%Q.
Proof.
  intros H. unfold report_rerank.mult_or1. destruct (Qeq_bool m 0) eqn:E.
  - reflexivity.
  - apply Qeq_bool_neq in E. destruct (Qlt_le_dec 0 m) as [Hp|Hn]; [exact Hp|].
    exfalso. apply E. lra.
Qed.

Lemma penalty_loop_monotone (t : string) (items : Py.dict Q) (n : Z) (s s' : Q) :
  (forall kv, In kv items -> (0 <= snd kv)%Q) -> (s <= s')%Q ->
  fst (report_rerank.penalty_loop t items (n, s))
  = fst (report_rerank.penalty_loop t items (n, s'))
  /\ (snd (report_rerank.penalty_loop t items (n, s))
      <= snd (report_rerank.penalty_loop t items (n, s')))%Q.
Proof.
  revert n s s'. induction items as [|[topic mult] rest IH]; intros n s s' Hpos Hle.
  - split; [reflexivity | exact Hle].
  - cbn [report_rerank.penalty_loop fst snd].
    destruct (report_rerank.kw_hit t topic).
    + apply IH; [intros kv Hkv; apply Hpos; now right|].
      assert (Hm : (0 < report_rerank.mult_or1 mult)%Q).
      { apply mult_or1_pos. apply (Hpos (topic, mult)). now left. }
      apply Qmult_le_compat_r; [exact Hle|].
      apply Qle_shift_div_l; [exact Hm|]. rewrite Qmult_0_l. unfold Qle. simpl. lia.
    + apply IH; [intros kv Hkv; apply Hpos; now right | exact Hle].
Qed.

(** X25.  With a doc boost, a keyword boost and topic multipliers that are
    not negative, [score_item] is monotone in the raw score: for one text,
    one document and one weights file, a higher raw score never gives a
    lower rerank score. *)
Theorem score_item_monotone (text : string) (dk : string) (w : Weights)
    (raw raw' : Q) :
  (0 <= report_rerank.get (Py.dict_get dk (report_rerank.get (doc_boost w) [])) 1.0)%Q ->
  (0 <= report_rerank.get (c3_keyword_boost w) 1.0)%Q ->
  (forall kv, In kv (report_rerank.get (topic_penalties w) []) -> (0 <= snd kv)%Q) ->
  (raw <= raw')%Q ->
  (report_rerank.score_item text raw dk w <= report_rerank.score_item text raw' dk w)%Q.
Proof.
  intros Hdb Hboost Hpen Hle. unfold report_rerank.score_item.
  set (db := report_rerank.get (Py.dict_get dk (report_rerank.get (doc_boost w) [])) 1.0%Q) in *.
  set (boost := report_rerank.get (c3_keyword_boost w) 1.0%Q) in *.
  rewrite count_hits_filter, Z.add_0_l.
  set (hits := Py.len (filter (counted text) (Py.list_or (c3_keywords w) []))).
  assert (Hhits : (0 <= hits)%Z) by (subst hits; unfold Py.len; lia).
  set (f := (1.0 + (boost - 1.0) * Py.min 1.0 (inject_Z hits / 3.0))%Q).
  set (s0 := fun r => if (hits =? 0)%Z then (Py.num_or0 (Some r) * db)%Q
                      else (Py.num_or0 (Some r) * db * f)%Q).
  assert (Hs0 : (s0 raw <= s0 raw')%Q).
  { subst s0. cbv beta. destruct (hits =? 0)%Z eqn:Eh.
    - rewrite !num_or0_eq. now apply Qmult_le_compat_r.
    - rewrite !num_or0_eq. apply Z.eqb_neq in Eh.
      assert (Hf : (0 <= f)%Q).
      { subst f. rewrite py_min_Qmin.
        assert (Hm : (0 <= Qmin 1.0 (inject_Z hits / 3.0) <= 1)%Q).
        { split;
            [apply Q.min_glb; [lra|]
            | pose proof (Q.le_min_l 1.0 (inject_Z hits / 3.0)); lra].
          apply Qle_shift_div_l; [reflexivity|]. rewrite Qmult_0_l.
          unfold Qle. simpl. lia. }
        nra. }
      apply Qmult_le_compat_r; [now apply Qmult_le_compat_r | exact Hf]. }
  change (if (hits =? 0)%Z then (Py.num_or0 (Some raw) * db)%Q
          else (Py.num_or0 (Some raw) * db * f)%Q) with (s0 raw).
  change (if (hits =? 0)%Z then (Py.num_or0 (Some raw') * db)%Q
          else (Py.num_or0 (Some raw') * db * f)%Q) with (s0 raw').
  destruct (penalty_loop_monotone (Py.lower text)
              (report_rerank.get (topic_penalties w) []) 0 (s0 raw) (s0 raw') Hpen Hs0)
    as [Hn Hs].
  destruct (report_rerank.penalty_loop (Py.lower text) _ (0%Z, s0 raw)) as [ph sc].
  destruct (report_rerank.penalty_loop (Py.lower text) _ (0%Z, s0 raw')) as [ph' sc'].
  cbn [fst snd] in Hn, Hs. subst ph'.
  set (pen := report_rerank.get (irrelevance_penalty_per_hit w) 0.7%Q).
  set (floor := report_rerank.get (min_score_floor w) 0.1%Q).
  set (a := if (ph =? 0)%Z then sc else (sc - inject_Z ph * pen)%Q).
  set (a' := if (ph =? 0)%Z then sc' else (sc' - inject_Z ph * pen)%Q).
  assert (Ha : (a <= a')%Q).
  { subst a a'. destruct (ph =? 0)%Z; lra. }
  destruct (Py.Qltb a floor) eqn:E1; destruct (Py.Qltb a' floor) eqn:E2;
    try apply Qltb_true_iff in E1; try apply Qltb_false_iff in E1;
    try apply Qltb_true_iff in E2; try apply Qltb_false_iff in E2; lra.
Qed.

Lemma score_item_monotone_witness :
  (report_rerank.score_item "privacy and design" 2 "dap_2020" empty_keyword_weights
   <= report_rerank.score_item "privacy and design" 3 "dap_2020" empty_keyword_weights)%Q.
Proof.
  apply score_item_monotone.
  - vm_compute. discriminate.
  - vm_compute. discriminate.
  - intros kv [].
  - vm_compute. discriminate.
Defined.

Lemma new_cits_doc_keys (citations : list Citation) (picked : list Evidence) :
  map c_doc_key
    (map (fun e => match report_rerank.cit_lookup (doc_key e, paragraph_ref e)
                           citations None with
                   | Some c => c
                   | None => report_rerank.synth_citation e
                   end) picked)
  = map doc_key picked.
Proof.
  rewrite map_map. apply map_ext. intros e.
  destruct (report_rerank.cit_lookup (doc_key e, paragraph_ref e) citations None)
    as [c|] eqn:E; [|reflexivity].
  destruct (cit_lookup_some _ _ _ _ E) as [_ [H|H]]; [discriminate|].
  now injection H.
Qed.

Lemma doc_keys_of_keys (cits : list Citation) (l : list Evidence) :
  map c_doc_key cits = map doc_key l ->
  score_report_quality.doc_keys_of cits = doc_list l.
Proof.
  revert l. induction cits as [|c cits IH]; intros [|e l] H; try discriminate H.
  - reflexivity.
  - simpl in H. injection H as Hk Hrest.
    unfold score_report_quality.doc_keys_of, doc_list. cbn [flat_map].
    fold (score_report_quality.doc_keys_of cits). fold (doc_list l).
    rewrite (IH l Hrest). unfold named_doc. rewrite Hk.
    destruct (doc_key e) as [[|a s]|]; reflexivity.
Qed.

Lemma picks_doc_list (t : Z) (seen : list string) (D : list Evidence) :
  picks t seen D ->
  NoDup (doc_list D)
  /\ List.length (doc_list D) = List.length D
  /\ forall dk, In dk (doc_list D) -> report_rerank.doc_seen dk seen = false.
Proof.
  induction 1 as [seen | seen d dk Hd Hs Hl | seen d dk D Hd Hs Hl Hrest [IH1 [IH2 IH3]]].
  - split; [constructor|]. split; [reflexivity | intros dk []].
  - unfold doc_list. simpl. rewrite Hd. simpl.
    split; [repeat constructor; intros []|]. split; [reflexivity|].
    intros dk0 [<-|[]]. exact Hs.
  - unfold doc_list. cbn [flat_map]. fold (doc_list D). rewrite Hd. cbn [app].
    split; [|split].
    + constructor; [|exact IH1]. intros Hin.
      specialize (IH3 dk Hin). now rewrite doc_seen_head in IH3.
    + simpl. now rewrite IH2.
    + intros dk0 [<-|Hin]; [exact Hs|].
      specialize (IH3 dk0 Hin).
      destruct (report_rerank.doc_seen dk0 seen) eqn:E; [|reflexivity].
      now rewrite (doc_seen_weaken _ dk _ E) in IH3.
Qed.

Lemma doc_list_app (l1 l2 : list Evidence) : doc_list (l1 ++ l2) = doc_list l1 ++ doc_list l2.
Proof. unfold doc_list. apply flat_map_app. Qed.

(** X26.  Reranking answers the diversity warning: the citations that
    [rerank_policy] returns name at least [min(doc_diversity_target, d)]
    distinct documents, [d] being the number of distinct non-empty
    [doc_key]s of the input; so with a target of at least 2 and two
    documents in the input, the scorer's low-diversity warning does not fire
    on the reranked citations. *)
Theorem reranked_citations_are_diverse
    (citations : list Citation) (evidence : list Evidence) (weights : Weights) :
  let t := report_rerank.get (doc_diversity_target weights) 3%Z in
  let new_cits := fst (report_rerank.rerank_policy citations evidence weights) in
  let doc_div := score_report_quality.doc_div_of
                   (score_report_quality.doc_keys_of new_cits) in
  (Z.min t (Py.len (named_docs evidence)) <= doc_div)%Z
  /\ ((2 <= t)%Z -> (2 <= Py.len (named_docs evidence))%Z ->
      forall rel_sum bad_sum,
        ~ In score_report_quality.LOW_DIVERSITY
            (score_report_quality.warnings_of doc_div rel_sum bad_sum)).
Proof.
  intros t new_cits doc_div.
  assert (Hmain : (Z.min t (Py.len (named_docs evidence)) <= doc_div)%Z).
  { subst doc_div new_cits. unfold report_rerank.rerank_policy. cbn [fst].
    rewrite (doc_keys_of_keys _ (report_rerank.rerank_evidence evidence weights))
      by apply new_cits_doc_keys.
    destruct (rerank_evidence_spec evidence weights)
      as [D [F [HP [Hpicks [HsD [HsF [Hpk [Hsub Hover]]]]]]]].
    rewrite load_weights_target in Hpicks, Hover. fold t in Hpicks, Hover.
    rewrite HP, doc_list_app.
    destruct (picks_doc_list _ _ _ Hpicks) as [Hnd [Hlen _]].
    assert (Hdiv : (Py.len D <= score_report_quality.doc_div_of (doc_list D ++ doc_list F))%Z).
    { unfold score_report_quality.doc_div_of, Py.len. rewrite <- Hlen.
      apply inj_le. apply NoDup_incl_length; [exact Hnd|].
      intros dk Hdk. apply nodup_In. apply in_or_app. now left. }
    destruct (Z.le_gt_cases t (Py.len D)) as [Hle|Hgt]; [lia|].
    assert (Hex : (Py.len (named_docs evidence) <= Py.len D)%Z).
    { apply (pass1_exhausts t D
               (Py.sort_desc report_rerank.rerank_key
                  (map (report_rerank.attach_score (report_rerank.load_weights weights))
                     evidence))
               evidence (report_rerank.load_weights weights));
        [lia | | exact Hover].
      intros x Hx. now apply sort_desc_In. }
    lia. }
  split; [exact Hmain|].
  intros Ht Hd rel_sum bad_sum Hin.
  unfold score_report_quality.warnings_of in Hin.
  destruct (Z.ltb_spec doc_div 2) as [Hlt|_]; [lia|].
  simpl in Hin.
  destruct (rel_sum <? 5)%Z, (bad_sum >=? 1)%Z; simpl in Hin;
    repeat (destruct Hin as [Hin|Hin]; [discriminate Hin|]); exact Hin.
Qed.

Lemma reranked_citations_are_diverse_witness :
  ~ In score_report_quality.LOW_DIVERSITY
      (score_report_quality.warnings_of
         (score_report_quality.doc_div_of
            (score_report_quality.doc_keys_of
               (fst (report_rerank.rerank_policy [] three_documents empty_weights))))
         0 0).
Proof.
  apply (proj2 (reranked_citations_are_diverse [] three_documents empty_weights)).
  - vm_compute. discriminate.
  - vm_compute. discriminate.
Defined.

Lemma batch_tuner_no_change_witness :
  update_weights_from_feedback.main
    (Some ["report one: looks good"; "report two: looks good"; "report three"]) 3
    (Some target_two)
  = Some target_two.
Proof.
  apply (proj2 (proj2 (proj2 (batch_tuner_no_change None 3 target_two)))).
  reflexivity.
Defined.

Lemma scorer_warnings_reach_tuner_witness :
  auto_tune_weights.low_div_of (score_report_quality.main "logs/payload.json" off_topic_payload)
  = true
  /\ auto_tune_weights.irrelevant_of
       (score_report_quality.main "logs/payload.json" off_topic_payload)
     = true.
Proof.
  split.
  - apply (proj1 (scorer_warnings_reach_tuner "logs/payload.json" off_topic_payload)).
    vm_compute. reflexivity.
  - apply (proj2 (scorer_warnings_reach_tuner "logs/payload.json" off_topic_payload)).
    vm_compute. discriminate.
Defined.
